(** * A shallow embedding of the Sinhala assistant ("Madhu") front end

    The development follows the TypeScript sources: [types.ts] (messages and
    users), the [Auth] component (signup and login over [localStorage]), the
    tool-calling [getAssistantResponse] service, and the [App] component
    (session restore, speech output, the chat turn).  JavaScript strings are
    sequences of UTF-16 code units; what [JSON.parse] reads back from
    [localStorage] is a JSON value of any shape; browser state that the code
    reads and writes ([localStorage], the console, the speech synthesiser,
    the remote endpoint) is threaded through an explicit world. *)

From stdpp Require Import gmap list strings.
From Stdlib Require Import NArith Ascii.

#[local] Set Warnings "-register-all".

Open Scope N_scope.

(** The type a value is expected at is known before the value is read, so
    that a user object is accepted where a JSON value is expected. *)
Arguments Some {A} & a.

(** ** JavaScript strings *)

(** A JavaScript string is its list of UTF-16 code units. *)
Abbreviation jsstring := (list N).

(** The source files are UTF-8; [utf16] turns the bytes of a literal into the
    code units the engine sees (one unit up to U+FFFF, a surrogate pair above). *)
Fixpoint utf16 (bs : list N) : jsstring :=
  match bs with
  | [] => []
  | b0 :: r0 =>
    if b0 <? 128 then b0 :: utf16 r0
    else match r0 with
    | [] => [b0]
    | b1 :: r1 =>
      if b0 <? 224 then ((b0 mod 32) * 64 + b1 mod 64) :: utf16 r1
      else match r1 with
      | [] => [b0; b1]
      | b2 :: r2 =>
        if b0 <? 240
        then ((b0 mod 16) * 4096 + (b1 mod 64) * 64 + b2 mod 64) :: utf16 r2
        else match r2 with
        | [] => [b0; b1; b2]
        | b3 :: r3 =>
          let cp := (b0 mod 8) * 262144 + (b1 mod 64) * 4096
                    + (b2 mod 64) * 64 + b3 mod 64 in
          (55296 + (cp - 65536) / 1024) :: (56320 + (cp - 65536) mod 1024)
            :: utf16 r3
        end
      end
    end
  end.

Definition js (s : string) : jsstring :=
  utf16 (map N_of_ascii (String.list_ascii_of_string s)).
Arguments js : simpl never.

(** ECMAScript [WhiteSpace] and [LineTerminator] code points: what
    [String.prototype.trim] strips. *)
Definition isWhiteSpace (c : N) : bool :=
  (c =? 9) || (c =? 10) || (c =? 11) || (c =? 12) || (c =? 13) || (c =? 32)
  || (c =? 160) || (c =? 5760) || ((8192 <=? c) && (c <=? 8202))
  || (c =? 8232) || (c =? 8233) || (c =? 8239) || (c =? 8287)
  || (c =? 12288) || (c =? 65279).

Fixpoint trimStart (s : jsstring) : jsstring :=
  match s with
  | [] => []
  | c :: r => if isWhiteSpace c then trimStart r else s
  end.

Definition trimEnd (s : jsstring) : jsstring := rev (trimStart (rev s)).

Definition trim (s : jsstring) : jsstring := trimEnd (trimStart s).

(** "Empty or whitespace-only": every code unit is white space. *)
Definition blank (s : jsstring) : bool := forallb isWhiteSpace s.

(** Truthiness of a string value: only the empty string is falsy. *)
Definition truthy (s : jsstring) : bool :=
  match s with [] => false | _ => true end.

(** Truthiness of a possibly [undefined] string. *)
Definition truthy_opt (o : option jsstring) : bool :=
  match o with Some s => truthy s | None => false end.

(** [`${v}`] for a possibly [undefined] string. *)
Definition interpolate (o : option jsstring) : jsstring :=
  match o with Some s => s | None => js "undefined" end.

(** [s.startsWith(p)] *)
Fixpoint startsWith (s p : jsstring) : bool :=
  match p, s with
  | [], _ => true
  | _ :: _, [] => false
  | a :: p', b :: s' => (a =? b) && startsWith s' p'
  end.

(** [n.toString()] for a non-negative integer. *)
Fixpoint digits (u : Decimal.uint) : jsstring :=
  match u with
  | Decimal.Nil => []
  | Decimal.D0 r => 48 :: digits r
  | Decimal.D1 r => 49 :: digits r
  | Decimal.D2 r => 50 :: digits r
  | Decimal.D3 r => 51 :: digits r
  | Decimal.D4 r => 52 :: digits r
  | Decimal.D5 r => 53 :: digits r
  | Decimal.D6 r => 54 :: digits r
  | Decimal.D7 r => 55 :: digits r
  | Decimal.D8 r => 56 :: digits r
  | Decimal.D9 r => 57 :: digits r
  end.

Definition toString (n : N) : jsstring := digits (N.to_uint n).

(** ** types.ts *)

Inductive MessageRole := USER | MODEL | SYSTEM.

#[global] Instance MessageRole_eq_dec : EqDecision MessageRole.
Proof. solve_decision. Defined.

Module SearchResult.
Record t := mk { uri : jsstring; title : jsstring }.
End SearchResult.

Module Message.
Record t := mk {
  id : jsstring;
  role : MessageRole;
  text : option jsstring;
  imageUrl : option jsstring;
  searchResults : option (list SearchResult.t)
}.
End Message.

Module User.
Record t := mk { username : jsstring }.
End User.

(** ** Thrown values, the console *)

(** A thrown [Error] object, by its [name] and [message]. *)
Module JsError.
Record t := mk { name : jsstring; message : jsstring }.
End JsError.

(** [new Error(msg)] *)
Definition new_Error (msg : jsstring) : JsError.t :=
  JsError.mk (js "Error") msg.

(** The [TypeError] of a property read on [undefined]. *)
Definition TypeError_undefined (prop : jsstring) : JsError.t :=
  JsError.mk (js "TypeError")
    (js "Cannot read properties of undefined (reading '" ++ prop ++ js "')").

(** The [TypeError] of a property read on [null]. *)
Definition TypeError_null (prop : jsstring) : JsError.t :=
  JsError.mk (js "TypeError")
    (js "Cannot read properties of null (reading '" ++ prop ++ js "')").

(** The [SyntaxError] of [JSON.parse]. *)
Definition SyntaxError_json : JsError.t :=
  JsError.mk (js "SyntaxError") (js "Unexpected token in JSON").

(** The [RangeError] of an array whose [length] is set to a value that is no
    length. *)
Definition RangeError_length : JsError.t :=
  JsError.mk (js "RangeError") (js "Invalid array length").

(** One [console.error] call: an optional leading label and the error. *)
Module LogEntry.
Record t := mk { label : option jsstring; error : JsError.t }.
End LogEntry.

(** ** JSON values *)

(** A value [JSON.parse] returns.  A number is kept by its decimal rendering,
    the text [String(n)] gives: the code tests such a number for truthiness
    and renders it, and does nothing else with it.  An object is the finite
    map of its own properties. *)
Inductive JSON :=
  | JNull
  | JBool (b : bool)
  | JNumber (repr : jsstring)
  | JString (s : jsstring)
  | JArray (items : list JSON)
  | JObject (fields : gmap jsstring JSON).

(** [ToBoolean]: [null], [false], zero, [NaN] and the empty string are
    falsy. *)
Definition truthy_json (v : JSON) : bool :=
  match v with
  | JNull => false
  | JBool b => b
  | JNumber repr =>
    negb (bool_decide (repr = js "0") || bool_decide (repr = js "NaN"))
  | JString s => truthy s
  | JArray _ | JObject _ => true
  end.

(** [items.join(',')] on rendered items *)
Fixpoint join_comma (items : list jsstring) : jsstring :=
  match items with
  | [] => []
  | [item] => item
  | item :: rest => item ++ 44 :: join_comma rest
  end.

(** [String(v)], as a template literal renders a value: an array is the
    join of its items, with nothing for a [null] item; an object is rendered
    by [Object.prototype.toString], unless it has a [toString] property of
    its own, which is no function: then there is no rendering, and the
    conversion throws a [TypeError]. *)
Fixpoint ToString (v : JSON) : option jsstring :=
  match v with
  | JNull => Some (js "null")
  | JBool b => Some (if b then js "true" else js "false")
  | JNumber repr => Some repr
  | JString s => Some s
  | JArray items =>
    join_comma <$> mapM (fun item => match item with
                                     | JNull => Some []
                                     | _ => ToString item
                                     end) items
  | JObject fields =>
    match fields !! js "toString" with
    | Some _ => None
    | None => Some (js "[object Object]")
    end
  end.

Definition TypeError_primitive : JsError.t :=
  JsError.mk (js "TypeError") (js "Cannot convert object to primitive value").

(** A key that is an array index: the canonical decimal numeral of an
    integer below 2^32 - 1. *)
Definition isDigit (c : N) : bool := (48 <=? c) && (c <=? 57).

Definition digits_value (s : jsstring) : N :=
  foldl (fun n c => 10 * n + (c - 48)) 0 s.

Definition array_index (key : jsstring) : option N :=
  let n := digits_value key in
  if forallb isDigit key && bool_decide (toString n = key)
     && (n <? 4294967295)
  then Some n else None.

(** [items[index]], [undefined] past the end *)
Definition item {A} (items : list A) (index : N) : option A :=
  if index <? N.of_nat (length items) then items !! N.to_nat index else None.

(** The string-keyed members of the built-in prototypes (ECMAScript 2024
    with its Annex B); all of them are functions or objects, hence truthy. *)
Definition Object_prototype_keys : list jsstring :=
  map js ["constructor"; "hasOwnProperty"; "isPrototypeOf";
          "propertyIsEnumerable"; "toLocaleString"; "toString"; "valueOf";
          "__proto__"; "__defineGetter__"; "__defineSetter__";
          "__lookupGetter__"; "__lookupSetter__"]%string.

Definition Boolean_prototype_keys : list jsstring :=
  map js ["constructor"; "toString"; "valueOf"]%string.

Definition Number_prototype_keys : list jsstring :=
  map js ["constructor"; "toExponential"; "toFixed"; "toLocaleString";
          "toPrecision"; "toString"; "valueOf"]%string.

Definition String_prototype_keys : list jsstring :=
  map js ["anchor"; "at"; "big"; "blink"; "bold"; "charAt"; "charCodeAt";
          "codePointAt"; "concat"; "constructor"; "endsWith"; "fixed";
          "fontcolor"; "fontsize"; "includes"; "indexOf"; "isWellFormed";
          "italics"; "lastIndexOf"; "link"; "localeCompare"; "match";
          "matchAll"; "normalize"; "padEnd"; "padStart"; "repeat";
          "replace"; "replaceAll"; "search"; "slice"; "small"; "split";
          "startsWith"; "strike"; "sub"; "substr"; "substring"; "sup";
          "toLocaleLowerCase"; "toLocaleUpperCase"; "toLowerCase";
          "toString"; "toUpperCase"; "toWellFormed"; "trim"; "trimEnd";
          "trimLeft"; "trimRight"; "trimStart"; "valueOf"]%string.

Definition Array_prototype_keys : list jsstring :=
  map js ["at"; "concat"; "constructor"; "copyWithin"; "entries"; "every";
          "fill"; "filter"; "find"; "findIndex"; "findLast";
          "findLastIndex"; "flat"; "flatMap"; "forEach"; "includes";
          "indexOf"; "join"; "keys"; "lastIndexOf"; "map"; "pop"; "push";
          "reduce"; "reduceRight"; "reverse"; "shift"; "slice"; "some";
          "sort"; "splice"; "toLocaleString"; "toReversed"; "toSorted";
          "toSpliced"; "toString"; "unshift"; "values"; "with"]%string.

(** The keys a value inherits: those of its own prototype and, behind it,
    those of [Object.prototype]. *)
Definition prototype_keys (v : JSON) : list jsstring :=
  match v with
  | JNull => []
  | JBool _ => Boolean_prototype_keys ++ Object_prototype_keys
  | JNumber _ => Number_prototype_keys ++ Object_prototype_keys
  | JString _ => String_prototype_keys ++ Object_prototype_keys
  | JArray _ => Array_prototype_keys ++ Object_prototype_keys
  | JObject _ => Object_prototype_keys
  end.

(** The own properties of a value: the fields of an object, the items and
    the [length] of an array, the characters and the [length] of a string. *)
Definition own_property (v : JSON) (key : jsstring) : option JSON :=
  match v with
  | JObject fields => fields !! key
  | JArray items =>
    if bool_decide (key = js "length")
    then Some (JNumber (toString (N.of_nat (length items))))
    else index ← array_index key; item items index
  | JString s =>
    if bool_decide (key = js "length")
    then Some (JNumber (toString (N.of_nat (length s))))
    else index ← array_index key; c ← item s index; Some (JString [c])
  | JNull | JBool _ | JNumber _ => None
  end.

(** What reading [v[key]] finds: an own property, a member of a built-in
    prototype, or [undefined]. *)
Inductive Property :=
  | Own (v : JSON)
  | Inherited
  | Undefined.

Definition property (v : JSON) (key : jsstring) : Property :=
  match own_property v key with
  | Some x => Own x
  | None =>
    if bool_decide (key ∈ prototype_keys v) then Inherited else Undefined
  end.

Definition truthy_property (p : Property) : bool :=
  match p with Own v => truthy_json v | Inherited => true | Undefined => false
  end.

(** The [TypeError] of an assignment to a property of a primitive value (the
    sources are modules, hence strict code): the characters and the [length]
    of a string are read-only, and no property can be created. *)
Definition TypeError_assign (prop : jsstring) (v : JSON) : JsError.t :=
  let kind := match v with
              | JBool _ => js "boolean"
              | JNumber _ => js "number"
              | _ => js "string"
              end in
  let shown := js " '" ++ default [] (ToString v) ++ js "'" in
  JsError.mk (js "TypeError")
    (match own_property v prop with
     | Some _ =>
       js "Cannot assign to read only property '" ++ prop ++ js "' of "
       ++ kind ++ shown
     | None =>
       js "Cannot create property '" ++ prop ++ js "' on " ++ kind ++ shown
     end).

(** The [TypeError] of an assignment to a property of [null]. *)
Definition TypeError_null_set (prop : jsstring) : JsError.t :=
  JsError.mk (js "TypeError")
    (js "Cannot set properties of null (setting '" ++ prop ++ js "')").

(** [JSON.parse(JSON.stringify(v))]: serialisation writes a number that is
    not finite as [null], and keeps everything else. *)
Fixpoint reparsed (v : JSON) : JSON :=
  match v with
  | JNumber repr =>
    if bool_decide (repr = js "Infinity") || bool_decide (repr = js "-Infinity")
       || bool_decide (repr = js "NaN")
    then JNull else v
  | JArray items => JArray (reparsed <$> items)
  | JObject fields => JObject (reparsed <$> fields)
  | JNull | JBool _ | JString _ => v
  end.

(** ** localStorage *)

(** A stored text, seen through [JSON.parse]: the empty text (on which the
    parser throws, and which is falsy), any other text the parser rejects, or
    a text the parser accepts, with the value it returns. *)
Inductive StoredText :=
  | EmptyText
  | Garbled
  | Encodes (v : JSON).

(** Truthiness of what [localStorage.getItem] returns ([None] is [null]). *)
Definition truthy_item (o : option StoredText) : bool :=
  match o with
  | None | Some EmptyText => false
  | Some Garbled | Some (Encodes _) => true
  end.

(** [JSON.stringify(v)], as a stored text. *)
Definition JSON_stringify (v : JSON) : StoredText := Encodes (reparsed v).

Module Credential.
Record t := mk { password : jsstring }.
End Credential.

(** The objects the code builds: [{ username }], [{ password }], and the
    credential store that maps each username to its [{ password }]. *)
Definition user_json (user : User.t) : JSON :=
  JObject {[ js "username" := JString (User.username user) ]}.
Coercion user_json : User.t >-> JSON.

Definition credential_json (c : Credential.t) : JSON :=
  JObject {[ js "password" := JString (Credential.password c) ]}.

Definition users_json (users : gmap jsstring Credential.t) : JSON :=
  JObject (credential_json <$> users).

Module LocalStorage.
Record t := mk {
  users : option StoredText;
  currentUser : option StoredText
}.
End LocalStorage.

(** ** The remote service: what the client reads of its answers *)

Module Args.
Record t := mk { query : option jsstring; prompt : option jsstring }.
End Args.

Module FunctionCall.
Record t := mk { name : option jsstring; args : option Args.t }.
End FunctionCall.

Module Part.
Record t := mk {
  text : option jsstring;
  functionCall : option FunctionCall.t
}.
End Part.

Module Content.
Record t := mk { parts : option (list Part.t) }.
End Content.

Module Web.
Record t := mk { uri : jsstring; title : jsstring }.
End Web.

Module GroundingChunk.
Record t := mk { web : option Web.t }.
End GroundingChunk.

Module GroundingMetadata.
Record t := mk { groundingChunks : option (list GroundingChunk.t) }.
End GroundingMetadata.

Module Candidate.
Record t := mk {
  content : option Content.t;
  groundingMetadata : option GroundingMetadata.t
}.
End Candidate.

(** A [GenerateContentResponse]: its candidates and its [text] accessor. *)
Module Response.
Record t := mk {
  candidates : option (list Candidate.t);
  text : option jsstring
}.
End Response.

Module Image.
Record t := mk { imageBytes : option jsstring }.
End Image.

Module GeneratedImage.
Record t := mk { image : option Image.t }.
End GeneratedImage.

Module ImagesResponse.
Record t := mk { generatedImages : option (list GeneratedImage.t) }.
End ImagesResponse.

(** One entry of the history handed to [ai.chats.create]:
    [{role, parts: [{text}]}]. *)
Module TextPart.
Record t := mk { text : jsstring }.
End TextPart.

Module HistoryItem.
Record t := mk { role : MessageRole; parts : list TextPart.t }.
End HistoryItem.

(** What a tool hands back to the model: [{summary, results}] from the web
    search, [{imageUrl}] or [{error}] from image generation, [{time}] from
    the clock. *)
Inductive Payload :=
  | SearchPayload (summary : option jsstring) (results : list SearchResult.t)
  | ImageUrlPayload (imageUrl : jsstring)
  | ImageErrorPayload (error : jsstring)
  | TimePayload (time : jsstring).

(** The requests the client sends over the network. *)
Inductive Request :=
  | ChatSendMessage (history : list HistoryItem.t) (message : jsstring)
  | ChatSendFunctionResponse (name : option jsstring) (response : Payload)
  | SharedChatSendMessage (message : jsstring)
  | GenerateContent (contents : jsstring)
  | GenerateImages (model : jsstring) (prompt : option jsstring).

(** The outcome of an awaited call: a value, or a thrown error. *)
Inductive result (A : Type) :=
  | Ok (a : A)
  | Throw (e : JsError.t).
Arguments Ok {A} a.
Arguments Throw {A} e.

Module Voice.
Record t := mk { name : jsstring; lang : jsstring }.
End Voice.

(** The environment of one chat turn: how the remote endpoint settles each
    request (a response, or a fault: network, quota, malformed answer), and
    what the clock reads. *)
Module Env.
Record t := mk {
  chat_sendMessage : list HistoryItem.t -> jsstring -> result Response.t;
  chat_sendFunctionResponse : option jsstring -> Payload -> result Response.t;
  models_generateContent : jsstring -> result Response.t;
  models_generateImages : jsstring -> option jsstring -> result ImagesResponse.t;
  (** [new Date().toLocaleString(..)] when the time tool runs *)
  toLocaleString_now : jsstring;
  (** [Date.now()] when the turn starts and when its answer arrives *)
  Date_now_submit : N;
  Date_now_reply : N;
  (** ['speechSynthesis' in window] *)
  hasSpeechSynthesis : bool;
  (** the module-level chat of the bilingual front end *)
  shared_chat_sendMessage : jsstring -> result Response.t;
  (** [Date.now()] when that front end notes a navigation *)
  Date_now_navigate : N;
  (** [window.speechSynthesis.getVoices()] *)
  getVoices : list Voice.t
}.
End Env.

(** ** The state of the [App] component *)

Module Utterance.
Record t := mk {
  text : jsstring;
  voice : option Voice.t;
  lang : option jsstring
}.
End Utterance.

(** Calls on [window.speechSynthesis]. *)
Inductive SynthCall :=
  | synth_cancel
  | synth_speak (u : Utterance.t).

(** The [useState] cells of [App], and the [error] cell of its [Auth] child. *)
Module AppState.
Record t := mk {
  (** [User | null] by its type; the value [setCurrentUser] was given *)
  currentUser : JSON;
  messages : list Message.t;
  userInput : jsstring;
  isLoading : bool;
  status : jsstring;
  isListening : bool;
  isSpeakingEnabled : bool;
  voices : list Voice.t;
  ttsWarningShown : bool;
  error : jsstring
}.
End AppState.

(** The state setters the handlers call. *)
Inductive Update :=
  | setCurrentUser (v : JSON)
  | setMessages_append (m : Message.t)
  | setMessages_to (ms : list Message.t)
  | setUserInput (s : jsstring)
  | setIsLoading (b : bool)
  | setStatus (s : jsstring)
  | setIsListening (b : bool)
  | setIsSpeakingEnabled_toggle
  | setVoices (vs : list Voice.t)
  | setTtsWarningShown (b : bool)
  | setError (s : jsstring).

Definition apply_update (u : Update) (s : AppState.t) : AppState.t :=
  let '(AppState.mk cu ms ui il st li sp vs tw er) := s in
  match u with
  | setCurrentUser x => AppState.mk x ms ui il st li sp vs tw er
  | setMessages_append m => AppState.mk cu (ms ++ [m]) ui il st li sp vs tw er
  | setMessages_to x => AppState.mk cu x ui il st li sp vs tw er
  | setUserInput x => AppState.mk cu ms x il st li sp vs tw er
  | setIsLoading x => AppState.mk cu ms ui x st li sp vs tw er
  | setStatus x => AppState.mk cu ms ui il x li sp vs tw er
  | setIsListening x => AppState.mk cu ms ui il st x sp vs tw er
  | setIsSpeakingEnabled_toggle => AppState.mk cu ms ui il st li (negb sp) vs tw er
  | setVoices x => AppState.mk cu ms ui il st li sp x tw er
  | setTtsWarningShown x => AppState.mk cu ms ui il st li sp vs x er
  | setError x => AppState.mk cu ms ui il st li sp vs tw x
  end.

(** ** The world a handler runs in *)

(** The live component state and [localStorage], with the traces of what the
    handler did: state-setter calls, [console.error] calls, requests sent,
    calls on the synthesiser, and [window.open] calls. *)
Module World.
Record t := mk {
  app : AppState.t;
  localStorage : LocalStorage.t;
  updates : list Update;
  console : list LogEntry.t;
  requests : list Request;
  synth : list SynthCall;
  opened : list jsstring
}.
End World.

(** Handlers are state transformers that may throw. *)
Definition M (A : Type) : Type := World.t -> World.t * result A.

#[global] Instance M_ret : MRet M := fun A a w => (w, Ok a).

#[global] Instance M_bind : MBind M := fun A B f m w =>
  match m w with
  | (w', Ok a) => f a w'
  | (w', Throw e) => (w', Throw e)
  end.

Definition throw {A} (e : JsError.t) : M A := fun w => (w, Throw e).

(** [try { body } catch (e) { handler e }] *)
Definition try_catch {A} (body : M A) (handler : JsError.t -> M A) : M A :=
  fun w =>
    match body w with
    | (w', Ok a) => (w', Ok a)
    | (w', Throw e) => handler e w'
    end.

(** [try { body } finally { fin }] *)
Definition try_finally {A} (body : M A) (fin : M unit) : M A :=
  fun w =>
    let '(w', r) := body w in
    match fin w' with
    | (w'', Ok _) => (w'', r)
    | (w'', Throw e) => (w'', Throw e)
    end.

(** A state-setter call: the state changes and the call is recorded. *)
Definition dispatch (u : Update) : M unit := fun w =>
  let '(World.mk a ls us c rq sy op) := w in
  (World.mk (apply_update u a) ls (us ++ [u]) c rq sy op, Ok tt).

Definition console_error (label : option jsstring) (e : JsError.t) : M unit :=
  fun w =>
    let '(World.mk a ls us c rq sy op) := w in
    (World.mk a ls us (c ++ [LogEntry.mk label e]) rq sy op, Ok tt).

(** Sending a request and awaiting how the endpoint settles it. *)
Definition send {A} (rq : Request) (settled : result A) : M A := fun w =>
  let '(World.mk a ls us c rqs sy op) := w in
  (World.mk a ls us c (rqs ++ [rq]) sy op, settled).

Definition speechSynthesis (call : SynthCall) : M unit := fun w =>
  let '(World.mk a ls us c rq sy op) := w in
  (World.mk a ls us c rq (sy ++ [call]) op, Ok tt).

Definition window_open (url : jsstring) : M unit := fun w =>
  let '(World.mk a ls us c rq sy op) := w in
  (World.mk a ls us c rq sy (op ++ [url]), Ok tt).

Definition getLocalStorage : M LocalStorage.t := fun w =>
  (w, Ok (World.localStorage w)).

Definition setLocalStorage (ls : LocalStorage.t) : M unit := fun w =>
  let '(World.mk a _ us c rq sy op) := w in
  (World.mk a ls us c rq sy op, Ok tt).

(** Running the statements of a list in order. *)
Fixpoint for_each {A} (f : A -> M unit) (l : list A) : M unit :=
  match l with
  | [] => mret tt
  | x :: r => f x ;; for_each f r
  end.

(** ** components/Auth.tsx *)

(** The messages [setError] shows, under the names the specification gives
    the failures. *)
Definition msg_ValidationError : jsstring :=
  js "පරිශීලක නාමය සහ මුරපදය හිස් විය නොහැක.".
Definition msg_DuplicateUserError : jsstring :=
  js "මෙම පරිශීලක නාමය දැනටමත් භාවිතයේ ඇත. කරුණාකර ඇතුල් වන්න.".
Definition msg_InvalidCredentialsError : jsstring :=
  js "පරිශීලක නාමය හෝ මුරපදය වැරදියි.".
Definition msg_UnexpectedError : jsstring :=
  js "අනපේක්ෂිත දෝෂයක් ඇතිවිය.".

(** [JSON.parse] on a stored text. *)
Definition JSON_parse (t : StoredText) : M JSON :=
  match t with
  | Encodes v => mret v
  | EmptyText | Garbled => throw SyntaxError_json
  end.

(** [JSON.parse(localStorage.getItem('users') || '{}')] *)
Definition parse_users : M JSON :=
  ls ← getLocalStorage;
  match LocalStorage.users ls with
  | Some t => if truthy_item (Some t) then JSON_parse t else mret (JObject ∅)
  | None => mret (JObject ∅)
  end.

(** [users[username]]: reading a property of [null] throws. *)
Definition getProperty (users : JSON) (key : jsstring) : M Property :=
  match users with
  | JNull => throw (TypeError_null key)
  | _ => mret (property users key)
  end.

(** [p.password === password], for a truthy [p] *)
Definition password_is (p : Property) (password : jsstring) : bool :=
  match p with
  | Own v =>
    match property v (js "password") with
    | Own (JString s) => bool_decide (s = password)
    | _ => false
    end
  | Inherited | Undefined => false
  end.

(** [users[key] = v] for an object [v], where [users[key]] was read as
    falsy; the result is the value as [JSON.stringify] sees it afterwards.
    An object gets or replaces an own property.  In an array an index sets
    that item, with the holes it leaves before it serialised as [null],
    [length] takes no object, and any other key is a property that
    serialisation leaves out.  A primitive value takes no property. *)
Definition setProperty (users : JSON) (key : jsstring) (v : JSON) : M JSON :=
  match users with
  | JObject fields => mret (JObject (<[key := v]> fields))
  | JArray items =>
    if bool_decide (key = js "length") then throw RangeError_length
    else match array_index key with
         | Some index =>
           let len := N.of_nat (length items) in
           mret (JArray (if index <? len
                         then <[N.to_nat index := v]> items
                         else items ++ replicate (N.to_nat (index - len)) JNull
                              ++ [v]))
         | None => mret users
         end
  | JNull => throw (TypeError_null_set key)
  | JBool _ | JNumber _ | JString _ => throw (TypeError_assign key users)
  end.

(** [localStorage.setItem('users', JSON.stringify(users))] *)
Definition store_users (users : JSON) : M unit :=
  ls ← getLocalStorage;
  setLocalStorage
    (LocalStorage.mk (Some (JSON_stringify users))
       (LocalStorage.currentUser ls)).

(** [App]'s [handleLogin], which it passes to [Auth] as [onLogin]. *)
Definition handleLogin (user : User.t) : M unit :=
  ls ← getLocalStorage;
  setLocalStorage
    (LocalStorage.mk (LocalStorage.users ls) (Some (JSON_stringify user)));;
  dispatch (setCurrentUser user).

(** The [onLogin] prop, as [App] binds it. *)
Definition onLogin : User.t -> M unit := handleLogin.

Module Auth.

Definition handleSignup (username password : jsstring) : M unit :=
  if negb (truthy (trim username)) || negb (truthy (trim password)) then
    dispatch (setError msg_ValidationError)
  else
    try_catch
      (users ← parse_users;
       existing ← getProperty users username;
       if truthy_property existing then
         dispatch (setError msg_DuplicateUserError)
       else
         users ← setProperty users username
                   (credential_json (Credential.mk password));
         store_users users;;
         onLogin (User.mk username))
      (fun err =>
         dispatch (setError msg_UnexpectedError);;
         console_error None err).

Definition handleLogin (username password : jsstring) : M unit :=
  if negb (truthy (trim username)) || negb (truthy (trim password)) then
    dispatch (setError msg_ValidationError)
  else
    try_catch
      (users ← parse_users;
       p ← getProperty users username;
       if truthy_property p && password_is p password then
         onLogin (User.mk username)
       else
         dispatch (setError msg_InvalidCredentialsError))
      (fun err =>
         dispatch (setError msg_UnexpectedError);;
         console_error None err).

End Auth.

(** ** App.tsx: the session *)

(** [localStorage.removeItem('currentUser')] *)
Definition remove_currentUser : M unit :=
  ls ← getLocalStorage;
  setLocalStorage (LocalStorage.mk (LocalStorage.users ls) None).

(** The effect run once on mount: restore the logged-in user. *)
Definition restore : M unit :=
  ls ← getLocalStorage;
  let loggedInUserJson := LocalStorage.currentUser ls in
  match loggedInUserJson with
  | Some t =>
    if truthy_item loggedInUserJson then
      try_catch
        (user ← JSON_parse t;
         dispatch (setCurrentUser user))
        (fun error =>
           console_error
             (Some (js "Failed to parse user from localStorage")) error;;
           remove_currentUser)
    else mret tt
  | None => mret tt
  end.

Definition handleLogout : M unit :=
  remove_currentUser;;
  dispatch (setCurrentUser JNull);;
  dispatch (setMessages_to []).

(** [`${currentUser.username}`], for a truthy [currentUser]; no built-in
    prototype has a member of that name, so a value that does not own it
    reads [undefined]. *)
Definition username_text (currentUser : JSON) : M jsstring :=
  match property currentUser (js "username") with
  | Own v =>
    match ToString v with
    | Some text => mret text
    | None => throw TypeError_primitive
    end
  | Inherited | Undefined => mret (js "undefined")
  end.

(** The effect run when [currentUser] changes: the greeting. *)
Definition greet : M unit := fun w =>
  let currentUser := AppState.currentUser (World.app w) in
  if truthy_json currentUser then
    (username ← username_text currentUser;
     dispatch (setMessages_to
       [Message.mk (js "init") MODEL
          (Some (js "ආයුබෝවන් " ++ username
                 ++ js "! මම මදු, ඔබේ AI සහායක. අද මම ඔබට උදව් කළ හැක්කේ කෙසේද?"))
          None None])) w
  else (w, Ok tt).

(** ** services/geminiService.ts (the tool-calling assistant) *)

Definition searchTheWeb : jsstring := js "searchTheWeb".
Definition generateImage : jsstring := js "generateImage".
Definition getCurrentTime : jsstring := js "getCurrentTime".

Definition msg_search_failed : jsstring :=
  js "මට කණගාටුයි, සෙවීම සිදු කිරීමට නොහැකි විය.".
Definition msg_no_image : jsstring :=
  js "රූපයක් ජනනය කිරීමට නොහැකි විය.".
Definition msg_image_failed : jsstring :=
  js "රූපය ජනනය කිරීමේදී දෝෂයක් ඇතිවිය.".
Definition msg_not_understood : jsstring :=
  js "මට කණගාටුයි, මට එය තේරුම් ගැනීමට නොහැකි විය.".

(** [response.candidates?.[0]] *)
Definition firstCandidate (r : Response.t) : option Candidate.t :=
  Response.candidates r ≫= head.

(** [response.candidates?.[0]?.content?.parts?.[0]] *)
Definition firstPart (r : Response.t) : option Part.t :=
  candidate ← firstCandidate r;
  content ← Candidate.content candidate;
  parts ← Content.parts content;
  head parts.

(** [response.candidates?.[0]?.content?.parts?.[0]?.functionCall] *)
Definition functionCall_of (r : Response.t) : option FunctionCall.t :=
  firstPart r ≫= Part.functionCall.

(** [candidates?.[0]?.groundingMetadata?.groundingChunks ?? []], then
    [.filter(chunk => chunk.web).map(chunk => ({uri, title}))] *)
Definition searchResults_of (r : Response.t) : list SearchResult.t :=
  let rawChunks :=
    default [] (candidate ← firstCandidate r;
                metadata ← Candidate.groundingMetadata candidate;
                GroundingMetadata.groundingChunks metadata) in
  (fun w => SearchResult.mk (Web.uri w) (Web.title w))
    <$> omap GroundingChunk.web rawChunks.

Definition performWebSearch (env : Env.t) (query : option jsstring)
  : M Payload :=
  try_catch
    (let contents :=
       js "Provide a concise, single-paragraph summary in Sinhala for the query: "
       ++ [34] ++ interpolate query ++ [34] in
     response ← send (GenerateContent contents)
                     (Env.models_generateContent env contents);
     mret (SearchPayload (Response.text response) (searchResults_of response)))
    (fun error =>
       console_error (Some (js "Error searching with Gemini:")) error;;
       mret (SearchPayload (Some msg_search_failed) [])).

Definition performImageGeneration (env : Env.t) (prompt : option jsstring)
  : M Payload :=
  try_catch
    (let model := js "imagen-4.0-generate-001" in
     response ← send (GenerateImages model prompt)
                     (Env.models_generateImages env model prompt);
     match ImagesResponse.generatedImages response with
     | Some (first :: _) =>
       match GeneratedImage.image first with
       | Some image =>
         mret (ImageUrlPayload
                 (js "data:image/jpeg;base64,"
                  ++ interpolate (Image.imageBytes image)))
       | None => throw (TypeError_undefined (js "imageBytes"))
       end
     | Some [] | None => mret (ImageErrorPayload msg_no_image)
     end)
    (fun error =>
       console_error (Some (js "Error generating image with Gemini:")) error;;
       mret (ImageErrorPayload msg_image_failed)).

Module AssistantResponse.
Record t := mk {
  text : option jsstring;
  imageUrl : option jsstring;
  searchResults : option (list SearchResult.t)
}.
End AssistantResponse.

(** [functionCall.args.<key>]: reading a key of a missing [args] throws. *)
Definition arg (fc : FunctionCall.t) (key : jsstring)
  (read : Args.t -> option jsstring) : M (option jsstring) :=
  match FunctionCall.args fc with
  | Some a => mret (read a)
  | None => throw (TypeError_undefined key)
  end.

(** The tool dispatch on [functionCall.name]. *)
Definition call_tool (env : Env.t) (fc : FunctionCall.t) : M Payload :=
  let name := FunctionCall.name fc in
  if bool_decide (name = Some searchTheWeb) then
    query ← arg fc (js "query") Args.query;
    performWebSearch env query
  else if bool_decide (name = Some generateImage) then
    prompt ← arg fc (js "prompt") Args.prompt;
    performImageGeneration env prompt
  else if bool_decide (name = Some getCurrentTime) then
    mret (TimePayload (Env.toLocaleString_now env))
  else
    throw (new_Error (js "Unknown function call: " ++ interpolate name)).

(** ['results' in payload] and ['imageUrl' in payload], with the value read
    when the key is there. *)
Definition results_in (payload : Payload) : option (list SearchResult.t) :=
  match payload with SearchPayload _ results => Some results | _ => None end.

Definition imageUrl_in (payload : Payload) : option jsstring :=
  match payload with ImageUrlPayload imageUrl => Some imageUrl | _ => None end.

(** Attaching the tool output to the final response. *)
Definition attach_tool_output (name : option jsstring) (payload : Payload)
  (finalResponse : AssistantResponse.t) : AssistantResponse.t :=
  let finalResponse :=
    if bool_decide (name = Some searchTheWeb) then
      match results_in payload with
      | Some results =>
        AssistantResponse.mk (AssistantResponse.text finalResponse)
          (AssistantResponse.imageUrl finalResponse) (Some results)
      | None => finalResponse
      end
    else finalResponse in
  if bool_decide (name = Some generateImage) then
    match imageUrl_in payload with
    | Some imageUrl =>
      AssistantResponse.mk (AssistantResponse.text finalResponse)
        (Some imageUrl) (AssistantResponse.searchResults finalResponse)
    | None => finalResponse
    end
  else finalResponse.

Definition getAssistantResponse (env : Env.t) (message : jsstring)
  (history : list HistoryItem.t) : M AssistantResponse.t :=
  response ← send (ChatSendMessage history message)
                  (Env.chat_sendMessage env history message);
  match functionCall_of response with
  | Some functionCall =>
    let name := FunctionCall.name functionCall in
    functionResponsePayload ← call_tool env functionCall;
    result2 ← send (ChatSendFunctionResponse name functionResponsePayload)
                   (Env.chat_sendFunctionResponse env name
                      functionResponsePayload);
    let finalResponseText := default [] (firstPart result2 ≫= Part.text) in
    mret (attach_tool_output name functionResponsePayload
            (AssistantResponse.mk (Some finalResponseText) None None))
  | None =>
    let text := firstPart response ≫= Part.text in
    mret (AssistantResponse.mk
            (Some (if truthy_opt text then default [] text
                   else msg_not_understood))
            None None)
  end.

(** ** App.tsx: speech output and the chat turn *)

Definition targetLang : jsstring := js "si-LK".

Definition status_thinking : jsstring := js "සිතමින්...".
Definition status_online : jsstring := js "සබැඳි ඇත".
Definition msg_apology : jsstring :=
  js "මට කණගාටුයි, දෝෂයක් ඇතිවිය. කරුණාකර නැවත උත්සාහ කරන්න.".

Definition warningMessage : Message.t :=
  Message.mk (js "tts-warning") SYSTEM
    (Some (js "කථන ප්‍රතිදානය සඳහා සිංහල භාෂා පැකේජයක් ඔබගේ උපාංගයේ ස්ථාපනය කර නොමැති බව පෙනේ. පිළිතුරු පෙළ ලෙස දිස්වනු ඇත."))
    None None.

(** The voice [speak] picks: [voices.find] on the exact tag, and when that
    finds nothing, [voices.find] on the prefix. *)
Definition selectVoice (voices : list Voice.t) : option Voice.t :=
  let selectedVoice :=
    List.find (fun voice => bool_decide (Voice.lang voice = targetLang)) voices in
  match selectedVoice with
  | Some voice => Some voice
  | None =>
    List.find (fun voice => startsWith (Voice.lang voice) (js "si")) voices
  end.

(** [speak] is a callback built at a render: [voices], [isSpeakingEnabled] and
    [ttsWarningShown] are the values of that render, its state-setter calls
    act on the live state. *)
Definition speak (env : Env.t) (render : AppState.t) (text : jsstring)
  : M unit :=
  if negb (AppState.isSpeakingEnabled render)
     || negb (Env.hasSpeechSynthesis env)
  then mret tt
  else
    speechSynthesis synth_cancel;;
    match selectVoice (AppState.voices render) with
    | Some selectedVoice =>
      speechSynthesis
        (synth_speak
           (Utterance.mk text (Some selectedVoice) (Some targetLang)))
    | None =>
      if negb (AppState.ttsWarningShown render) then
        dispatch (setMessages_append warningMessage);;
        dispatch (setTtsWarningShown true)
      else mret tt
    end.

(** The history sent with a turn:
    [messages.filter(m => (m.role === USER || m.role === MODEL) && m.text)
             .map(m => ({ role: m.role, parts: [{ text: m.text }] }))] *)
Definition history_of (messages : list Message.t) : list HistoryItem.t :=
  (fun m => HistoryItem.mk (Message.role m)
              [TextPart.mk (default [] (Message.text m))])
  <$> filter (fun m => (Message.role m = USER ∨ Message.role m = MODEL)
                       ∧ truthy_opt (Message.text m))
             messages.

(** [handleSendMessage] is a callback built at a render: [messages] and
    [speak] are those of that render. *)
Definition handleSendMessage (env : Env.t) (render : AppState.t)
  (text : jsstring) : M unit :=
  if negb (truthy (trim text)) then mret tt
  else
    let userMessage :=
      Message.mk (toString (Env.Date_now_submit env)) USER (Some text)
        None None in
    dispatch (setMessages_append userMessage);;
    dispatch (setUserInput []);;
    dispatch (setIsLoading true);;
    dispatch (setStatus status_thinking);;
    let history := history_of (AppState.messages render) in
    try_finally
      (try_catch
         (response ← getAssistantResponse env text history;
          let finalModelMessage :=
            Message.mk (toString (Env.Date_now_reply env) ++ js "-model")
              MODEL
              (AssistantResponse.text response)
              (AssistantResponse.imageUrl response)
              (AssistantResponse.searchResults response) in
          dispatch (setMessages_append finalModelMessage);;
          match Message.text finalModelMessage with
          | Some t => if truthy t then speak env render t else mret tt
          | None => mret tt
          end)
         (fun error =>
            console_error (Some (js "Error with assistant:")) error;;
            let errorMessage :=
              Message.mk (toString (Env.Date_now_reply env) ++ js "-model")
                MODEL (Some msg_apology) None None in
            dispatch (setMessages_append errorMessage);;
            if truthy msg_apology then speak env render msg_apology
            else mret tt))
      (dispatch (setIsLoading false);;
       dispatch (setStatus status_online)).

(** ** The bilingual front end ("Sahaya"): the second App.tsx and its
       services/geminiService.ts *)

(** *** The command patterns *)

(** Canonicalisation under the [i] flag, for patterns in ASCII. *)
Definition toUpperASCII (c : N) : N :=
  if (97 <=? c) && (c <=? 122) then c - 32 else c.

(** Matching a literal at the head of [s], ignoring case: the rest of [s]. *)
Fixpoint match_literal (p s : jsstring) : option jsstring :=
  match p, s with
  | [], _ => Some s
  | _ :: _, [] => None
  | a :: p', b :: s' =>
    if toUpperASCII a =? toUpperASCII b then match_literal p' s' else None
  end.

Definition isLineTerminator (c : N) : bool :=
  (c =? 10) || (c =? 13) || (c =? 8232) || (c =? 8233).

(** What a trailing [(.+)] captures: the characters up to the first line
    terminator, and at least one. *)
Fixpoint dot_star (s : jsstring) : jsstring :=
  match s with
  | [] => []
  | c :: r => if isLineTerminator c then [] else c :: dot_star r
  end.

Definition dot_plus (s : jsstring) : option jsstring :=
  match dot_star s with
  | [] => None
  | c :: r => Some (c :: r)
  end.

(** The first alternative that leads to a match. *)
Fixpoint first_match {A} (alternatives : list (option A)) : option A :=
  match alternatives with
  | [] => None
  | Some a :: _ => Some a
  | None :: r => first_match r
  end.

(** [text.match(/^(?:generate|create|make) an? image of (.+)/i)], by its
    group 1. *)
Definition imageMatch (text : jsstring) : option jsstring :=
  let image_of rest := match_literal (js " image of ") rest ≫= dot_plus in
  let article rest :=
    rest ← match_literal (js " a") rest;
    first_match [match_literal (js "n") rest ≫= image_of; image_of rest] in
  first_match [match_literal (js "generate") text ≫= article;
               match_literal (js "create") text ≫= article;
               match_literal (js "make") text ≫= article].

(** [text.match(/^open (.+)/i)], by its group 1. *)
Definition openMatch (text : jsstring) : option jsstring :=
  match_literal (js "open ") text ≫= dot_plus.

(** A literal found anywhere in [s], ignoring case. *)
Fixpoint found_in (p s : jsstring) : bool :=
  match match_literal p s, s with
  | Some _, _ => true
  | None, [] => false
  | None, _ :: r => found_in p r
  end.

(** Whether [text.match(/what time is it|date and time/i)] matches. *)
Definition timeMatch (text : jsstring) : bool :=
  found_in (js "what time is it") text || found_in (js "date and time") text.

(** Whether
    [text.match(/^(what is|who is|latest news about|search for)/i)]
    matches. *)
Definition searchMatch (text : jsstring) : bool :=
  bool_decide (is_Some (first_match
    [match_literal (js "what is") text; match_literal (js "who is") text;
     match_literal (js "latest news about") text;
     match_literal (js "search for") text])).

Module Sahaya.

(** *** services/geminiService.ts *)

Definition msg_chat_failed : jsstring :=
  js "I'm sorry, I encountered an error. Please try again.".
Definition msg_search_failed : jsstring :=
  js "I'm sorry, I couldn't perform the search.".
Definition msg_image_failed : jsstring :=
  js "I'm sorry, I couldn't generate the image.".

Definition sendMessageToGemini (env : Env.t) (message : jsstring)
  : M (option jsstring) :=
  try_catch
    (response ← send (SharedChatSendMessage message)
                     (Env.shared_chat_sendMessage env message);
     mret (Response.text response))
    (fun error =>
       console_error (Some (js "Error sending message to Gemini:")) error;;
       mret (Some msg_chat_failed)).

Definition searchWithGemini (env : Env.t) (query : jsstring)
  : M (option jsstring * list SearchResult.t) :=
  try_catch
    (response ← send (GenerateContent query)
                     (Env.models_generateContent env query);
     mret (Response.text response, searchResults_of response))
    (fun error =>
       console_error (Some (js "Error searching with Gemini:")) error;;
       mret (Some msg_search_failed, [])).

Definition generateImageWithGemini (env : Env.t) (prompt : jsstring)
  : M (option jsstring) :=
  try_catch
    (let model := js "imagen-3.0-generate-002" in
     response ← send (GenerateImages model (Some prompt))
                     (Env.models_generateImages env model (Some prompt));
     match ImagesResponse.generatedImages response with
     | Some (first :: _) =>
       match GeneratedImage.image first with
       | Some image =>
         mret (Some (js "data:image/jpeg;base64,"
                     ++ interpolate (Image.imageBytes image)))
       | None => throw (TypeError_undefined (js "imageBytes"))
       end
     | Some [] | None => mret None
     end)
    (fun error =>
       console_error (Some (js "Error generating image with Gemini:")) error;;
       mret None).

(** *** App.tsx *)

Definition speak (env : Env.t) (text : jsstring) : M unit :=
  if Env.hasSpeechSynthesis env then
    let voices := Env.getVoices env in
    let sinhalaVoice :=
      List.find (fun voice => bool_decide (Voice.lang voice = js "si-LK"))
        voices in
    speechSynthesis
      (synth_speak (Utterance.mk text sinhalaVoice (Some (js "si-LK"))))
  else mret tt.

(** What a command leaves for the model's message: [{text, imageUrl?,
    searchResults?}]. *)
Module ModelResponse.
Record t := mk {
  text : option jsstring;
  imageUrl : option jsstring;
  searchResults : option (list SearchResult.t)
}.
End ModelResponse.

(** The command routing of [handleSendMessage]. *)
Definition route (env : Env.t) (text : jsstring) : M ModelResponse.t :=
  match imageMatch text with
  | Some subject =>
    dispatch (setStatus (js "Generating image: " ++ subject));;
    imageUrl ← generateImageWithGemini env subject;
    if truthy_opt imageUrl then
      mret (ModelResponse.mk (Some (js "Here is an image of " ++ subject))
              imageUrl None)
    else mret (ModelResponse.mk (Some msg_image_failed) None None)
  | None =>
    match openMatch text with
    | Some target =>
      let url := trim target in
      let url := if startsWith url (js "http") then url
                 else js "https://" ++ url in
      window_open url;;
      dispatch (setMessages_append
                  (Message.mk (toString (Env.Date_now_navigate env)
                               ++ js "-sys")
                     SYSTEM (Some (js "Navigating to " ++ url)) None None));;
      mret (ModelResponse.mk (Some (js "Opening " ++ target ++ js "..."))
              None None)
    | None =>
      if timeMatch text then
        mret (ModelResponse.mk
                (Some (js "The current date and time is: "
                       ++ Env.toLocaleString_now env))
                None None)
      else if searchMatch text then
        dispatch (setStatus (js "Searching for: " ++ text));;
        found ← searchWithGemini env text;
        mret (ModelResponse.mk (fst found) None (Some (snd found)))
      else
        dispatch (setStatus (js "Thinking..."));;
        responseText ← sendMessageToGemini env text;
        mret (ModelResponse.mk responseText None None)
    end
  end.

(** [handleSendMessage] is a callback built at a render: [isListening] is
    the value of that render. *)
Definition handleSendMessage (env : Env.t) (render : AppState.t)
  (text : jsstring) : M unit :=
  if negb (truthy (trim text)) then mret tt
  else
    let userMessage :=
      Message.mk (toString (Env.Date_now_submit env)) USER (Some text)
        None None in
    dispatch (setMessages_append userMessage);;
    dispatch (setUserInput []);;
    dispatch (setIsLoading true);;
    modelResponse ← route env text;
    let finalModelMessage :=
      Message.mk (toString (Env.Date_now_reply env) ++ js "-model") MODEL
        (ModelResponse.text modelResponse)
        (ModelResponse.imageUrl modelResponse)
        (ModelResponse.searchResults modelResponse) in
    dispatch (setMessages_append finalModelMessage);;
    match Message.text finalModelMessage with
    | Some t => if truthy t then speak env t else mret tt
    | None => mret tt
    end;;
    dispatch (setIsLoading false);;
    dispatch (setStatus (if AppState.isListening render
                         then js "Listening continuously..."
                         else js "Online")).

End Sahaya.

(** ** Observations on a world *)

(** The message the [Auth] form shows. *)
Definition error_shown (w : World.t) : jsstring :=
  AppState.error (World.app w).

(** What the [App] holds as its current user: nothing for [null], and
    otherwise the value itself, which is a user object unless the session
    record held something else. *)
Definition logged_in (w : World.t) : option JSON :=
  match AppState.currentUser (World.app w) with
  | JNull => None
  | v => Some v
  end.

(** The conversation store. *)
Definition conversation (w : World.t) : list Message.t :=
  AppState.messages (World.app w).

(** The credential store parses to [users]. *)
Definition holds_users (w : World.t) (users : gmap jsstring Credential.t)
  : Prop :=
  LocalStorage.users (World.localStorage w)
  = Some (Encodes (users_json users)).

(** The labels of the tools' own [console.error] calls. *)
Definition tool_log (e : LogEntry.t) : Prop :=
  LogEntry.label e = Some (js "Error searching with Gemini:")
  \/ LogEntry.label e = Some (js "Error generating image with Gemini:").

(** What the service leaves alone: it only sends requests and logs tool
    failures. *)
Definition service_frame (w w' : World.t) : Prop :=
  World.app w' = World.app w
  /\ World.localStorage w' = World.localStorage w
  /\ World.updates w' = World.updates w
  /\ World.synth w' = World.synth w
  /\ World.opened w' = World.opened w
  /\ (exists logged, World.console w' = World.console w ++ logged
                     /\ Forall tool_log logged)
  /\ (exists sent, World.requests w' = World.requests w ++ sent).

(** The tools the client implements. *)
Definition implemented_tools : list (option jsstring) :=
  [Some searchTheWeb; Some generateImage; Some getCurrentTime].


(** The errors [handleSendMessage] reported on the console. *)
Definition assistant_errors (w : World.t) : list JsError.t :=
  LogEntry.error
  <$> filter (fun e => LogEntry.label e = Some (js "Error with assistant:"))
             (World.console w).

(** The messages a turn creates. *)
Definition userMessage_of (env : Env.t) (text : jsstring) : Message.t :=
  Message.mk (toString (Env.Date_now_submit env)) USER (Some text) None None.

Definition modelMessage_of (env : Env.t) (response : AssistantResponse.t)
  : Message.t :=
  Message.mk (toString (Env.Date_now_reply env) ++ js "-model") MODEL
    (AssistantResponse.text response)
    (AssistantResponse.imageUrl response)
    (AssistantResponse.searchResults response).

Definition errorMessage_of (env : Env.t) : Message.t :=
  Message.mk (toString (Env.Date_now_reply env) ++ js "-model") MODEL
    (Some msg_apology) None None.

(** [handleSendMessage] around its [await]: the statements that run when the
    message is submitted, and those that run once the service has settled. *)
Definition before_await (env : Env.t) (text : jsstring) : M unit :=
  dispatch (setMessages_append (userMessage_of env text));;
  dispatch (setUserInput []);;
  dispatch (setIsLoading true);;
  dispatch (setStatus status_thinking).

Definition after_await (env : Env.t) (render : AppState.t)
  (settled : result AssistantResponse.t) : M unit :=
  match settled with
  | Ok response =>
    dispatch (setMessages_append (modelMessage_of env response));;
    match AssistantResponse.text response with
    | Some t => if truthy t then speak env render t else mret tt
    | None => mret tt
    end
  | Throw error =>
    console_error (Some (js "Error with assistant:")) error;;
    dispatch (setMessages_append (errorMessage_of env));;
    speak env render msg_apology
  end;;
  dispatch (setIsLoading false);;
  dispatch (setStatus status_online).

(** Whether a call of [speak] built at [render] appends the notice. *)
Definition notice_due (env : Env.t) (render : AppState.t) : bool :=
  AppState.isSpeakingEnabled render && Env.hasSpeechSynthesis env
  && bool_decide (selectVoice (AppState.voices render) = None)
  && negb (AppState.ttsWarningShown render).

(** The setter calls and the synthesiser calls one call of [speak] makes. *)
Definition speak_updates (env : Env.t) (render : AppState.t) : list Update :=
  if notice_due env render
  then [setMessages_append warningMessage; setTtsWarningShown true]
  else [].

Definition speak_calls (env : Env.t) (render : AppState.t) (text : jsstring)
  : list SynthCall :=
  if AppState.isSpeakingEnabled render && Env.hasSpeechSynthesis env then
    synth_cancel ::
    match selectVoice (AppState.voices render) with
    | Some voice =>
      [synth_speak (Utterance.mk text (Some voice) (Some targetLang))]
    | None => []
    end
  else [].

(** The notice, when a call of [speak] built at [render] appends it. *)
Definition notice (env : Env.t) (render : AppState.t) : list Message.t :=
  if notice_due env render then [warningMessage] else [].

(** The state after a list of setter calls. *)
Definition replay (us : list Update) (a : AppState.t) : AppState.t :=
  foldl (fun a u => apply_update u a) a us.

(** The setter calls of the two halves of a turn. *)
Definition before_updates (env : Env.t) (text : jsstring) : list Update :=
  [setMessages_append (userMessage_of env text); setUserInput [];
   setIsLoading true; setStatus status_thinking].

Definition after_updates (env : Env.t) (render : AppState.t)
  (settled : result AssistantResponse.t) : list Update :=
  match settled with
  | Ok response =>
    setMessages_append (modelMessage_of env response)
    :: (if truthy_opt (AssistantResponse.text response)
        then speak_updates env render else [])
  | Throw _ =>
    setMessages_append (errorMessage_of env) :: speak_updates env render
  end
  ++ [setIsLoading false; setStatus status_online].

(** *** A session of the Sinhala front end *)

#[global] Instance SearchResult_eq_dec : EqDecision SearchResult.t.
Proof. solve_decision. Defined.

#[global] Instance Message_eq_dec : EqDecision Message.t.
Proof. solve_decision. Defined.

(** A setter call that appends the voice-unavailable notice. *)
Definition is_notice (u : Update) : bool :=
  match u with
  | setMessages_append m => bool_decide (m = warningMessage)
  | _ => false
  end.

Definition notices (us : list Update) : nat :=
  length (List.filter is_notice us).

(** How many times the notice was appended. *)
Definition notices_emitted (w : World.t) : nat := notices (World.updates w).

(** The flag that records that the notice was shown. *)
Definition warned (w : World.t) : bool :=
  AppState.ttsWarningShown (World.app w).

(** A handler is quiet when it neither appends the notice nor touches the
    flag that records it. *)
Definition quiet {A} (m : M A) : Prop :=
  forall w, warned (fst (m w)) = warned w
            /\ notices_emitted (fst (m w)) = notices_emitted w.

(** The notice was appended at most once, and not at all while the flag is
    down. *)
Definition notice_invariant (w : World.t) : Prop :=
  (warned w = false -> notices_emitted w = 0%nat)
  /\ (notices_emitted w <= 1)%nat.

(** What happens on the page between its load and its unload.  A chat turn
    runs to its end before the next event, so its callback is the one of the
    current render; the [Auth] form is there only while [currentUser] is
    falsy, and a login is followed by the greeting effect. *)
Inductive SessionEvent :=
  | Submit (env : Env.t) (text : jsstring)
  | VoicesChanged (voices : list Voice.t)
  | ToggleSpeaker
  | SignUp (username password : jsstring)
  | LogIn (username password : jsstring)
  | LogOut.

Definition step (ev : SessionEvent) : M unit :=
  match ev with
  | Submit env text => fun w => handleSendMessage env (World.app w) text w
  | VoicesChanged voices => dispatch (setVoices voices)
  | ToggleSpeaker => dispatch setIsSpeakingEnabled_toggle
  | SignUp username password => fun w =>
    if truthy_json (AppState.currentUser (World.app w)) then (w, Ok tt)
    else (Auth.handleSignup username password;; greet) w
  | LogIn username password => fun w =>
    if truthy_json (AppState.currentUser (World.app w)) then (w, Ok tt)
    else (Auth.handleLogin username password;; greet) w
  | LogOut => handleLogout
  end.

Definition run_session (events : list SessionEvent) : M unit :=
  for_each step events.

(** The wire history in the specification's words: the messages whose role
    is user or model and whose text field is present, each mapped to
    [{role, parts: [{text}]}], in order. *)
Definition wire_history_as_stated (messages : list Message.t)
  : list HistoryItem.t :=
  omap (fun m =>
          match Message.role m, Message.text m with
          | (USER | MODEL), Some t =>
            Some (HistoryItem.mk (Message.role m) [TextPart.mk t])
          | _, _ => None
          end)
       messages.

(** The same, only for a text that is present and not empty. *)
Definition wire_history_nonempty (messages : list Message.t)
  : list HistoryItem.t :=
  omap (fun m =>
          match Message.role m, Message.text m with
          | (USER | MODEL), Some (c :: t) =>
            Some (HistoryItem.mk (Message.role m) [TextPart.mk (c :: t)])
          | _, _ => None
          end)
       messages.

(** ** Sample inputs *)

Module Sample.

Definition fault : JsError.t := JsError.mk (js "Error") (js "fetch failed").

Definition text_response (t : jsstring) : Response.t :=
  Response.mk
    (Some [Candidate.mk (Some (Content.mk (Some [Part.mk (Some t) None])))
             None])
    (Some t).

Definition call_response (name : jsstring) (args : option Args.t)
  : Response.t :=
  Response.mk
    (Some [Candidate.mk
             (Some (Content.mk
                      (Some [Part.mk None
                               (Some (FunctionCall.mk (Some name) args))])))
             None])
    None.

(** The model asks for the time; the follow-up call is answered. *)
Definition env_clock : Env.t :=
  Env.mk (fun _ _ => Ok (call_response getCurrentTime None))
    (fun _ _ => Ok (text_response (js "ok")))
    (fun _ => Throw fault) (fun _ _ => Throw fault) (js "now") 1 2 true
    (fun _ => Throw fault) 3 [].

(** The model asks for the time; the follow-up call faults. *)
Definition env_clock_fault : Env.t :=
  Env.mk (fun _ _ => Ok (call_response getCurrentTime None))
    (fun _ _ => Throw fault)
    (fun _ => Throw fault) (fun _ _ => Throw fault) (js "now") 1 2 true
    (fun _ => Throw fault) 3 [].

(** The model asks for a web search; the search call faults, the follow-up
    call is answered. *)
Definition env_search_fault : Env.t :=
  Env.mk
    (fun _ _ => Ok (call_response searchTheWeb
                      (Some (Args.mk (Some (js "news")) None))))
    (fun _ _ => Ok (text_response (js "ok")))
    (fun _ => Throw fault) (fun _ _ => Throw fault) (js "now") 1 2 true
    (fun _ => Throw fault) 3 [].


(** The model asks for the time; the follow-up answer has no text. *)
Definition env_clock_silent : Env.t :=
  Env.mk (fun _ _ => Ok (call_response getCurrentTime None))
    (fun _ _ => Ok (Response.mk None None))
    (fun _ => Throw fault) (fun _ _ => Throw fault) (js "now") 1 2 true
    (fun _ => Throw fault) 3 [].

Definition sinhala_voice : Voice.t := Voice.mk (js "Sinhala") (js "si-LK").

(** The page with a Sinhala voice installed and speech output switched
    off. *)
Definition app_muted : AppState.t :=
  AppState.mk JNull [] [] false status_online false false [sinhala_voice]
    false [].

(** The chat endpoint is down. *)
Definition env_down : Env.t :=
  Env.mk (fun _ _ => Throw fault) (fun _ _ => Throw fault)
    (fun _ => Throw fault) (fun _ _ => Throw fault) (js "now") 1 2 true
    (fun _ => Throw fault) 3 [].

(** The model answers in plain text. *)
Definition env_chat : Env.t :=
  Env.mk (fun _ _ => Ok (text_response (js "ok")))
    (fun _ _ => Throw fault)
    (fun _ => Throw fault) (fun _ _ => Throw fault) (js "now") 1 2 true
    (fun _ => Throw fault) 3 [].



Definition app0 : AppState.t :=
  AppState.mk JNull [] [] false status_online false true [] false [].

(** A freshly loaded page with nothing stored. *)
Definition fresh : World.t :=
  World.mk app0 (LocalStorage.mk None None) [] [] [] [] [].

Definition bob : jsstring := js "bob".
Definition bob_credential : Credential.t := Credential.mk (js "s3cret").

(** A page whose credential store holds [bob]. *)
Definition with_bob : World.t :=
  World.mk app0
    (LocalStorage.mk
       (Some (Encodes (users_json {[ bob := bob_credential ]}))) None)
    [] [] [] [] [].

End Sample.

(** ** More of the Sinhala front end *)

(** The state [App] starts in: its [useState] defaults. *)
Definition initial_state : AppState.t :=
  AppState.mk JNull [] [] false status_online false true [] false [].

(** A page load: the component state starts afresh, [localStorage] is what
    the last page left. *)
Definition reload (w : World.t) : World.t :=
  World.mk initial_state (World.localStorage w) [] [] [] [] [].

(** Reading a parsed value as a credential, [{ password }] with a string
    and nothing else, and as a credential store, an object of credentials. *)
Definition as_credential (v : JSON) : option Credential.t :=
  match v with
  | JObject fields =>
    match fields !! js "password", map_to_list (delete (js "password") fields)
    with
    | Some (JString password), [] => Some (Credential.mk password)
    | _, _ => None
    end
  | _ => None
  end.

Definition as_users (v : JSON) : option (gmap jsstring Credential.t) :=
  match v with
  | JObject fields =>
    if decide (map_Forall (fun _ c => is_Some (as_credential c)) fields)
    then Some (omap as_credential fields)
    else None
  | _ => None
  end.

(** The credential store the [Auth] handlers read:
    [JSON.parse(localStorage.getItem('users') || '{}')], when it parses to a
    credential store. *)
Definition stored_users (w : World.t) : option (gmap jsstring Credential.t) :=
  match LocalStorage.users (World.localStorage w) with
  | None | Some EmptyText => Some ∅
  | Some (Encodes v) => as_users v
  | Some Garbled => None
  end.

(** A parsed value that is a boolean, a number or a string. *)
Definition primitive (v : JSON) : bool :=
  match v with
  | JBool _ | JNumber _ | JString _ => true
  | JNull | JArray _ | JObject _ => false
  end.


(** The status texts of [recognition.onerror]. *)
Definition msg_no_speech : jsstring :=
  js "කථනයක් හඳුනා නොගත්තේය. නැවත උත්සාහ කරන්න...".
Definition msg_network : jsstring :=
  js "ජාල දෝෂයක්. කරුණාකර ඔබගේ සම්බන්ධතාවය පරීක්ෂා කර නැවත උත්සාහ කරන්න.".
Definition msg_audio_capture : jsstring :=
  js "මයික්‍රෆෝනයෙන් ශ්‍රව්‍ය ග්‍රහණය කර ගැනීමට නොහැකි විය.".
Definition msg_not_allowed : jsstring :=
  js "මයික්‍රෆෝන ප්‍රවේශය ප්‍රතික්ෂේප විය.".
Definition msg_recognition_failed : jsstring :=
  js "කථනය හඳුනාගැනීමේ දෝෂයක් ඇතිවිය.".

(** The [switch] of [recognition.onerror] on [event.error]. *)
Definition recognition_errorMessage (error : jsstring) : jsstring :=
  if bool_decide (error = js "no-speech") then msg_no_speech
  else if bool_decide (error = js "network") then msg_network
  else if bool_decide (error = js "audio-capture") then msg_audio_capture
  else if bool_decide (error = js "not-allowed") then msg_not_allowed
  else msg_recognition_failed.

(** [recognition.onerror]; the console entry keeps [event.error] and
    [event.message] as the name and the message of the logged error. *)
Definition recognition_onerror (error message : jsstring) : M unit :=
  console_error (Some (js "Speech recognition error:"))
    (JsError.mk error message);;
  dispatch (setStatus (recognition_errorMessage error));;
  dispatch (setIsListening false).

(** [recognition.onresult] on the transcript of the first alternative.  The
    call of [handleSendMessage] is not awaited: the handler turns listening
    off when that call reaches its [await], and the rest of the turn runs
    once the service has settled. *)
Definition recognition_onresult (env : Env.t) (render : AppState.t)
  (transcript : jsstring) : M unit :=
  if truthy transcript then
    dispatch (setStatus (js "ඇසුණි: " ++ [34] ++ transcript ++ [34]));;
    if negb (truthy (trim transcript)) then dispatch (setIsListening false)
    else
      before_await env transcript;;
      dispatch (setIsListening false);;
      ((fun w =>
          let settled :=
            getAssistantResponse env transcript
              (history_of (AppState.messages render)) w in
          after_await env render (snd settled) (fst settled)) : M unit)
  else dispatch (setIsListening false).

(** ** components/Message.tsx *)

Module MessageView.

(** One entry of the "Sources" list: its text and the address it links. *)
Record Source := mkSource { label : jsstring; href : jsstring }.

(** What [MessageComponent] shows: the centred bubble of a system message,
    or a chat bubble with the optional paragraph, image and sources. *)
Inductive t :=
  | SystemBubble (text : option jsstring)
  | Bubble (isUser : bool) (paragraph : option jsstring)
      (image : option jsstring) (sources : list Source).

(** [searchResults.map((result, index) => ...)], from [index] on. *)
Fixpoint sources_from (index : nat) (results : list SearchResult.t)
  : list Source :=
  match results with
  | [] => []
  | result :: rest =>
    mkSource
      (toString (N.of_nat (index + 1)) ++ js ". "
       ++ (if truthy (SearchResult.title result)
           then SearchResult.title result else SearchResult.uri result))
      (SearchResult.uri result)
    :: sources_from (S index) rest
  end.

Definition render (message : Message.t) : t :=
  let isUser := bool_decide (Message.role message = USER) in
  let isSystem := bool_decide (Message.role message = SYSTEM) in
  if isSystem then SystemBubble (Message.text message)
  else
    Bubble isUser
      (if truthy_opt (Message.text message) then Message.text message
       else None)
      (if truthy_opt (Message.imageUrl message) then Message.imageUrl message
       else None)
      (match Message.searchResults message with
       | Some (r :: rs) => sources_from 0 (r :: rs)
       | Some [] | None => []
       end).

End MessageView.

(** ** More of the bilingual front end *)

Module SahayaMic.

(** [recognition.onerror]: a [no-speech] error is let through to [onend],
    any other stops the listening. *)
Definition recognition_onerror (error : jsstring) : M unit :=
  console_error (Some (js "Speech recognition error:")) (JsError.mk error []);;
  if bool_decide (error = js "no-speech") then mret tt
  else
    let errorMessage :=
      if bool_decide (error = js "not-allowed")
      then js "Microphone access denied. Please enable it in your browser settings."
      else error in
    dispatch (setStatus (js "Mic Error: " ++ errorMessage));;
    dispatch (setIsListening false).

End SahayaMic.

(** The address the [open] command navigates to. *)
Definition open_url (target : jsstring) : jsstring :=
  let url := trim target in
  if startsWith url (js "http") then url else js "https://" ++ url.

(** The system message the [open] command puts in the store, if any. *)
Definition navigation_note (env : Env.t) (text : jsstring) : list Message.t :=
  match imageMatch text, openMatch text with
  | None, Some target =>
    [Message.mk (toString (Env.Date_now_navigate env) ++ js "-sys") SYSTEM
       (Some (js "Navigating to " ++ open_url target)) None None]
  | _, _ => []
  end.

(** The status the bilingual front end shows once a turn is over. *)
Definition sahaya_status (render : AppState.t) : jsstring :=
  if AppState.isListening render then js "Listening continuously..."
  else js "Online".

(** What a capture is: a run of the text, not empty, free of line
    terminators, that ends where the text or its first line ends. *)
Definition captured (text cap : jsstring) (lead : nat) : Prop :=
  cap <> []
  /\ Forall (fun c => isLineTerminator c = false) cap
  /\ exists before rest,
       text = before ++ cap ++ rest
       /\ length before = lead
       /\ (rest = [] \/ exists c r, rest = c :: r /\ isLineTerminator c = true).

(** * Properties *)

(** ** Trimming *)

Lemma trimStart_nil s : trimStart s = [] <-> blank s = true.
Proof.
  induction s as [|c r IH]; simpl; [done|].
  destruct (isWhiteSpace c); simpl; [exact IH|]. split; discriminate.
Qed.

Lemma trimStart_head s c r : trimStart s = c :: r -> isWhiteSpace c = false.
Proof.
  induction s as [|d s IH]; simpl; [discriminate|].
  destruct (isWhiteSpace d) eqn:E; [exact IH|]. intros [= <- _]. exact E.
Qed.

Lemma blank_rev s : blank (rev s) = blank s.
Proof.
  unfold blank. induction s as [|c r IH]; simpl; [done|].
  rewrite forallb_app, IH. simpl. rewrite andb_true_r. apply andb_comm.
Qed.

(** [s.trim()] is empty exactly when [s] is empty or whitespace-only. *)
Lemma trim_nil s : trim s = [] <-> blank s = true.
Proof.
  unfold trim, trimEnd. split.
  - intros H. apply (f_equal (@rev N)) in H. rewrite rev_involutive in H.
    simpl in H. apply trimStart_nil in H. rewrite blank_rev in H.
    destruct (trimStart s) as [|c r] eqn:E; [by apply trimStart_nil|].
    apply trimStart_head in E. simpl in H. rewrite E in H. discriminate.
  - intros H. apply trimStart_nil in H. rewrite H. reflexivity.
Qed.

Lemma truthy_trim s : truthy (trim s) = negb (blank s).
Proof.
  destruct (blank s) eqn:E.
  - apply trim_nil in E. by rewrite E.
  - destruct (trim s) eqn:T; [|done].
    apply trim_nil in T. congruence.
Qed.

(** The guard of the two [Auth] handlers. *)
Lemma auth_guard u p :
  negb (truthy (trim u)) || negb (truthy (trim p)) = blank u || blank p.
Proof. by rewrite !truthy_trim, !negb_involutive. Qed.

(** ** Running handlers *)

Ltac run :=
  unfold mbind, M_bind, mret, M_ret, throw, try_catch, try_finally, dispatch,
    console_error, send, speechSynthesis, window_open, getLocalStorage,
    setLocalStorage; simpl.

(** ** Signup and login *)

Lemma signup_blank u p w :
  blank u || blank p = true ->
  Auth.handleSignup u p w = dispatch (setError msg_ValidationError) w.
Proof. intros H. unfold Auth.handleSignup. by rewrite auth_guard, H. Qed.

Lemma login_blank u p w :
  blank u || blank p = true ->
  Auth.handleLogin u p w = dispatch (setError msg_ValidationError) w.
Proof. intros H. unfold Auth.handleLogin. by rewrite auth_guard, H. Qed.

Lemma dispatch_setError msg w :
  let w' := fst (dispatch (setError msg) w) in
  snd (dispatch (setError msg) w) = Ok tt
  /\ error_shown w' = msg
  /\ World.localStorage w' = World.localStorage w
  /\ logged_in w' = logged_in w
  /\ World.requests w' = World.requests w.
Proof. destruct w as [[] ? ? ? ? ? ?]. by cbn. Qed.

(** C5: with an empty or whitespace-only username or password, signup and
    login both end in the validation error, and [localStorage] (the
    credential store and the session marker) is left as it was; nobody is
    logged in by the attempt. *)
Theorem C5_blank_fields_rejected (username password : jsstring) (w : World.t) :
  blank username = true \/ blank password = true ->
  (let w' := fst (Auth.handleSignup username password w) in
   snd (Auth.handleSignup username password w) = Ok tt
   /\ error_shown w' = msg_ValidationError
   /\ World.localStorage w' = World.localStorage w
   /\ logged_in w' = logged_in w)
  /\
  (let w' := fst (Auth.handleLogin username password w) in
   snd (Auth.handleLogin username password w) = Ok tt
   /\ error_shown w' = msg_ValidationError
   /\ World.localStorage w' = World.localStorage w
   /\ logged_in w' = logged_in w).
Proof.
  intros H. assert (Hb : blank username || blank password = true).
  { apply orb_true_iff. exact H. }
  rewrite signup_blank, login_blank by exact Hb.
  pose proof (dispatch_setError msg_ValidationError w) as D. cbv zeta in D.
  destruct D as (? & ? & ? & ? & ?). cbv zeta. auto 10.
Qed.

Lemma C5_blank_fields_rejected_witness :
  (blank Sample.bob = true \/ blank (js "  ") = true)
  /\ error_shown (fst (Auth.handleSignup Sample.bob (js "  ") Sample.with_bob))
     = msg_ValidationError
  /\ World.localStorage
       (fst (Auth.handleLogin Sample.bob (js "  ") Sample.with_bob))
     = World.localStorage Sample.with_bob.
Proof.
  assert (H : blank Sample.bob = true \/ blank (js "  ") = true)
    by (right; reflexivity).
  split; [exact H|].
  pose proof (C5_blank_fields_rejected Sample.bob (js "  ") Sample.with_bob H)
    as [(_ & E & _) (_ & _ & L & _)].
  split; [exact E | exact L].
Defined.

(** *** The credential store as a JSON object *)

Lemma bind_run {A B} (m : M A) (f : A -> M B) w :
  (m ≫= f) w =
  match m w with
  | (w', Ok a) => f a w'
  | (w', Throw e) => (w', Throw e)
  end.
Proof. reflexivity. Qed.

Lemma property_users_own users u c :
  users !! u = Some c -> property (users_json users) u = Own (credential_json c).
Proof.
  intros H. unfold property, users_json, own_property.
  by rewrite lookup_fmap, H.
Qed.

Lemma property_users_missing users u :
  users !! u = None ->
  property (users_json users) u =
  if bool_decide (u ∈ Object_prototype_keys) then Inherited else Undefined.
Proof.
  intros H. unfold property, users_json, own_property.
  by rewrite lookup_fmap, H.
Qed.

Lemma password_is_credential c p :
  password_is (Own (credential_json c)) p
  = bool_decide (Credential.password c = p).
Proof.
  unfold password_is, credential_json, property, own_property.
  by rewrite lookup_singleton_eq.
Qed.

Lemma reparsed_user (user : User.t) : reparsed user = user.
Proof.
  unfold user_json. cbn [reparsed]. by rewrite map_fmap_singleton.
Qed.

Lemma reparsed_users users : reparsed (users_json users) = users_json users.
Proof.
  unfold users_json. cbn [reparsed]. f_equal.
  rewrite <- map_fmap_compose. apply map_fmap_ext. intros k c _.
  unfold credential_json. cbn. by rewrite map_fmap_singleton.
Qed.

Lemma users_json_insert users u c :
  JObject (<[u := credential_json c]> (credential_json <$> users))
  = users_json (<[u := c]> users).
Proof. unfold users_json. by rewrite fmap_insert. Qed.

Lemma parse_users_holds users w :
  holds_users w users -> parse_users w = (w, Ok (users_json users)).
Proof.
  unfold holds_users, parse_users. intros H.
  rewrite bind_run. unfold getLocalStorage. by rewrite H.
Qed.

Lemma getProperty_users users u w :
  getProperty (users_json users) u w = (w, Ok (property (users_json users) u)).
Proof. reflexivity. Qed.

Lemma signup_taken users u c p w :
  holds_users w users -> users !! u = Some c ->
  blank u = false -> blank p = false ->
  Auth.handleSignup u p w = dispatch (setError msg_DuplicateUserError) w.
Proof.
  intros Hw Hu Bu Bp. unfold Auth.handleSignup.
  rewrite auth_guard, Bu, Bp. cbn [orb]. unfold try_catch.
  rewrite bind_run, (parse_users_holds _ _ Hw).
  rewrite bind_run, getProperty_users, (property_users_own _ _ _ Hu).
  cbn [truthy_property credential_json truthy_json].
  by destruct w.
Qed.

(** C6 (as amended): when the credential store already holds the username,
    a further signup with it leaves [localStorage], and so the stored
    credential, as it was, whatever password is given; with a username and
    a password that are not blank the attempt ends in the duplicate-user
    error. *)
Theorem C6_signup_existing_user (users : gmap jsstring Credential.t)
  (username password : jsstring) (c : Credential.t) (w : World.t) :
  holds_users w users -> users !! username = Some c ->
  let w' := fst (Auth.handleSignup username password w) in
  snd (Auth.handleSignup username password w) = Ok tt
  /\ World.localStorage w' = World.localStorage w
  /\ holds_users w' users
  /\ logged_in w' = logged_in w
  /\ (blank username = false -> blank password = false ->
      error_shown w' = msg_DuplicateUserError).
Proof.
  intros Hw Hu. cbv zeta.
  destruct (blank username || blank password) eqn:B.
  - rewrite signup_blank by exact B.
    pose proof (dispatch_setError msg_ValidationError w) as D. cbv zeta in D.
    destruct D as (? & ? & L & ? & ?).
    repeat split; try assumption.
    + unfold holds_users. by rewrite L.
    + intros Bu Bp. rewrite Bu, Bp in B. discriminate.
  - apply orb_false_iff in B as [Bu Bp].
    rewrite (signup_taken _ _ _ _ _ Hw Hu Bu Bp).
    pose proof (dispatch_setError msg_DuplicateUserError w) as D.
    cbv zeta in D. destruct D as (? & ? & L & ? & ?).
    repeat split; try assumption.
    + unfold holds_users. by rewrite L.
    + intros _ _. assumption.
Qed.

Lemma C6_signup_existing_user_witness :
  error_shown (fst (Auth.handleSignup Sample.bob (js "other") Sample.with_bob))
  = msg_DuplicateUserError.
Proof.
  apply (C6_signup_existing_user {[ Sample.bob := Sample.bob_credential ]}
           Sample.bob (js "other") Sample.bob_credential Sample.with_bob).
  - reflexivity.
  - apply lookup_singleton_eq.
  - reflexivity.
  - reflexivity.
Defined.

(** C6 as stated fails: a second signup for a stored username with an empty
    password ends in the validation error, not the duplicate-user error. *)
Lemma C6_counterexample :
  holds_users Sample.with_bob {[ Sample.bob := Sample.bob_credential ]}
  /\ ({[ Sample.bob := Sample.bob_credential ]} : gmap jsstring Credential.t)
       !! Sample.bob = Some Sample.bob_credential
  /\ error_shown (fst (Auth.handleSignup Sample.bob [] Sample.with_bob))
     = msg_ValidationError
  /\ msg_ValidationError <> msg_DuplicateUserError.
Proof.
  split; [reflexivity|]. split; [apply lookup_singleton_eq|].
  split; [reflexivity|]. discriminate.
Qed.

Lemma handleLogin_effect user w :
  let w' := fst (handleLogin user w) in
  snd (handleLogin user w) = Ok tt
  /\ logged_in w' = Some user
  /\ LocalStorage.currentUser (World.localStorage w') = Some (Encodes user)
  /\ LocalStorage.users (World.localStorage w')
     = LocalStorage.users (World.localStorage w).
Proof.
  unfold handleLogin, JSON_stringify. rewrite reparsed_user.
  destruct w as [[] [] ? ? ? ? ?]. by cbn.
Qed.

Lemma login_stored users u c p w :
  holds_users w users -> users !! u = Some c ->
  blank u = false -> blank p = false ->
  Auth.handleLogin u p w =
  if bool_decide (Credential.password c = p) then onLogin (User.mk u) w
  else dispatch (setError msg_InvalidCredentialsError) w.
Proof.
  intros Hw Hu Bu Bp. unfold Auth.handleLogin.
  rewrite auth_guard, Bu, Bp. cbn [orb]. unfold try_catch.
  rewrite bind_run, (parse_users_holds _ _ Hw).
  rewrite bind_run, getProperty_users, (property_users_own _ _ _ Hu).
  rewrite password_is_credential.
  cbn [truthy_property credential_json truthy_json andb].
  destruct (bool_decide (Credential.password c = p)).
  - destruct (onLogin (User.mk u) w) as [w' [[]|e]] eqn:E; [reflexivity|].
    pose proof (handleLogin_effect (User.mk u) w) as D. cbv zeta in D.
    unfold onLogin in E. rewrite E in D. by destruct D as [[=] _].
  - by destruct w.
Qed.

(** C7 (as amended): for a stored username, and a username and password
    that are not blank, login with a password other than the stored one ends
    in the invalid-credentials error and logs nobody in; login with the
    stored password logs in the user of that name and records it as the
    current user. *)
Theorem C7_login_stored_user (users : gmap jsstring Credential.t)
  (username password : jsstring) (c : Credential.t) (w : World.t) :
  holds_users w users -> users !! username = Some c ->
  blank username = false -> blank password = false ->
  let w' := fst (Auth.handleLogin username password w) in
  snd (Auth.handleLogin username password w) = Ok tt
  /\ (password <> Credential.password c ->
      error_shown w' = msg_InvalidCredentialsError
      /\ logged_in w' = logged_in w
      /\ World.localStorage w' = World.localStorage w)
  /\ (password = Credential.password c ->
      logged_in w' = Some (User.mk username)
      /\ LocalStorage.currentUser (World.localStorage w')
         = Some (Encodes (User.mk username))
      /\ holds_users w' users).
Proof.
  intros Hw Hu Bu Bp. cbv zeta.
  rewrite (login_stored _ _ _ _ _ Hw Hu Bu Bp).
  case_bool_decide as E.
  - pose proof (handleLogin_effect (User.mk username) w) as D.
    cbv zeta in D. destruct D as (? & ? & ? & U).
    unfold onLogin. split; [assumption|]. split; [congruence|].
    intros _. repeat split; try assumption.
    unfold holds_users. by rewrite U.
  - pose proof (dispatch_setError msg_InvalidCredentialsError w) as D.
    cbv zeta in D. destruct D as (? & ? & ? & ? & ?).
    split; [assumption|]. split; [auto|]. congruence.
Qed.

Lemma C7_login_stored_user_witness :
  logged_in (fst (Auth.handleLogin Sample.bob (js "s3cret") Sample.with_bob))
  = Some (User.mk Sample.bob)
  /\ error_shown (fst (Auth.handleLogin Sample.bob (js "guess") Sample.with_bob))
     = msg_InvalidCredentialsError.
Proof.
  split.
  - apply (C7_login_stored_user {[ Sample.bob := Sample.bob_credential ]}
             Sample.bob (js "s3cret") Sample.bob_credential Sample.with_bob);
      [reflexivity | apply lookup_singleton_eq | reflexivity | reflexivity
      | reflexivity].
  - apply (C7_login_stored_user {[ Sample.bob := Sample.bob_credential ]}
             Sample.bob (js "guess") Sample.bob_credential Sample.with_bob);
      [reflexivity | apply lookup_singleton_eq | reflexivity | reflexivity
      | discriminate].
Defined.

(** C7 as stated fails: login for a stored username with an empty (hence
    non-matching) password ends in the validation error, not the
    invalid-credentials error. *)
Lemma C7_counterexample :
  holds_users Sample.with_bob {[ Sample.bob := Sample.bob_credential ]}
  /\ ({[ Sample.bob := Sample.bob_credential ]} : gmap jsstring Credential.t)
       !! Sample.bob = Some Sample.bob_credential
  /\ [] <> Credential.password Sample.bob_credential
  /\ error_shown (fst (Auth.handleLogin Sample.bob [] Sample.with_bob))
     = msg_ValidationError
  /\ msg_ValidationError <> msg_InvalidCredentialsError.
Proof.
  split; [reflexivity|]. split; [apply lookup_singleton_eq|].
  split; [discriminate|]. split; [reflexivity|]. discriminate.
Qed.

(** ** Restoring the session *)

(** C9 (as amended): on mount, with nobody logged in yet, [restore] never
    throws and
    - when the record is absent, or is the empty text, nobody is logged in
      and [localStorage] is untouched;
    - when the record is a non-empty text that [JSON.parse] rejects, nobody
      is logged in, the record is removed and the failure is logged;
    - when the record parses, the parsed value becomes the current user as
      it is, whatever its shape, the record stays and nothing is logged: the
      serialisation of a user logs that user in, and the text [null] leaves
      nobody logged in. *)
Theorem C9_restore (w : World.t) :
  logged_in w = None ->
  let w' := fst (restore w) in
  snd (restore w) = Ok tt
  /\ match LocalStorage.currentUser (World.localStorage w) with
     | None | Some EmptyText =>
       logged_in w' = None /\ w' = w
     | Some Garbled =>
       logged_in w' = None
       /\ LocalStorage.currentUser (World.localStorage w') = None
       /\ LocalStorage.users (World.localStorage w')
          = LocalStorage.users (World.localStorage w)
       /\ World.console w' =
          World.console w
          ++ [LogEntry.mk (Some (js "Failed to parse user from localStorage"))
                SyntaxError_json]
     | Some (Encodes v) =>
       AppState.currentUser (World.app w') = v
       /\ World.localStorage w' = World.localStorage w
       /\ World.console w' = World.console w
       /\ (forall user : User.t, v = user -> logged_in w' = Some user)
       /\ (v = JNull -> logged_in w' = None)
     end.
Proof.
  intros H. destruct w as [[cell] [us cu] ? ? ? ? ?].
  assert (cell = JNull) as -> by (destruct cell; cbn in H; congruence).
  unfold restore. rewrite bind_run. cbn [getLocalStorage World.localStorage
    LocalStorage.currentUser].
  destruct cu as [[| |v]|]; cbn; auto.
  repeat split; unfold logged_in; cbn; by intros; subst.
Qed.

Lemma C9_restore_witness :
  let page record :=
    World.mk Sample.app0 (LocalStorage.mk None (Some record)) [] [] [] [] [] in
  logged_in (page Garbled) = None
  /\ logged_in (fst (restore (page Garbled))) = None
  /\ LocalStorage.currentUser
       (World.localStorage (fst (restore (page Garbled)))) = None
  /\ logged_in (fst (restore (page (Encodes (User.mk Sample.bob)))))
     = Some (User.mk Sample.bob).
Proof.
  intros page. split; [reflexivity|].
  pose proof (C9_restore (page Garbled) eq_refl) as [_ (L & C & _)].
  split; [exact L|]. split; [exact C|].
  pose proof (C9_restore (page (Encodes (User.mk Sample.bob))) eq_refl)
    as [_ (_ & _ & _ & U & _)].
  exact (U (User.mk Sample.bob) eq_refl).
Defined.

(** C9 as stated fails, twice.  The empty text is a record that is present
    and that [JSON.parse] rejects, yet [restore] leaves it in
    [localStorage].  And a record that parses need not hold a user: from the
    text [5] the current user becomes the number 5, which is no user, and
    from the text [null] nobody is logged in. *)
Lemma C9_counterexample :
  let page record :=
    World.mk Sample.app0 (LocalStorage.mk None (Some record)) [] [] [] [] [] in
  (LocalStorage.currentUser (World.localStorage (page EmptyText))
   = Some EmptyText
   /\ snd (JSON_parse EmptyText (page EmptyText)) = Throw SyntaxError_json
   /\ LocalStorage.currentUser
        (World.localStorage (fst (restore (page EmptyText))))
      = Some EmptyText)
  /\ (snd (JSON_parse (Encodes (JNumber (js "5")))
             (page (Encodes (JNumber (js "5")))))
      = Ok (JNumber (js "5"))
      /\ logged_in (fst (restore (page (Encodes (JNumber (js "5"))))))
         = Some (JNumber (js "5"))
      /\ forall user : User.t, JNumber (js "5") <> user)
  /\ (snd (JSON_parse (Encodes JNull) (page (Encodes JNull))) = Ok JNull
      /\ logged_in (fst (restore (page (Encodes JNull)))) = None).
Proof. cbv zeta. repeat split. discriminate. Qed.

(** ** The tool-calling service *)

Lemma service_frame_refl w : service_frame w w.
Proof.
  repeat split; try reflexivity.
  - exists []. by rewrite app_nil_r.
  - exists []. by rewrite app_nil_r.
Qed.

Lemma service_frame_trans w1 w2 w3 :
  service_frame w1 w2 -> service_frame w2 w3 -> service_frame w1 w3.
Proof.
  intros (A1 & B1 & C1 & D1 & E1 & (l1 & F1 & G1) & (r1 & H1))
         (A2 & B2 & C2 & D2 & E2 & (l2 & F2 & G2) & (r2 & H2)).
  repeat split; try congruence.
  - exists (l1 ++ l2). split; [|by apply Forall_app].
    by rewrite F2, F1, app_assoc.
  - exists (r1 ++ r2). by rewrite H2, H1, app_assoc.
Qed.

Lemma send_frame {A} rq (settled : result A) w :
  service_frame w (fst (send rq settled w)).
Proof.
  destruct w. cbn. repeat split.
  - exists []. by rewrite app_nil_r.
  - by exists [rq].
Qed.

(** The web-search tool never throws: a fault of its remote call becomes the
    fixed apology summary with no results. *)
Lemma performWebSearch_total env query w :
  exists summary results,
    snd (performWebSearch env query w) = Ok (SearchPayload summary results)
    /\ service_frame w (fst (performWebSearch env query w)).
Proof.
  unfold performWebSearch. run. destruct w.
  destruct (Env.models_generateContent env _) as [r|e]; cbn [fst snd].
  - do 2 eexists. split; [reflexivity|]. repeat split.
    + exists []. by rewrite app_nil_r.
    + by eexists.
  - do 2 eexists. split; [reflexivity|]. repeat split.
    + eexists. split; [reflexivity|]. apply Forall_cons. split; [|constructor].
      left. reflexivity.
    + by eexists.
Qed.

(** The image tool never throws either: it hands back a data URI or a fixed
    error text. *)
Lemma performImageGeneration_total env prompt w :
  ((exists imageUrl,
      snd (performImageGeneration env prompt w) = Ok (ImageUrlPayload imageUrl))
   \/ (exists error,
      snd (performImageGeneration env prompt w) = Ok (ImageErrorPayload error)))
  /\ service_frame w (fst (performImageGeneration env prompt w)).
Proof.
  assert (Hnil : forall c : list LogEntry.t, exists logged,
             c = c ++ logged /\ Forall tool_log logged).
  { intros c. exists []. split; [by rewrite app_nil_r | constructor]. }
  assert (Hone : forall (c : list LogEntry.t) e, exists logged,
             c ++ [LogEntry.mk (Some (js "Error generating image with Gemini:")) e]
             = c ++ logged /\ Forall tool_log logged).
  { intros c e. eexists. split; [reflexivity|].
    apply Forall_cons. split; [by right | constructor]. }
  unfold performImageGeneration, try_catch, send, mbind, M_bind. destruct w.
  destruct (Env.models_generateImages env _ _) as [[[[|[[img|]] ?]|]]|e];
    cbn; (split; [eauto|]); repeat split; eauto.
Qed.

Lemma arg_frame fc key read w : fst (arg fc key read w) = w.
Proof. unfold arg. by destruct (FunctionCall.args fc). Qed.

(** The tool dispatch only sends requests and logs. *)
Lemma call_tool_frame env fc w : service_frame w (fst (call_tool env fc w)).
Proof.
  unfold call_tool. repeat case_bool_decide.
  - unfold arg. destruct (FunctionCall.args fc); run.
    + destruct (performWebSearch_total env (Args.query t) w)
        as (? & ? & _ & F). exact F.
    + apply service_frame_refl.
  - unfold arg. destruct (FunctionCall.args fc); run.
    + exact (proj2 (performImageGeneration_total env (Args.prompt t) w)).
    + apply service_frame_refl.
  - apply service_frame_refl.
  - apply service_frame_refl.
Qed.


(** With usable arguments an implemented tool always hands back a payload,
    and only the web search hands back results, only image generation an
    image URL. *)
Lemma call_tool_known env fc w :
  FunctionCall.name fc ∈ implemented_tools ->
  (FunctionCall.name fc = Some getCurrentTime
   \/ is_Some (FunctionCall.args fc)) ->
  exists payload,
    snd (call_tool env fc w) = Ok payload
    /\ (is_Some (results_in payload) <->
        FunctionCall.name fc = Some searchTheWeb)
    /\ (is_Some (imageUrl_in payload) ->
        FunctionCall.name fc = Some generateImage).
Proof.
  intros Hin Hargs. unfold call_tool.
  assert (Hd1 : Some searchTheWeb <> Some generateImage) by discriminate.
  assert (Hd2 : Some searchTheWeb <> Some getCurrentTime) by discriminate.
  assert (Hd3 : Some generateImage <> Some getCurrentTime) by discriminate.
  case_bool_decide as E1; [|case_bool_decide as E2; [|case_bool_decide as E3]].
  - destruct Hargs as [T|[a Ha]]; [congruence|].
    unfold arg. rewrite Ha. run.
    destruct (performWebSearch_total env (Args.query a) w)
      as (s & rs & -> & _).
    eexists. split; [reflexivity|]. cbn. split; [|intros [? [=]]].
    split; [done | by eexists].
  - destruct Hargs as [T|[a Ha]]; [congruence|].
    unfold arg. rewrite Ha. run.
    destruct (performImageGeneration_total env (Args.prompt a) w)
      as ([(u & ->)|(e & ->)] & _);
      (eexists; split; [reflexivity|]); cbn;
      (split; [split; [intros [? [=]] | congruence] | done]).
  - eexists. split; [reflexivity|]. cbn.
    split; [split; [intros [? [=]] | congruence] | intros [? [=]]].
  - exfalso. unfold implemented_tools in Hin.
    repeat (apply elem_of_cons in Hin as [?|Hin]; [congruence|]).
    by apply elem_of_nil in Hin.
Qed.

(** How [getAssistantResponse] runs once the first response carries a
    function call. *)
Lemma getAssistantResponse_tool env message history w response fc :
  Env.chat_sendMessage env history message = Ok response ->
  functionCall_of response = Some fc ->
  getAssistantResponse env message history w =
  (let name := FunctionCall.name fc in
   let w1 := fst (send (ChatSendMessage history message) (Ok response) w) in
   match call_tool env fc w1 with
   | (w2, Ok payload) =>
     match send (ChatSendFunctionResponse name payload)
                (Env.chat_sendFunctionResponse env name payload) w2 with
     | (w3, Ok result2) =>
       (w3, Ok (attach_tool_output name payload
                  (AssistantResponse.mk
                     (Some (default [] (firstPart result2 ≫= Part.text)))
                     None None)))
     | (w3, Throw e) => (w3, Throw e)
     end
   | (w2, Throw e) => (w2, Throw e)
   end).
Proof.
  intros H1 Hfc. unfold getAssistantResponse, mbind at 1, M_bind at 1.
  rewrite H1. destruct w; cbn [send fst]. rewrite Hfc.
  unfold mbind, M_bind, mret, M_ret.
  destruct (call_tool env fc _) as [w2 [payload|e]]; [|reflexivity].
  destruct (send _ _ w2) as [w3 [result2|e]]; reflexivity.
Qed.

Lemma attach_tool_output_text name payload r :
  AssistantResponse.text (attach_tool_output name payload r)
  = AssistantResponse.text r.
Proof.
  unfold attach_tool_output.
  repeat case_bool_decide; destruct payload; reflexivity.
Qed.

Lemma attach_tool_output_imageUrl name payload t :
  AssistantResponse.imageUrl
    (attach_tool_output name payload (AssistantResponse.mk t None None))
  = if bool_decide (name = Some generateImage) then imageUrl_in payload
    else None.
Proof.
  unfold attach_tool_output.
  repeat case_bool_decide; destruct payload; reflexivity.
Qed.

Lemma attach_tool_output_searchResults name payload t :
  AssistantResponse.searchResults
    (attach_tool_output name payload (AssistantResponse.mk t None None))
  = if bool_decide (name = Some searchTheWeb) then results_in payload
    else None.
Proof.
  unfold attach_tool_output.
  repeat case_bool_decide; destruct payload; reflexivity.
Qed.

(** C1 (as amended): when the first response carries a call of one of the
    three tools, with an [args] object unless the tool is the clock, and the
    follow-up call that returns the tool's output is answered, then
    [getAssistantResponse] returns one response whose [text] is the
    follow-up's text (the empty string when it has none); that response has
    [searchResults] exactly when the tool was [searchTheWeb], and has an
    [imageUrl] only when the tool was [generateImage]. *)
Theorem C1_tool_turn (env : Env.t) (message : jsstring)
  (history : list HistoryItem.t) (w : World.t)
  (response : Response.t) (fc : FunctionCall.t) :
  Env.chat_sendMessage env history message = Ok response ->
  functionCall_of response = Some fc ->
  FunctionCall.name fc ∈ implemented_tools ->
  (FunctionCall.name fc = Some getCurrentTime
   \/ is_Some (FunctionCall.args fc)) ->
  (forall payload, exists result2,
     Env.chat_sendFunctionResponse env (FunctionCall.name fc) payload
     = Ok result2) ->
  exists final payload result2,
    snd (getAssistantResponse env message history w) = Ok final
    /\ Env.chat_sendFunctionResponse env (FunctionCall.name fc) payload
       = Ok result2
    /\ AssistantResponse.text final
       = Some (default [] (firstPart result2 ≫= Part.text))
    /\ (is_Some (AssistantResponse.searchResults final) <->
        FunctionCall.name fc = Some searchTheWeb)
    /\ (is_Some (AssistantResponse.imageUrl final) ->
        FunctionCall.name fc = Some generateImage).
Proof.
  intros H1 Hfc Hin Hargs Hfollow.
  rewrite (getAssistantResponse_tool _ _ _ _ _ _ H1 Hfc). cbv zeta.
  set (w1 := fst (send _ _ w)).
  destruct (call_tool_known env fc w1 Hin Hargs) as (payload & Hp & Hr & Hi).
  destruct (call_tool env fc w1) as [w2 r]. cbn in Hp. subst r.
  destruct (Hfollow payload) as [result2 H2].
  unfold send. destruct w2. rewrite H2. cbn [snd].
  exists (attach_tool_output (FunctionCall.name fc) payload
            (AssistantResponse.mk
               (Some (default [] (firstPart result2 ≫= Part.text)))
               None None)), payload, result2.
  split; [reflexivity|]. split; [exact H2|].
  rewrite attach_tool_output_text, attach_tool_output_searchResults,
    attach_tool_output_imageUrl.
  split; [reflexivity|]. split.
  - case_bool_decide as E; [tauto|]. split; [intros [? [=]] | congruence].
  - case_bool_decide as E; [tauto|]. intros [? [=]].
Qed.

(** When that follow-up call faults, [getAssistantResponse] returns nothing:
    it throws the fault. *)
Lemma getAssistantResponse_followup_fault env message history w response fc e :
  Env.chat_sendMessage env history message = Ok response ->
  functionCall_of response = Some fc ->
  FunctionCall.name fc ∈ implemented_tools ->
  (FunctionCall.name fc = Some getCurrentTime
   \/ is_Some (FunctionCall.args fc)) ->
  (forall payload,
     Env.chat_sendFunctionResponse env (FunctionCall.name fc) payload
     = Throw e) ->
  snd (getAssistantResponse env message history w) = Throw e.
Proof.
  intros H1 Hfc Hin Hargs Hfollow.
  rewrite (getAssistantResponse_tool _ _ _ _ _ _ H1 Hfc). cbv zeta.
  set (w1 := fst (send _ _ w)).
  destruct (call_tool_known env fc w1 Hin Hargs) as (payload & Hp & _).
  destruct (call_tool env fc w1) as [w2 r]. cbn in Hp. subst r.
  unfold send. destruct w2. by rewrite Hfollow.
Qed.

Lemma getAssistantResponse_first_fault env message history w e :
  Env.chat_sendMessage env history message = Throw e ->
  snd (getAssistantResponse env message history w) = Throw e.
Proof.
  intros H1. unfold getAssistantResponse, mbind, M_bind, send.
  destruct w. by rewrite H1.
Qed.

(** The service only sends requests and logs tool failures, and the first
    request it sends is the chat message with the history it was given. *)
Lemma getAssistantResponse_frame env message history w :
  service_frame w (fst (getAssistantResponse env message history w))
  /\ exists later,
       World.requests (fst (getAssistantResponse env message history w))
       = World.requests w ++ ChatSendMessage history message :: later.
Proof.
  unfold getAssistantResponse, mbind, M_bind, mret, M_ret.
  pose proof (send_frame (ChatSendMessage history message)
                (Env.chat_sendMessage env history message) w) as F1.
  assert (R1 : World.requests
                 (fst (send (ChatSendMessage history message)
                         (Env.chat_sendMessage env history message) w))
               = World.requests w ++ [ChatSendMessage history message])
    by (by destruct w).
  destruct (send _ _ w) as [w1 [response|e]]; cbn [fst] in *.
  2:{ split; [exact F1|]. exists []. exact R1. }
  destruct (functionCall_of response) as [fc|].
  2:{ cbn. split; [exact F1|]. exists []. exact R1. }
  pose proof (call_tool_frame env fc w1) as F2.
  destruct (call_tool env fc w1) as [w2 [payload|e]]; cbn [fst] in *.
  - pose proof (send_frame
        (ChatSendFunctionResponse (FunctionCall.name fc) payload)
        (Env.chat_sendFunctionResponse env (FunctionCall.name fc) payload) w2)
      as F3.
    destruct (send _ _ w2) as [w3 [result2|e]]; cbn [fst] in *.
    all: split; [eauto using service_frame_trans|].
    all: destruct F2 as (_ & _ & _ & _ & _ & _ & (s2 & S2)).
    all: destruct F3 as (_ & _ & _ & _ & _ & _ & (s3 & S3)).
    all: exists (s2 ++ s3); rewrite S3, S2, R1, <- !app_assoc; reflexivity.
  - split; [eauto using service_frame_trans|].
    destruct F2 as (_ & _ & _ & _ & _ & _ & (s2 & S2)).
    exists s2. rewrite S2, R1, <- app_assoc. reflexivity.
Qed.

Lemma C1_tool_turn_witness :
  exists final payload result2,
    snd (getAssistantResponse Sample.env_clock (js "time?") [] Sample.fresh)
    = Ok final
    /\ Env.chat_sendFunctionResponse Sample.env_clock
         (FunctionCall.name (FunctionCall.mk (Some getCurrentTime) None))
         payload = Ok result2
    /\ AssistantResponse.text final
       = Some (default [] (firstPart result2 ≫= Part.text))
    /\ (is_Some (AssistantResponse.searchResults final) <->
        FunctionCall.name (FunctionCall.mk (Some getCurrentTime) None)
        = Some searchTheWeb)
    /\ (is_Some (AssistantResponse.imageUrl final) ->
        FunctionCall.name (FunctionCall.mk (Some getCurrentTime) None)
        = Some generateImage).
Proof.
  apply (C1_tool_turn Sample.env_clock (js "time?") [] Sample.fresh
           (Sample.call_response getCurrentTime None)
           (FunctionCall.mk (Some getCurrentTime) None)).
  - reflexivity.
  - reflexivity.
  - unfold implemented_tools. cbn. do 2 right. left.
  - left. reflexivity.
  - intros payload. eexists. reflexivity.
Defined.

(** C1 as stated fails: the first response carries a call of the clock
    tool, the follow-up call faults, and [getAssistantResponse] returns no
    response at all: it throws. *)
Lemma C1_counterexample :
  Env.chat_sendMessage Sample.env_clock_fault [] (js "time?")
  = Ok (Sample.call_response getCurrentTime None)
  /\ functionCall_of (Sample.call_response getCurrentTime None)
     = Some (FunctionCall.mk (Some getCurrentTime) None)
  /\ Some getCurrentTime ∈ implemented_tools
  /\ snd (getAssistantResponse Sample.env_clock_fault (js "time?") []
            Sample.fresh)
     = Throw Sample.fault.
Proof.
  split; [reflexivity|]. split; [reflexivity|].
  split; [unfold implemented_tools; do 2 right; left|].
  vm_compute. reflexivity.
Qed.

(** ** Speech output and the chat turn *)

(** One call of [speak]: it never throws, leaves the console, the requests
    and [localStorage] alone, and makes exactly the setter and synthesiser
    calls listed. *)
Lemma speak_run env render text w :
  speak env render text w =
  (World.mk (replay (speak_updates env render) (World.app w))
     (World.localStorage w)
     (World.updates w ++ speak_updates env render)
     (World.console w) (World.requests w)
     (World.synth w ++ speak_calls env render text)
     (World.opened w),
   Ok tt).
Proof.
  unfold speak, speak_updates, speak_calls, notice_due.
  destruct w as [a ls us c rq sy op].
  destruct (AppState.isSpeakingEnabled render), (Env.hasSpeechSynthesis env);
    cbn; rewrite ?app_nil_r; try reflexivity.
  unfold mbind, M_bind, speechSynthesis.
  destruct (selectVoice (AppState.voices render)) as [v|]; cbn.
  - by rewrite app_nil_r, <- app_assoc.
  - destruct (AppState.ttsWarningShown render); cbn.
    + by rewrite app_nil_r.
    + by rewrite <- app_assoc.
Qed.

(** [handleSendMessage] is its two halves around the call of the service. *)
Lemma handleSendMessage_turn env render text w :
  blank text = false ->
  handleSendMessage env render text w =
  (let w1 := fst (before_await env text w) in
   let settled :=
     getAssistantResponse env text (history_of (AppState.messages render)) w1 in
   after_await env render (snd settled) (fst settled)).
Proof.
  intros B. unfold handleSendMessage. rewrite truthy_trim, B. cbn [negb].
  cbv zeta. unfold before_await, after_await, userMessage_of,
    modelMessage_of, errorMessage_of.
  unfold try_finally, try_catch, mbind, M_bind, mret, M_ret.
  destruct w as [a ls us c rq sy op]. cbn [dispatch fst snd].
  destruct (getAssistantResponse _ _ _ _) as [w2 [response|e]]; cbn [fst snd].
  - destruct w2; cbn [dispatch].
    destruct (AssistantResponse.text response) as [t|]; cbn.
    + destruct (truthy t); [|reflexivity].
      rewrite speak_run. reflexivity.
    + reflexivity.
  - destruct w2; cbn [console_error dispatch].
    assert (T : truthy msg_apology = true) by reflexivity. rewrite T.
    rewrite speak_run. reflexivity.
Qed.

(** A blank message is dropped before anything happens. *)
Lemma handleSendMessage_blank env render text w :
  blank text = true -> handleSendMessage env render text w = (w, Ok tt).
Proof.
  intros B. unfold handleSendMessage. by rewrite truthy_trim, B.
Qed.

Lemma assistant_errors_app c1 c2 a ls us rq sy op :
  assistant_errors (World.mk a ls us (c1 ++ c2) rq sy op)
  = assistant_errors (World.mk a ls us c1 rq sy op)
    ++ assistant_errors (World.mk a ls us c2 rq sy op).
Proof. unfold assistant_errors. cbn. by rewrite filter_app, fmap_app. Qed.

Lemma tool_logs_not_assistant_errors logged :
  Forall tool_log logged ->
  filter (fun e => LogEntry.label e = Some (js "Error with assistant:")) logged
  = [].
Proof.
  induction 1 as [|e l He _ IH]; [reflexivity|].
  rewrite filter_cons, IH. case_decide as E; [|reflexivity].
  exfalso. destruct He as [He|He]; rewrite He in E; vm_compute in E;
    discriminate E.
Qed.

(** The service never reports on the console as [handleSendMessage] does. *)
Lemma service_frame_assistant_errors w w' :
  service_frame w w' -> assistant_errors w' = assistant_errors w.
Proof.
  intros (_ & _ & _ & _ & _ & (logged & C & T) & _).
  unfold assistant_errors. rewrite C, filter_app.
  rewrite (tool_logs_not_assistant_errors _ T). by rewrite app_nil_r.
Qed.

Lemma before_await_run env text w :
  before_await env text w =
  (let us := [setMessages_append (userMessage_of env text); setUserInput [];
              setIsLoading true; setStatus status_thinking] in
   (World.mk (replay us (World.app w)) (World.localStorage w)
      (World.updates w ++ us) (World.console w) (World.requests w)
      (World.synth w) (World.opened w), Ok tt)).
Proof.
  destruct w. unfold before_await, mbind, M_bind. cbn.
  by rewrite <- !app_assoc.
Qed.

Lemma messages_before_await env text w :
  conversation (fst (before_await env text w))
  = conversation w ++ [userMessage_of env text].
Proof.
  rewrite before_await_run. destruct w as [[] ? ? ? ? ? ?]. reflexivity.
Qed.

Lemma speak_conversation env render text w :
  conversation (fst (speak env render text w))
  = conversation w ++ notice env render.
Proof.
  rewrite speak_run. unfold conversation, speak_updates, notice. cbn.
  destruct (notice_due env render), (World.app w); cbn;
    by rewrite ?app_nil_r.
Qed.

Lemma speak_keeps env render text w :
  let w' := fst (speak env render text w) in
  World.console w' = World.console w
  /\ World.requests w' = World.requests w
  /\ World.localStorage w' = World.localStorage w
  /\ AppState.isLoading (World.app w') = AppState.isLoading (World.app w)
  /\ AppState.status (World.app w') = AppState.status (World.app w).
Proof.
  cbv zeta. rewrite speak_run. unfold speak_updates. cbn.
  destruct (notice_due env render), (World.app w); cbn; auto.
Qed.

(** What the second half of a turn does, either way the service settled: it
    never throws, it ends with the loading flag down and the status back to
    online, it appends the model's message or the apology (and the notice
    when [speak] owes it), and it reports on the console only a fault. *)
Lemma after_await_effect env render settled w2 :
  let w' := fst (after_await env render settled w2) in
  snd (after_await env render settled w2) = Ok tt
  /\ AppState.isLoading (World.app w') = false
  /\ AppState.status (World.app w') = status_online
  /\ World.requests w' = World.requests w2
  /\ World.localStorage w' = World.localStorage w2
  /\ match settled with
     | Ok response =>
       conversation w' =
       conversation w2 ++ [modelMessage_of env response]
       ++ (if truthy_opt (AssistantResponse.text response)
           then notice env render else [])
       /\ World.console w' = World.console w2
     | Throw e =>
       conversation w' =
       conversation w2 ++ [errorMessage_of env] ++ notice env render
       /\ World.console w' =
          World.console w2
          ++ [LogEntry.mk (Some (js "Error with assistant:")) e]
     end.
Proof.
  cbv zeta. unfold after_await, mbind, M_bind, mret, M_ret.
  destruct settled as [response|e].
  - destruct w2 as [a ls us c rq sy op]. cbn [dispatch].
    destruct (AssistantResponse.text response) as [t|]; cbn [truthy_opt].
    + destruct (truthy t).
      * rewrite speak_run. unfold conversation, speak_updates, notice.
        destruct (notice_due env render), a; cbn;
          rewrite <- ?app_assoc; auto 10.
      * destruct a; cbn; rewrite ?app_nil_r; auto 10.
    + destruct a; cbn; rewrite ?app_nil_r; auto 10.
  - destruct w2 as [a ls us c rq sy op]. cbn [console_error dispatch].
    rewrite speak_run. unfold conversation, speak_updates, notice.
    destruct (notice_due env render), a; cbn;
      rewrite <- ?app_assoc; auto 10.
Qed.

(** A whole turn on a message that is not blank. *)
Lemma turn_effect env render text w :
  blank text = false ->
  let history := history_of (AppState.messages render) in
  let w1 := fst (before_await env text w) in
  let settled := snd (getAssistantResponse env text history w1) in
  let w' := fst (handleSendMessage env render text w) in
  snd (handleSendMessage env render text w) = Ok tt
  /\ AppState.isLoading (World.app w') = false
  /\ AppState.status (World.app w') = status_online
  /\ World.localStorage w' = World.localStorage w
  /\ (exists later,
        World.requests w' =
        World.requests w ++ ChatSendMessage history text :: later)
  /\ match settled with
     | Ok response =>
       conversation w' =
       conversation w
       ++ [userMessage_of env text; modelMessage_of env response]
       ++ (if truthy_opt (AssistantResponse.text response)
           then notice env render else [])
       /\ assistant_errors w' = assistant_errors w
     | Throw e =>
       conversation w' =
       conversation w ++ [userMessage_of env text; errorMessage_of env]
       ++ notice env render
       /\ assistant_errors w' = assistant_errors w ++ [e]
     end.
Proof.
  intros B. cbv zeta. rewrite (handleSendMessage_turn _ _ _ _ B). cbv zeta.
  set (w1 := fst (before_await env text w)).
  set (h := history_of (AppState.messages render)).
  destruct (getAssistantResponse_frame env text h w1) as [F [later R]].
  pose proof (service_frame_assistant_errors _ _ F) as A.
  destruct F as (Fa & Fl & _).
  assert (C1 : conversation (fst (getAssistantResponse env text h w1))
               = conversation w ++ [userMessage_of env text]).
  { unfold conversation. rewrite Fa. apply messages_before_await. }
  assert (W1 : World.requests w1 = World.requests w
               /\ World.localStorage w1 = World.localStorage w
               /\ assistant_errors w1 = assistant_errors w).
  { subst w1. rewrite before_await_run. by destruct w. }
  destruct W1 as (Rq1 & Ls1 & A1).
  destruct (getAssistantResponse env text h w1) as [w2 settled].
  cbn [fst snd] in *.
  pose proof (after_await_effect env render settled w2) as E. cbv zeta in E.
  destruct E as (E1 & E2 & E3 & E4 & E5 & E6).
  split; [exact E1|]. split; [exact E2|]. split; [exact E3|].
  split; [congruence|].
  split; [exists later; congruence|].
  destruct settled as [response|e]; destruct E6 as [Ec El].
  - split.
    + rewrite Ec, C1, <- !app_assoc. reflexivity.
    + unfold assistant_errors in *. rewrite El. congruence.
  - split.
    + rewrite Ec, C1, <- !app_assoc. reflexivity.
    + unfold assistant_errors in *. rewrite El, filter_app, fmap_app.
      rewrite A, A1. f_equal.
Qed.

(** ** The claims on the chat turn *)





(** The history the code builds is the history of the messages with a role
    of user or model and a text that is present and not empty. *)
Lemma history_of_nonempty messages :
  history_of messages = wire_history_nonempty messages.
Proof.
  unfold history_of, wire_history_nonempty.
  induction messages as [|m ms IH]; [reflexivity|].
  rewrite filter_cons. cbn [omap list_omap].
  destruct m as [i r [[|c t]|] ? ?]; destruct r; cbn;
    case_decide as D; cbn in D;
    try (exfalso; apply D; split; [by (left + right) | exact I]);
    try (destruct D as [[D|D] D']; first [discriminate D | destruct D']);
    rewrite ?fmap_cons; cbn; by rewrite <- IH.
Qed.

Lemma wire_history_nonempty_roles messages :
  Forall (fun h => HistoryItem.role h <> SYSTEM
                   /\ exists c t, HistoryItem.parts h = [TextPart.mk (c :: t)])
         (wire_history_nonempty messages).
Proof.
  unfold wire_history_nonempty.
  induction messages as [|m ms IH]; [constructor|].
  cbn [omap list_omap].
  destruct m as [i r [[|c t]|] ? ?]; destruct r; cbn; try exact IH;
    (constructor; [|exact IH]); cbn; (split; [discriminate | eauto]).
Qed.

(** C3 (as amended): the first request of a turn carries, as its history,
    the messages of the store (as of the render that built the callback)
    whose role is user or model and whose text is present and not empty,
    each mapped to [{role, parts: [{text}]}], in the order of the store; no
    system message and no message without text is in it. *)
Theorem C3_wire_history (env : Env.t) (render : AppState.t)
  (text : jsstring) (w : World.t) :
  blank text = false ->
  let history := history_of (AppState.messages render) in
  (exists later,
     World.requests (fst (handleSendMessage env render text w))
     = World.requests w ++ ChatSendMessage history text :: later)
  /\ history = wire_history_nonempty (AppState.messages render)
  /\ Forall (fun h => HistoryItem.role h <> SYSTEM
                      /\ exists c t,
                           HistoryItem.parts h = [TextPart.mk (c :: t)])
            history.
Proof.
  intros B history.
  pose proof (turn_effect env render text w B) as T. cbv zeta in T.
  destruct T as (_ & _ & _ & _ & R & _).
  split; [exact R|]. subst history. rewrite history_of_nonempty.
  split; [reflexivity | apply wire_history_nonempty_roles].
Qed.

Lemma C3_wire_history_witness :
  exists later,
    World.requests
      (fst (handleSendMessage Sample.env_chat Sample.app0 (js "hi")
              Sample.fresh))
    = World.requests Sample.fresh
      ++ ChatSendMessage (history_of (AppState.messages Sample.app0)) (js "hi")
         :: later.
Proof.
  apply (C3_wire_history Sample.env_chat Sample.app0 (js "hi") Sample.fresh).
  reflexivity.
Defined.

(** C3 as stated fails: a model message whose text is present but empty
    belongs to the history in the claim's words, and the code leaves it
    out.  A tool turn whose follow-up answer has no text puts such a message
    in the store. *)
Lemma C3_counterexample :
  let stored :=
    conversation (fst (handleSendMessage Sample.env_clock_silent Sample.app0
                         (js "time?") Sample.fresh)) in
  let silent := Message.mk (js "2-model") MODEL (Some []) None None in
  silent ∈ stored
  /\ wire_history_as_stated [silent] = [HistoryItem.mk MODEL [TextPart.mk []]]
  /\ history_of [silent] = [].
Proof.
  cbv zeta. split; [|split; reflexivity].
  vm_compute. apply elem_of_cons. right. apply elem_of_cons. by left.
Qed.

(** C10: a message that is empty or whitespace-only is dropped by both
    front ends' [handleSendMessage] before anything happens: the world after
    the call is the world before it (same conversation store, same loading
    flag and status, no request sent, nothing logged or spoken) and nothing
    is thrown. *)
Theorem C10_blank_message_ignored (env : Env.t) (render : AppState.t)
  (text : jsstring) (w : World.t) :
  blank text = true ->
  handleSendMessage env render text w = (w, Ok tt)
  /\ Sahaya.handleSendMessage env render text w = (w, Ok tt).
Proof.
  intros B. split; [by apply handleSendMessage_blank|].
  unfold Sahaya.handleSendMessage. by rewrite truthy_trim, B.
Qed.

Lemma C10_blank_message_ignored_witness :
  handleSendMessage Sample.env_chat Sample.app0 (js "   ") Sample.fresh
  = (Sample.fresh, Ok tt)
  /\ Sahaya.handleSendMessage Sample.env_chat Sample.app0 (js "   ")
       Sample.fresh
     = (Sample.fresh, Ok tt).
Proof.
  apply (C10_blank_message_ignored Sample.env_chat Sample.app0 (js "   ")
           Sample.fresh).
  reflexivity.
Defined.

(** A fault of the search call is caught inside the tool. *)
Lemma performWebSearch_fault env query w e :
  (forall contents, Env.models_generateContent env contents = Throw e) ->
  snd (performWebSearch env query w)
  = Ok (SearchPayload (Some msg_search_failed) []).
Proof.
  intros H. unfold performWebSearch, try_catch, mbind, M_bind, send.
  destruct w. by rewrite H.
Qed.

(** A fault of the image call is caught inside the tool. *)
Lemma performImageGeneration_fault env prompt w e :
  (forall model p, Env.models_generateImages env model p = Throw e) ->
  snd (performImageGeneration env prompt w)
  = Ok (ImageErrorPayload msg_image_failed).
Proof.
  intros H. unfold performImageGeneration, try_catch, mbind, M_bind, send.
  destruct w. by rewrite H.
Qed.

(** The bilingual front end's chat call catches its fault too. *)
Lemma sendMessageToGemini_fault env message w e :
  Env.shared_chat_sendMessage env message = Throw e ->
  snd (Sahaya.sendMessageToGemini env message w)
  = Ok (Some Sahaya.msg_chat_failed).
Proof.
  intros H. unfold Sahaya.sendMessageToGemini, try_catch, mbind, M_bind, send.
  destruct w. by rewrite H.
Qed.

(** How a turn runs when the model asks for a web search and the search
    call faults: the tool catches the fault, logs it, and the apology payload
    goes to the model in the follow-up request, whose answer the service
    returns. *)
Lemma getAssistantResponse_search_fault env message history w response fc a e
  result2 :
  let contents :=
    js "Provide a concise, single-paragraph summary in Sinhala for the query: "
    ++ [34] ++ interpolate (Args.query a) ++ [34] in
  let payload := SearchPayload (Some msg_search_failed) [] in
  Env.chat_sendMessage env history message = Ok response ->
  functionCall_of response = Some fc ->
  FunctionCall.name fc = Some searchTheWeb ->
  FunctionCall.args fc = Some a ->
  Env.models_generateContent env contents = Throw e ->
  Env.chat_sendFunctionResponse env (Some searchTheWeb) payload = Ok result2 ->
  getAssistantResponse env message history w =
  (World.mk (World.app w) (World.localStorage w) (World.updates w)
     (World.console w
      ++ [LogEntry.mk (Some (js "Error searching with Gemini:")) e])
     (World.requests w
      ++ [ChatSendMessage history message; GenerateContent contents;
          ChatSendFunctionResponse (Some searchTheWeb) payload])
     (World.synth w) (World.opened w),
   Ok (AssistantResponse.mk
         (Some (default [] (firstPart result2 ≫= Part.text))) None
         (Some []))).
Proof.
  intros contents payload H1 Hfc Hn Ha Hs H2.
  rewrite (getAssistantResponse_tool _ _ _ _ _ _ H1 Hfc). cbv zeta.
  unfold call_tool, arg. rewrite Hn, Ha.
  rewrite (bool_decide_eq_true_2 _ eq_refl).
  unfold performWebSearch, try_catch, mbind, M_bind, mret, M_ret.
  destruct w as [ap ls us c rq sy op]. cbn [send fst].
  fold contents. rewrite Hs. cbn [console_error].
  fold payload. rewrite H2. cbn [send]. rewrite <- !app_assoc.
  unfold attach_tool_output, payload.
  assert (D : bool_decide (Some searchTheWeb = Some generateImage) = false)
    by reflexivity.
  rewrite D, (bool_decide_eq_true_2 _ eq_refl). reflexivity.
Qed.

(** The same for the image tool. *)
Lemma getAssistantResponse_image_fault env message history w response fc a e
  result2 :
  let model := js "imagen-4.0-generate-001" in
  let payload := ImageErrorPayload msg_image_failed in
  Env.chat_sendMessage env history message = Ok response ->
  functionCall_of response = Some fc ->
  FunctionCall.name fc = Some generateImage ->
  FunctionCall.args fc = Some a ->
  Env.models_generateImages env model (Args.prompt a) = Throw e ->
  Env.chat_sendFunctionResponse env (Some generateImage) payload
  = Ok result2 ->
  getAssistantResponse env message history w =
  (World.mk (World.app w) (World.localStorage w) (World.updates w)
     (World.console w
      ++ [LogEntry.mk (Some (js "Error generating image with Gemini:")) e])
     (World.requests w
      ++ [ChatSendMessage history message;
          GenerateImages model (Args.prompt a);
          ChatSendFunctionResponse (Some generateImage) payload])
     (World.synth w) (World.opened w),
   Ok (AssistantResponse.mk
         (Some (default [] (firstPart result2 ≫= Part.text))) None None)).
Proof.
  intros model payload H1 Hfc Hn Ha Hs H2.
  rewrite (getAssistantResponse_tool _ _ _ _ _ _ H1 Hfc). cbv zeta.
  unfold call_tool, arg. rewrite Hn, Ha.
  assert (D : bool_decide (Some generateImage = Some searchTheWeb) = false)
    by reflexivity.
  rewrite D, (bool_decide_eq_true_2 _ eq_refl).
  unfold performImageGeneration, try_catch, mbind, M_bind, mret, M_ret.
  destruct w as [ap ls us c rq sy op]. cbn [send fst].
  fold model. rewrite Hs. cbn [console_error].
  fold payload. rewrite H2. cbn [send]. rewrite <- !app_assoc.
  unfold attach_tool_output, payload.
  rewrite D, (bool_decide_eq_true_2 _ eq_refl). reflexivity.
Qed.

(** What a whole turn leaves once the service has settled in a world that
    differs from the one before the [await] only by its console and its
    requests. *)
Lemma turn_after_service env render text w logged sent response :
  blank text = false ->
  (forall w1,
     getAssistantResponse env text (history_of (AppState.messages render)) w1
     = (World.mk (World.app w1) (World.localStorage w1) (World.updates w1)
          (World.console w1 ++ logged) (World.requests w1 ++ sent)
          (World.synth w1) (World.opened w1),
        Ok response)) ->
  let w' := fst (handleSendMessage env render text w) in
  World.requests w' = World.requests w ++ sent
  /\ World.console w' = World.console w ++ logged
  /\ conversation w' =
     conversation w
     ++ [userMessage_of env text; modelMessage_of env response]
     ++ (if truthy_opt (AssistantResponse.text response)
         then notice env render else []).
Proof.
  intros B H. cbv zeta. rewrite (handleSendMessage_turn _ _ _ _ B). cbv zeta.
  rewrite H. cbn [fst snd].
  set (w1 := fst (before_await env text w)).
  set (w2 := World.mk _ _ _ _ _ _ _).
  pose proof (after_await_effect env render (Ok response) w2) as E.
  cbv zeta in E. destruct E as (_ & _ & _ & Er & _ & Ec & El).
  assert (W1 : World.requests w1 = World.requests w
               /\ World.console w1 = World.console w
               /\ conversation w1 = conversation w ++ [userMessage_of env text]).
  { subst w1. split; [|split]; [| |apply messages_before_await];
      rewrite before_await_run; by destruct w. }
  destruct W1 as (R1 & C1 & M1).
  split; [rewrite Er; subst w2; cbn; by rewrite R1|].
  split; [rewrite El; subst w2; cbn; by rewrite C1|].
  rewrite Ec. replace (conversation w2) with (conversation w1) by reflexivity.
  rewrite M1, <- !app_assoc. reflexivity.
Qed.

(** C4 (as amended): a turn on a message that is not blank never lets a
    fault through: [handleSendMessage] returns, with the loading flag down
    and the status back to online.  When the chat endpoint faults, on the
    first call or on the follow-up after a tool, the fault is caught in
    [handleSendMessage]: the fixed Sinhala apology is appended to the store
    after the user's message and the fault is reported on the console.  A
    fault of the search or image call is caught inside the tool, which logs
    it: the turn goes on to send the tool's fixed Sinhala apology payload to
    the model in the follow-up request, and appends the text of the model's
    answer to that (with empty search results after a search), not an
    apology of its own, and [handleSendMessage] reports no error.  The
    bilingual front end's [sendMessageToGemini] turns its fault into its
    fixed apology. *)
Theorem C4_faults_caught (env : Env.t) (render : AppState.t)
  (text : jsstring) (w : World.t) (e : JsError.t) :
  blank text = false ->
  let history := history_of (AppState.messages render) in
  let w' := fst (handleSendMessage env render text w) in
  let replied answer results :=
    Message.mk (toString (Env.Date_now_reply env) ++ js "-model") MODEL
      (Some answer) None results in
  snd (handleSendMessage env render text w) = Ok tt
  /\ AppState.isLoading (World.app w') = false
  /\ AppState.status (World.app w') = status_online
  /\ ((Env.chat_sendMessage env history text = Throw e
       \/ exists response fc,
            Env.chat_sendMessage env history text = Ok response
            /\ functionCall_of response = Some fc
            /\ FunctionCall.name fc ∈ implemented_tools
            /\ (FunctionCall.name fc = Some getCurrentTime
                \/ is_Some (FunctionCall.args fc))
            /\ forall payload,
                 Env.chat_sendFunctionResponse env (FunctionCall.name fc)
                   payload = Throw e) ->
      conversation w' =
      conversation w
      ++ [userMessage_of env text; replied msg_apology None]
      ++ notice env render
      /\ assistant_errors w' = assistant_errors w ++ [e])
  /\ (forall response fc a result2,
        let contents :=
          js "Provide a concise, single-paragraph summary in Sinhala for the query: "
          ++ [34] ++ interpolate (Args.query a) ++ [34] in
        let payload := SearchPayload (Some msg_search_failed) [] in
        let answer := default [] (firstPart result2 ≫= Part.text) in
        Env.chat_sendMessage env history text = Ok response ->
        functionCall_of response = Some fc ->
        FunctionCall.name fc = Some searchTheWeb ->
        FunctionCall.args fc = Some a ->
        Env.models_generateContent env contents = Throw e ->
        Env.chat_sendFunctionResponse env (Some searchTheWeb) payload
        = Ok result2 ->
        World.requests w' =
        World.requests w
        ++ [ChatSendMessage history text; GenerateContent contents;
            ChatSendFunctionResponse (Some searchTheWeb) payload]
        /\ World.console w' =
           World.console w
           ++ [LogEntry.mk (Some (js "Error searching with Gemini:")) e]
        /\ assistant_errors w' = assistant_errors w
        /\ conversation w' =
           conversation w
           ++ [userMessage_of env text; replied answer (Some [])]
           ++ (if truthy answer then notice env render else []))
  /\ (forall response fc a result2,
        let model := js "imagen-4.0-generate-001" in
        let payload := ImageErrorPayload msg_image_failed in
        let answer := default [] (firstPart result2 ≫= Part.text) in
        Env.chat_sendMessage env history text = Ok response ->
        functionCall_of response = Some fc ->
        FunctionCall.name fc = Some generateImage ->
        FunctionCall.args fc = Some a ->
        Env.models_generateImages env model (Args.prompt a) = Throw e ->
        Env.chat_sendFunctionResponse env (Some generateImage) payload
        = Ok result2 ->
        World.requests w' =
        World.requests w
        ++ [ChatSendMessage history text;
            GenerateImages model (Args.prompt a);
            ChatSendFunctionResponse (Some generateImage) payload]
        /\ World.console w' =
           World.console w
           ++ [LogEntry.mk (Some (js "Error generating image with Gemini:"))
                 e]
        /\ assistant_errors w' = assistant_errors w
        /\ conversation w' =
           conversation w
           ++ [userMessage_of env text; replied answer None]
           ++ (if truthy answer then notice env render else []))
  /\ (forall query w0,
        (forall contents, Env.models_generateContent env contents = Throw e) ->
        snd (performWebSearch env query w0)
        = Ok (SearchPayload (Some msg_search_failed) []))
  /\ (forall prompt w0,
        (forall model p, Env.models_generateImages env model p = Throw e) ->
        snd (performImageGeneration env prompt w0)
        = Ok (ImageErrorPayload msg_image_failed))
  /\ (forall message w0,
        Env.shared_chat_sendMessage env message = Throw e ->
        snd (Sahaya.sendMessageToGemini env message w0)
        = Ok (Some Sahaya.msg_chat_failed)).
Proof.
  intros B history w' replied.
  pose proof (turn_effect env render text w B) as T. cbv zeta in T.
  fold history in T. fold w' in T.
  destruct T as (T1 & T2 & T3 & _ & _ & T6).
  split; [exact T1|]. split; [exact T2|]. split; [exact T3|].
  split.
  { intros H.
    assert (Hthrow : forall w0,
               snd (getAssistantResponse env text history w0) = Throw e).
    { intros w0. destruct H as [H|(response & fc & H1 & Hfc & Hin & Ha & Hf)].
      - by apply getAssistantResponse_first_fault.
      - by apply (getAssistantResponse_followup_fault
                    env text history w0 response fc e). }
    rewrite Hthrow in T6. exact T6. }
  split.
  { intros response fc a result2 contents payload answer H1 Hfc Hn Ha Hs H2.
    pose proof (fun w1 => getAssistantResponse_search_fault env text history
                            w1 response fc a e result2 H1 Hfc Hn Ha Hs H2)
      as G. cbv zeta in G.
    rewrite G in T6. destruct T6 as [_ T6].
    destruct (turn_after_service env render text w _ _ _ B G)
      as (R & C & M).
    split; [exact R|]. split; [exact C|]. split; [exact T6|]. exact M. }
  split.
  { intros response fc a result2 model payload answer H1 Hfc Hn Ha Hs H2.
    pose proof (fun w1 => getAssistantResponse_image_fault env text history
                            w1 response fc a e result2 H1 Hfc Hn Ha Hs H2)
      as G. cbv zeta in G.
    rewrite G in T6. destruct T6 as [_ T6].
    destruct (turn_after_service env render text w _ _ _ B G)
      as (R & C & M).
    split; [exact R|]. split; [exact C|]. split; [exact T6|]. exact M. }
  split; [intros query w0 H; by apply (performWebSearch_fault _ _ _ e)|].
  split; [intros prompt w0 H;
          by apply (performImageGeneration_fault _ _ _ e)|].
  intros message w0 H. by apply (sendMessageToGemini_fault _ _ _ e).
Qed.

Lemma C4_faults_caught_witness :
  conversation (fst (handleSendMessage Sample.env_down Sample.app0 (js "hi")
                       Sample.fresh))
  = conversation Sample.fresh
    ++ [userMessage_of Sample.env_down (js "hi");
        Message.mk (js "2-model") MODEL (Some msg_apology) None None]
    ++ notice Sample.env_down Sample.app0
  /\ World.requests
       (fst (handleSendMessage Sample.env_search_fault Sample.app0
               (js "news?") Sample.fresh))
     = World.requests Sample.fresh
       ++ [ChatSendMessage (history_of (AppState.messages Sample.app0))
             (js "news?");
           GenerateContent
             (js "Provide a concise, single-paragraph summary in Sinhala for the query: "
              ++ [34] ++ js "news" ++ [34]);
           ChatSendFunctionResponse (Some searchTheWeb)
             (SearchPayload (Some msg_search_failed) [])].
Proof.
  split.
  - apply (C4_faults_caught Sample.env_down Sample.app0 (js "hi")
             Sample.fresh Sample.fault).
    + reflexivity.
    + left. reflexivity.
  - apply (C4_faults_caught Sample.env_search_fault Sample.app0 (js "news?")
             Sample.fresh Sample.fault eq_refl)
      with (response := Sample.call_response searchTheWeb
                          (Some (Args.mk (Some (js "news")) None)))
           (fc := FunctionCall.mk (Some searchTheWeb)
                    (Some (Args.mk (Some (js "news")) None)))
           (a := Args.mk (Some (js "news")) None)
           (result2 := Sample.text_response (js "ok"));
      reflexivity.
Defined.

(** C4 as stated fails: the search call of a turn faults, the fault is
    caught inside the tool, and the turn ends by appending the model's own
    follow-up text, not an apology. *)
Lemma C4_counterexample :
  let w' := fst (handleSendMessage Sample.env_search_fault Sample.app0
                   (js "news?") Sample.fresh) in
  (forall contents,
     Env.models_generateContent Sample.env_search_fault contents
     = Throw Sample.fault)
  /\ GenerateContent
       (js "Provide a concise, single-paragraph summary in Sinhala for the query: "
        ++ [34] ++ js "news" ++ [34])
     ∈ World.requests w'
  /\ conversation w' =
     [Message.mk (js "1") USER (Some (js "news?")) None None;
      Message.mk (js "2-model") MODEL (Some (js "ok")) None (Some []);
      warningMessage]
  /\ Forall (fun m => Message.text m <> Some msg_apology
                      /\ Message.text m <> Some msg_search_failed)
            (conversation w').
Proof.
  cbv zeta. split; [reflexivity|].
  split; [vm_compute; apply elem_of_cons; right; apply elem_of_cons; by left|].
  split; [vm_compute; reflexivity|].
  vm_compute. repeat constructor; discriminate.
Qed.

(** ** The voice-unavailable notice *)

Lemma quiet_ret {A} (a : A) : quiet (mret a).
Proof. by intros w. Qed.

Lemma quiet_throw {A} e : quiet (throw e : M A).
Proof. by intros w. Qed.

Lemma quiet_bind {A B} (m : M A) (f : A -> M B) :
  quiet m -> (forall a, quiet (f a)) -> quiet (m ≫= f).
Proof.
  intros Hm Hf w. unfold mbind, M_bind. specialize (Hm w).
  destruct (m w) as [w1 [a|e]]; cbn [fst] in *; [|exact Hm].
  destruct (Hf a w1) as [F1 F2]. destruct Hm. split; congruence.
Qed.

Lemma quiet_try_catch {A} (m : M A) h :
  quiet m -> (forall e, quiet (h e)) -> quiet (try_catch m h).
Proof.
  intros Hm Hh w. unfold try_catch. specialize (Hm w).
  destruct (m w) as [w1 [a|e]]; cbn [fst] in *; [exact Hm|].
  destruct (Hh e w1) as [F1 F2]. destruct Hm. split; congruence.
Qed.

Lemma notices_app us vs : notices (us ++ vs) = (notices us + notices vs)%nat.
Proof. unfold notices. by rewrite List.filter_app, length_app. Qed.

Lemma quiet_dispatch u :
  is_notice u = false -> (forall b, u <> setTtsWarningShown b) ->
  quiet (dispatch u).
Proof.
  intros N F [a ls us c rq sy op]. unfold warned, notices_emitted, dispatch.
  cbn [fst World.app World.updates].
  rewrite notices_app. unfold notices at 2. cbn [List.filter].
  rewrite N. cbn [length].
  split; [|lia]. destruct a, u; try reflexivity. by destruct (F b).
Qed.

Lemma quiet_console_error l e : quiet (console_error l e).
Proof. by intros []. Qed.

Lemma quiet_getLocalStorage : quiet getLocalStorage.
Proof. by intros []. Qed.

Lemma quiet_setLocalStorage ls : quiet (setLocalStorage ls).
Proof. by intros []. Qed.

Create HintDb quiet.
#[local] Hint Resolve quiet_ret quiet_throw quiet_console_error
  quiet_getLocalStorage quiet_setLocalStorage : quiet.

Lemma quiet_JSON_parse t : quiet (JSON_parse t).
Proof. by destruct t. Qed.

Lemma quiet_getProperty users key : quiet (getProperty users key).
Proof. by destruct users. Qed.

Lemma quiet_setProperty users key v : quiet (setProperty users key v).
Proof.
  destruct users; try done. unfold setProperty.
  case_bool_decide; [done|]. by destruct (array_index key).
Qed.

#[local] Hint Resolve quiet_JSON_parse quiet_getProperty quiet_setProperty
  : quiet.

Ltac quiet :=
  repeat first
    [ solve [auto with quiet]
    | apply quiet_bind; [|intros ?]
    | apply quiet_try_catch; [|intros ?]
    | apply quiet_dispatch; [reflexivity | discriminate]
    | match goal with
      | |- quiet (if ?b then _ else _) => destruct b
      | |- quiet (match ?x with _ => _ end) => destruct x
      end ].

Lemma quiet_handleLogin user : quiet (handleLogin user).
Proof. unfold handleLogin. quiet. Qed.

Lemma quiet_parse_users : quiet parse_users.
Proof. unfold parse_users, JSON_parse. quiet. Qed.

Lemma quiet_handleSignup u p : quiet (Auth.handleSignup u p).
Proof.
  unfold Auth.handleSignup, store_users, onLogin.
  pose proof quiet_parse_users. pose proof quiet_handleLogin. quiet.
Qed.

Lemma quiet_Auth_handleLogin u p : quiet (Auth.handleLogin u p).
Proof.
  unfold Auth.handleLogin, onLogin.
  pose proof quiet_parse_users. pose proof quiet_handleLogin. quiet.
Qed.

Lemma quiet_handleLogout : quiet handleLogout.
Proof. unfold handleLogout, remove_currentUser. quiet. Qed.

Lemma quiet_greet : quiet greet.
Proof.
  intros w. unfold greet. cbv zeta.
  destruct (truthy_json (AppState.currentUser (World.app w))).
  - apply quiet_bind.
    + unfold username_text. destruct (property _ _) as [v| |]; try done.
      by destruct (ToString v).
    + intros ?. apply quiet_dispatch; [reflexivity | discriminate].
  - by split.
Qed.

Lemma is_notice_other m :
  Message.role m <> SYSTEM -> is_notice (setMessages_append m) = false.
Proof.
  intros R. cbn. apply bool_decide_eq_false_2. intros ->. by apply R.
Qed.

Lemma after_await_updates env render settled w2 :
  World.updates (fst (after_await env render settled w2))
  = World.updates w2 ++ after_updates env render settled
  /\ World.app (fst (after_await env render settled w2))
     = replay (after_updates env render settled) (World.app w2).
Proof.
  unfold after_await, after_updates, mbind, M_bind, mret, M_ret.
  destruct w2 as [a ls us c rq sy op].
  destruct settled as [response|e]; cbn [dispatch console_error].
  - destruct (AssistantResponse.text response) as [t|]; cbn [truthy_opt].
    + destruct (truthy t).
      * rewrite speak_run. cbn. unfold replay.
        rewrite <- !app_assoc, foldl_app. by cbn.
      * cbn. by rewrite <- !app_assoc.
    + cbn. by rewrite <- !app_assoc.
  - rewrite speak_run. cbn. unfold replay.
    rewrite <- !app_assoc, foldl_app. by cbn.
Qed.

(** The setter calls of a whole turn. *)
Lemma turn_updates env render text w :
  blank text = false ->
  let settled :=
    snd (getAssistantResponse env text (history_of (AppState.messages render))
           (fst (before_await env text w))) in
  let us := before_updates env text ++ after_updates env render settled in
  World.updates (fst (handleSendMessage env render text w))
  = World.updates w ++ us
  /\ World.app (fst (handleSendMessage env render text w))
     = replay us (World.app w).
Proof.
  intros B. cbv zeta. rewrite (handleSendMessage_turn _ _ _ _ B). cbv zeta.
  set (w1 := fst (before_await env text w)).
  set (h := history_of (AppState.messages render)).
  destruct (getAssistantResponse_frame env text h w1) as [F _].
  destruct F as (Fa & _ & Fu & _).
  assert (W1 : World.updates w1 = World.updates w ++ before_updates env text
               /\ World.app w1 = replay (before_updates env text) (World.app w)).
  { subst w1. rewrite before_await_run. by destruct w. }
  destruct W1 as [U1 A1].
  destruct (getAssistantResponse env text h w1) as [w2 settled].
  cbn [fst snd] in *.
  destruct (after_await_updates env render settled w2) as [U A].
  rewrite U, A, Fu, Fa, U1, A1. unfold replay.
  by rewrite foldl_app, <- app_assoc.
Qed.

(** A turn whose callback is the one of the current state either appends
    no notice and keeps the flag, or finds the flag down, appends the notice
    once and raises the flag. *)
Lemma turn_notice env text (a : AppState.t) settled :
  let us := before_updates env text ++ after_updates env a settled in
  (notices us = 0%nat
   /\ AppState.ttsWarningShown (replay us a) = AppState.ttsWarningShown a)
  \/ (AppState.ttsWarningShown a = false
      /\ notices us = 1%nat
      /\ AppState.ttsWarningShown (replay us a) = true).
Proof.
  cbv zeta. unfold before_updates, after_updates, speak_updates, notice_due.
  assert (Hu : is_notice (setMessages_append (userMessage_of env text)) = false)
    by (by apply is_notice_other).
  assert (Hm : forall r, is_notice (setMessages_append (modelMessage_of env r))
                         = false)
    by (intros r; by apply is_notice_other).
  assert (He : is_notice (setMessages_append (errorMessage_of env)) = false)
    by (by apply is_notice_other).
  assert (Hw : is_notice (setMessages_append warningMessage) = true)
    by (cbn; by apply bool_decide_eq_true_2).
  destruct a as [cu ms ui il st li sp vs tw er].
  cbn [AppState.isSpeakingEnabled AppState.voices AppState.ttsWarningShown].
  destruct settled as [response|e].
  - destruct (truthy_opt (AssistantResponse.text response)).
    + destruct (sp && Env.hasSpeechSynthesis env
                && bool_decide (selectVoice vs = None)); cbn [andb];
        [destruct tw; cbn [negb]|].
      * left. unfold notices. cbn [app List.filter].
        rewrite Hu, Hm. by cbn.
      * right. unfold notices. cbn [app List.filter].
        rewrite Hu, Hm, Hw. by cbn.
      * left. unfold notices. cbn [app List.filter].
        rewrite Hu, Hm. by cbn.
    + left. unfold notices. cbn [app List.filter]. rewrite Hu, Hm. by cbn.
  - destruct (sp && Env.hasSpeechSynthesis env
              && bool_decide (selectVoice vs = None)); cbn [andb];
      [destruct tw; cbn [negb]|].
    + left. unfold notices. cbn [app List.filter]. rewrite Hu, He. by cbn.
    + right. unfold notices. cbn [app List.filter]. rewrite Hu, He, Hw.
      by cbn.
    + left. unfold notices. cbn [app List.filter]. rewrite Hu, He. by cbn.
Qed.

Lemma quiet_invariant {A} (m : M A) w :
  quiet m -> notice_invariant w -> notice_invariant (fst (m w)).
Proof.
  intros Q I. destruct (Q w) as [W N]. unfold notice_invariant in *.
  rewrite W, N. exact I.
Qed.

Lemma step_invariant ev w :
  notice_invariant w -> notice_invariant (fst (step ev w)).
Proof.
  intros I. destruct ev as [env text|voices| |u p|u p|]; cbn [step].
  - destruct (blank text) eqn:B.
    { by rewrite handleSendMessage_blank. }
    destruct (turn_updates env (World.app w) text w B) as [U A].
    cbv zeta in U, A.
    set (settled := snd (getAssistantResponse env text _ _)) in *.
    destruct I as [I0 I1]. unfold notice_invariant, warned, notices_emitted in *.
    rewrite U, A, notices_app.
    destruct (turn_notice env text (World.app w) settled)
      as [[N F]|(F0 & N & F)]; cbv zeta in N, F; rewrite N, F.
    + rewrite Nat.add_0_r. by split.
    + rewrite (I0 F0). split; [discriminate | done].
  - apply quiet_invariant; [|exact I].
    apply quiet_dispatch; [reflexivity | discriminate].
  - apply quiet_invariant; [|exact I].
    apply quiet_dispatch; [reflexivity | discriminate].
  - destruct (truthy_json _); [exact I|].
    apply quiet_invariant; [|exact I].
    apply quiet_bind; [apply quiet_handleSignup | intros; apply quiet_greet].
  - destruct (truthy_json _); [exact I|].
    apply quiet_invariant; [|exact I].
    apply quiet_bind; [apply quiet_Auth_handleLogin | intros; apply quiet_greet].
  - apply quiet_invariant; [apply quiet_handleLogout | exact I].
Qed.

(** Whatever happens in a session, the notice is appended at most once. *)
Lemma run_session_invariant events w :
  notice_invariant w -> notice_invariant (fst (run_session events w)).
Proof.
  unfold run_session. revert w.
  induction events as [|ev evs IH]; intros w I; [exact I|].
  cbn [for_each]. unfold mbind, M_bind.
  pose proof (step_invariant ev w I) as I1.
  destruct (step ev w) as [w1 [[]|e]]; cbn [fst] in *; [by apply IH | exact I1].
Qed.

(** *** The voice [speak] picks *)

Lemma selectVoice_exact voices v :
  v ∈ voices -> Voice.lang v = targetLang ->
  exists v', selectVoice voices = Some v' /\ v' ∈ voices
             /\ Voice.lang v' = targetLang.
Proof.
  intros Hin Hl. unfold selectVoice.
  destruct (List.find _ voices) as [v'|] eqn:F.
  - apply List.find_some in F as [F1 F2]. exists v'.
    split; [reflexivity|]. split; [by apply list_elem_of_In|].
    by apply bool_decide_eq_true_1 in F2.
  - apply list_elem_of_In in Hin.
    pose proof (List.find_none _ _ F v Hin) as N. cbn in N.
    by apply bool_decide_eq_false_1 in N.
Qed.

Lemma selectVoice_prefix voices v :
  (forall u, u ∈ voices -> Voice.lang u <> targetLang) ->
  v ∈ voices -> startsWith (Voice.lang v) (js "si") = true ->
  exists v', selectVoice voices = Some v' /\ v' ∈ voices
             /\ startsWith (Voice.lang v') (js "si") = true
             /\ Voice.lang v' <> targetLang.
Proof.
  intros Hno Hin Hp. unfold selectVoice.
  destruct (List.find (fun voice => bool_decide (Voice.lang voice = targetLang))
              voices) as [x|] eqn:F.
  { apply List.find_some in F as [F1 F2]. apply bool_decide_eq_true_1 in F2.
    apply list_elem_of_In in F1. by destruct (Hno x F1). }
  destruct (List.find (fun voice => startsWith (Voice.lang voice) (js "si"))
              voices) as [v'|] eqn:G.
  - apply List.find_some in G as [G1 G2]. apply list_elem_of_In in G1.
    exists v'. split; [reflexivity|]. split; [exact G1|].
    split; [exact G2 | by apply Hno].
  - apply list_elem_of_In in Hin.
    pose proof (List.find_none _ _ G v Hin) as N. cbn in N. congruence.
Qed.

Lemma selectVoice_none voices :
  (forall u, u ∈ voices -> Voice.lang u <> targetLang) ->
  (forall u, u ∈ voices -> startsWith (Voice.lang u) (js "si") = false) ->
  selectVoice voices = None.
Proof.
  intros Hno Hnp. unfold selectVoice.
  destruct (List.find (fun voice => bool_decide (Voice.lang voice = targetLang))
              voices) as [x|] eqn:F.
  { apply List.find_some in F as [F1 F2]. apply bool_decide_eq_true_1 in F2.
    apply list_elem_of_In in F1. by destruct (Hno x F1). }
  destruct (List.find (fun voice => startsWith (Voice.lang voice) (js "si"))
              voices) as [v'|] eqn:G; [|reflexivity].
  apply List.find_some in G as [G1 G2]. apply list_elem_of_In in G1.
  rewrite (Hnp v' G1) in G2. discriminate.
Qed.

(** C8 (as amended): among the voices of the render, [speak] picks a voice
    whose tag is exactly si-LK when there is one, else a voice whose tag
    starts with "si" when there is one, else none.  A call of [speak] never
    throws; with speech output switched on and a synthesiser present it
    cancels the utterance in flight and speaks with the picked voice, if
    any; with speech output switched off, or no synthesiser, it does
    nothing at all.  Over the events of a session, each chat turn running
    with the callback of the current state, the voice-unavailable notice is
    appended at most once. *)
Theorem C8_speak (env : Env.t) (render : AppState.t) (text : jsstring)
  (w : World.t) (events : list SessionEvent) :
  let voices := AppState.voices render in
  ((exists v, v ∈ voices /\ Voice.lang v = targetLang) ->
   exists v', selectVoice voices = Some v' /\ v' ∈ voices
              /\ Voice.lang v' = targetLang)
  /\ ((forall u, u ∈ voices -> Voice.lang u <> targetLang) ->
      (exists v, v ∈ voices /\ startsWith (Voice.lang v) (js "si") = true) ->
      exists v', selectVoice voices = Some v' /\ v' ∈ voices
                 /\ startsWith (Voice.lang v') (js "si") = true
                 /\ Voice.lang v' <> targetLang)
  /\ ((forall u, u ∈ voices -> Voice.lang u <> targetLang) ->
      (forall u, u ∈ voices -> startsWith (Voice.lang u) (js "si") = false) ->
      selectVoice voices = None)
  /\ snd (speak env render text w) = Ok tt
  /\ (AppState.isSpeakingEnabled render = true ->
      Env.hasSpeechSynthesis env = true ->
      World.synth (fst (speak env render text w))
      = World.synth w
        ++ synth_cancel
           :: match selectVoice voices with
              | Some voice =>
                [synth_speak (Utterance.mk text (Some voice) (Some targetLang))]
              | None => []
              end)
  /\ (AppState.isSpeakingEnabled render = false
      \/ Env.hasSpeechSynthesis env = false ->
      speak env render text w = (w, Ok tt))
  /\ (warned w = false -> notices_emitted w = 0%nat ->
      (notices_emitted (fst (run_session events w)) <= 1)%nat).
Proof.
  intros voices.
  split; [intros (v & Hin & Hl); by apply (selectVoice_exact voices v)|].
  split; [intros Hno (v & Hin & Hp); by apply (selectVoice_prefix voices v)|].
  split; [apply selectVoice_none|].
  split; [by rewrite speak_run|].
  split.
  { intros He Hs. rewrite speak_run. unfold speak_calls.
    by rewrite He, Hs. }
  split.
  { intros H. unfold speak.
    destruct H as [-> | ->]; [reflexivity|].
    by rewrite orb_true_r. }
  intros W N. apply run_session_invariant. split; [done | lia].
Qed.

Lemma C8_speak_witness :
  (notices_emitted
     (fst (run_session
             [Submit Sample.env_chat (js "hi"); Submit Sample.env_down (js "yo");
              LogOut; Submit Sample.env_clock (js "time?")]
             Sample.fresh)) <= 1)%nat.
Proof.
  apply (C8_speak Sample.env_chat Sample.app0 (js "hi") Sample.fresh).
  - reflexivity.
  - reflexivity.
Defined.

(** C8 as stated fails: with speech output switched off, [speak] picks no
    voice and says nothing although a voice tagged si-LK is installed. *)
Lemma C8_counterexample :
  Sample.sinhala_voice ∈ AppState.voices Sample.app_muted
  /\ Voice.lang Sample.sinhala_voice = targetLang
  /\ speak Sample.env_chat Sample.app_muted (js "hi") Sample.fresh
     = (Sample.fresh, Ok tt)
  /\ World.synth Sample.fresh = [].
Proof.
  split; [apply elem_of_cons; by left|]. repeat split.
Qed.

(** The guard of [speak] reads the flag of the render that built the
    callback: two calls of one and the same callback, as made by two turns
    submitted before either was answered, both append the notice. *)
Lemma speak_same_callback_twice :
  notices_emitted
    (fst ((speak Sample.env_chat Sample.app0 (js "one");;
           speak Sample.env_chat Sample.app0 (js "two")) Sample.fresh))
  = 2%nat.
Proof. vm_compute. reflexivity. Qed.

(** * Further properties of the code *)

(** ** Signup and login *)

Lemma as_credential_sound v c :
  as_credential v = Some c -> v = credential_json c.
Proof.
  destruct v as [| | | | |fields]; try discriminate. cbn.
  destruct (fields !! js "password") as [[| | |s| |]|] eqn:L; try discriminate.
  destruct (map_to_list _) eqn:E; [|discriminate]. intros [= <-].
  apply map_to_list_empty_iff in E. unfold credential_json. f_equal. cbn.
  rewrite <- insert_empty, <- E. symmetry. by apply insert_delete_id.
Qed.

Lemma as_credential_json c : as_credential (credential_json c) = Some c.
Proof.
  unfold as_credential, credential_json.
  rewrite lookup_singleton_eq, delete_singleton_eq, map_to_list_empty.
  by destruct c.
Qed.

Lemma as_users_sound v users : as_users v = Some users -> v = users_json users.
Proof.
  destruct v as [| | | | |fields]; try discriminate. cbn.
  case_decide as F; [|discriminate]. intros [= <-]. unfold users_json.
  f_equal. apply map_eq. intros k. rewrite lookup_fmap, lookup_omap.
  destruct (fields !! k) as [x|] eqn:L; [|reflexivity]. cbn.
  destruct (F k x L) as [c Hc]. rewrite Hc. cbn.
  by rewrite (as_credential_sound _ _ Hc).
Qed.

Lemma as_users_json users : as_users (users_json users) = Some users.
Proof.
  unfold as_users, users_json. rewrite decide_True.
  - f_equal. apply map_eq. intros k. rewrite lookup_omap, lookup_fmap.
    destruct (users !! k); [|reflexivity]. cbn. apply as_credential_json.
  - intros k x. rewrite lookup_fmap. destruct (users !! k); [|discriminate].
    intros [= <-]. rewrite as_credential_json. by eexists.
Qed.

(** A store that holds [users] is read as [users]. *)
Lemma holds_users_stored w users :
  holds_users w users -> stored_users w = Some users.
Proof.
  unfold holds_users, stored_users. intros ->. apply as_users_json.
Qed.

Lemma parse_users_stored users w :
  stored_users w = Some users -> parse_users w = (w, Ok (users_json users)).
Proof.
  unfold stored_users, parse_users. rewrite bind_run.
  unfold getLocalStorage.
  destruct (LocalStorage.users (World.localStorage w)) as [[| |v]|]; cbn.
  - intros [= <-]. unfold users_json. by rewrite fmap_empty.
  - discriminate.
  - intros H. by rewrite (as_users_sound _ _ H).
  - intros [= <-]. unfold users_json. by rewrite fmap_empty.
Qed.

Lemma signup_fresh_run users u p w :
  stored_users w = Some users ->
  users !! u = None -> u ∉ Object_prototype_keys ->
  blank u = false -> blank p = false ->
  Auth.handleSignup u p w =
  (store_users (users_json (<[u := Credential.mk p]> users));;
   onLogin (User.mk u)) w.
Proof.
  intros Hs Hu Hp Bu Bp. unfold Auth.handleSignup.
  rewrite auth_guard, Bu, Bp. cbn [orb]. unfold try_catch.
  rewrite bind_run, (parse_users_stored _ _ Hs).
  rewrite bind_run, getProperty_users, (property_users_missing _ _ Hu).
  rewrite bool_decide_eq_false_2 by exact Hp. cbn [truthy_property].
  rewrite bind_run. unfold users_json at 1. cbn [setProperty].
  rewrite users_json_insert.
  destruct w as [[] [us cu] ? ? ? ? ?]. reflexivity.
Qed.

Lemma signup_fresh_stored users u p w :
  stored_users w = Some users ->
  users !! u = None -> u ∉ Object_prototype_keys ->
  blank u = false -> blank p = false ->
  snd (Auth.handleSignup u p w) = Ok tt
  /\ holds_users (fst (Auth.handleSignup u p w))
       (<[u := Credential.mk p]> users).
Proof.
  intros Hs Hu Hp Bu Bp. rewrite (signup_fresh_run _ _ _ _ Hs Hu Hp Bu Bp).
  unfold store_users, JSON_stringify. rewrite reparsed_users.
  by destruct w as [[] [us cu] ? ? ? ? ?].
Qed.

(** X1: when the credential record is absent, empty, or holds an object of
    credentials, signing up with a fresh username (and fields that are not
    blank) stores the credential beside the ones already there, logs the new
    user in and records it as the current user. *)
Theorem signup_fresh_user (users : gmap jsstring Credential.t)
  (username password : jsstring) (w : World.t) :
  stored_users w = Some users ->
  users !! username = None ->
  username ∉ Object_prototype_keys ->
  blank username = false -> blank password = false ->
  let w' := fst (Auth.handleSignup username password w) in
  snd (Auth.handleSignup username password w) = Ok tt
  /\ holds_users w' (<[username := Credential.mk password]> users)
  /\ (forall other c, users !! other = Some c ->
        (<[username := Credential.mk password]> users) !! other = Some c)
  /\ logged_in w' = Some (User.mk username)
  /\ LocalStorage.currentUser (World.localStorage w')
     = Some (Encodes (User.mk username))
  /\ error_shown w' = error_shown w.
Proof.
  intros Hs Hu Hp Bu Bp. cbv zeta.
  rewrite (signup_fresh_run _ _ _ _ Hs Hu Hp Bu Bp).
  unfold store_users, onLogin, handleLogin, JSON_stringify.
  rewrite reparsed_users, reparsed_user.
  destruct w as [[] [us cu] ? ? ? ? ?].
  unfold holds_users. cbn.
  repeat split; try reflexivity.
  intros other c Ho. rewrite lookup_insert_ne; [exact Ho|].
  intros ->. rewrite Hu in Ho. discriminate Ho.
Qed.

Lemma signup_fresh_user_witness :
  logged_in (fst (Auth.handleSignup (js "alice") (js "pw") Sample.with_bob))
  = Some (User.mk (js "alice"))
  /\ holds_users
       (fst (Auth.handleSignup (js "alice") (js "pw") Sample.with_bob))
       (<[js "alice" := Credential.mk (js "pw")]>
          {[ Sample.bob := Sample.bob_credential ]}).
Proof.
  assert (H := signup_fresh_user {[ Sample.bob := Sample.bob_credential ]}
                 (js "alice") (js "pw") Sample.with_bob).
  cbv zeta in H.
  destruct H as (_ & H2 & _ & H4 & _).
  - reflexivity.
  - apply lookup_singleton_ne. vm_compute. discriminate.
  - vm_compute. intros H. 
    repeat (apply elem_of_cons in H as [H|H]; [discriminate H|]).
    by apply elem_of_nil in H.
  - reflexivity.
  - reflexivity.
  - split; [exact H4 | exact H2].
Defined.

Lemma handleLogout_effect w :
  let w' := fst (handleLogout w) in
  snd (handleLogout w) = Ok tt
  /\ logged_in w' = None
  /\ conversation w' = []
  /\ LocalStorage.currentUser (World.localStorage w') = None
  /\ LocalStorage.users (World.localStorage w')
     = LocalStorage.users (World.localStorage w).
Proof. destruct w as [[] [] ? ? ? ? ?]. by cbn. Qed.

(** X2: a user who signed up and logged out can log in again with the same
    password, and with no other. *)
Theorem signup_logout_login (users : gmap jsstring Credential.t)
  (username password : jsstring) (w : World.t) :
  stored_users w = Some users ->
  users !! username = None ->
  username ∉ Object_prototype_keys ->
  blank username = false -> blank password = false ->
  let w1 := fst ((Auth.handleSignup username password;; handleLogout) w) in
  logged_in w1 = None
  /\ logged_in (fst (Auth.handleLogin username password w1))
     = Some (User.mk username)
  /\ (forall other, blank other = false -> other <> password ->
        error_shown (fst (Auth.handleLogin username other w1))
        = msg_InvalidCredentialsError
        /\ logged_in (fst (Auth.handleLogin username other w1)) = None).
Proof.
  intros Hs Hu Hp Bu Bp.
  pose proof (signup_fresh_stored users username password w Hs Hu Hp Bu Bp)
    as S.
  cbv zeta in *. unfold mbind, M_bind.
  destruct (Auth.handleSignup username password w) as [w0 r].
  cbn [fst snd] in S. destruct S as (-> & Hh).
  pose proof (handleLogout_effect w0) as L. cbv zeta in L.
  destruct L as (_ & L1 & _ & _ & L4).
  set (w1 := fst (handleLogout w0)) in *.
  assert (Hw1 : holds_users w1 (<[username := Credential.mk password]> users)).
  { unfold holds_users in *. by rewrite L4. }
  assert (Hl : (<[username := Credential.mk password]> users) !! username
               = Some (Credential.mk password)) by apply lookup_insert_eq.
  split; [exact L1|]. split.
  - rewrite (login_stored _ _ _ _ _ Hw1 Hl Bu Bp). cbn [Credential.password].
    rewrite bool_decide_eq_true_2 by reflexivity.
    apply handleLogin_effect.
  - intros other Bo Hne.
    rewrite (login_stored _ _ _ _ _ Hw1 Hl Bu Bo). cbn [Credential.password].
    rewrite bool_decide_eq_false_2 by congruence.
    pose proof (dispatch_setError msg_InvalidCredentialsError w1) as D.
    cbv zeta in D. destruct D as (_ & D1 & _ & D3 & _).
    split; [exact D1 | congruence].
Qed.

Lemma signup_logout_login_witness :
  let w1 := fst ((Auth.handleSignup (js "alice") (js "pw");; handleLogout)
                   Sample.fresh) in
  logged_in (fst (Auth.handleLogin (js "alice") (js "pw") w1))
  = Some (User.mk (js "alice")).
Proof.
  assert (H := signup_logout_login ∅ (js "alice") (js "pw") Sample.fresh).
  cbv zeta in H. destruct H as (_ & H & _).
  - reflexivity.
  - apply lookup_empty.
  - vm_compute. intros H.
    repeat (apply elem_of_cons in H as [H|H]; [discriminate H|]).
    by apply elem_of_nil in H.
  - reflexivity.
  - reflexivity.
  - exact H.
Defined.

Lemma Object_prototype_keys_not_blank u :
  u ∈ Object_prototype_keys -> blank u = false.
Proof.
  intros H. unfold Object_prototype_keys in H. cbn [map] in H.
  repeat (apply elem_of_cons in H as [->|H]; [reflexivity|]).
  by apply elem_of_nil in H.
Qed.

(** X3: a credential store is a plain object, so a username that names a
    member of [Object.prototype] ("constructor", "toString", "__proto__",
    ...) cannot be registered: signup answers that the name is taken,
    although the store does not hold it, and stores nothing. *)
Theorem signup_prototype_name_refused (users : gmap jsstring Credential.t)
  (username password : jsstring) (w : World.t) :
  stored_users w = Some users ->
  users !! username = None ->
  username ∈ Object_prototype_keys ->
  blank password = false ->
  let w' := fst (Auth.handleSignup username password w) in
  snd (Auth.handleSignup username password w) = Ok tt
  /\ error_shown w' = msg_DuplicateUserError
  /\ World.localStorage w' = World.localStorage w
  /\ logged_in w' = logged_in w.
Proof.
  intros Hs Hu Hp Bp. cbv zeta.
  assert (E : Auth.handleSignup username password w
              = dispatch (setError msg_DuplicateUserError) w).
  { unfold Auth.handleSignup.
    rewrite auth_guard, (Object_prototype_keys_not_blank _ Hp), Bp. cbn [orb].
    unfold try_catch.
    rewrite bind_run, (parse_users_stored _ _ Hs).
    rewrite bind_run, getProperty_users, (property_users_missing _ _ Hu).
    rewrite bool_decide_eq_true_2 by exact Hp.
    cbn [truthy_property]. by destruct w as [[] [us cu] ? ? ? ? ?]. }
  rewrite E. pose proof (dispatch_setError msg_DuplicateUserError w) as D.
  cbv zeta in D. destruct D as (? & ? & ? & ? & _). auto.
Qed.

Lemma signup_prototype_name_refused_witness :
  error_shown (fst (Auth.handleSignup (js "constructor") (js "pw")
                      Sample.fresh))
  = msg_DuplicateUserError.
Proof.
  apply (signup_prototype_name_refused ∅ (js "constructor") (js "pw")
           Sample.fresh).
  - reflexivity.
  - apply lookup_empty.
  - unfold Object_prototype_keys. cbn [map]. apply elem_of_cons. by left.
  - reflexivity.
Defined.

(** X4: login with a username the store does not hold (fields not blank)
    ends in the invalid-credentials error whatever the password, logs nobody
    in and leaves [localStorage] alone. *)
Theorem login_unknown_user (users : gmap jsstring Credential.t)
  (username password : jsstring) (w : World.t) :
  stored_users w = Some users ->
  users !! username = None ->
  blank username = false -> blank password = false ->
  let w' := fst (Auth.handleLogin username password w) in
  snd (Auth.handleLogin username password w) = Ok tt
  /\ error_shown w' = msg_InvalidCredentialsError
  /\ World.localStorage w' = World.localStorage w
  /\ logged_in w' = logged_in w.
Proof.
  intros Hs Hu Bu Bp. cbv zeta.
  assert (E : Auth.handleLogin username password w
              = dispatch (setError msg_InvalidCredentialsError) w).
  { unfold Auth.handleLogin. rewrite auth_guard, Bu, Bp. cbn [orb].
    unfold try_catch.
    rewrite bind_run, (parse_users_stored _ _ Hs).
    rewrite bind_run, getProperty_users, (property_users_missing _ _ Hu).
    assert (P : forall q : Property,
               q = Inherited \/ q = Undefined ->
               truthy_property q && password_is q password = false).
    { by intros q [-> | ->]. }
    rewrite P by (case_bool_decide; auto).
    by destruct w as [[] [us cu] ? ? ? ? ?]. }
  rewrite E. pose proof (dispatch_setError msg_InvalidCredentialsError w) as D.
  cbv zeta in D. destruct D as (? & ? & ? & ? & _). auto.
Qed.

Lemma login_unknown_user_witness :
  error_shown (fst (Auth.handleLogin (js "carol") (js "pw") Sample.with_bob))
  = msg_InvalidCredentialsError.
Proof.
  apply (login_unknown_user {[ Sample.bob := Sample.bob_credential ]}
           (js "carol") (js "pw") Sample.with_bob).
  - reflexivity.
  - apply lookup_singleton_ne. vm_compute. discriminate.
  - reflexivity.
  - reflexivity.
Defined.



(** *** A credential record that is no credential store *)

Lemma auth_fails_run (body : M unit) e w :
  body w = (w, Throw e) ->
  let w' := fst (try_catch body
                   (fun err => dispatch (setError msg_UnexpectedError);;
                               console_error None err) w) in
  snd (try_catch body
         (fun err => dispatch (setError msg_UnexpectedError);;
                     console_error None err) w) = Ok tt
  /\ error_shown w' = msg_UnexpectedError
  /\ World.console w' = World.console w ++ [LogEntry.mk None e]
  /\ World.localStorage w' = World.localStorage w
  /\ logged_in w' = logged_in w.
Proof.
  intros H. cbv zeta. unfold try_catch. rewrite H.
  destruct w as [[] ? ? ? ? ? ?]. by cbn.
Qed.

Lemma parse_users_encoded v w :
  LocalStorage.users (World.localStorage w) = Some (Encodes v) ->
  parse_users w = (w, Ok v).
Proof.
  intros H. unfold parse_users. rewrite bind_run. unfold getLocalStorage.
  by rewrite H.
Qed.

(** X26: when the stored credential record is the text [null], reading a
    user from it throws: signup and login (fields not blank) both end in
    the unexpected-error message, log the [TypeError], and leave
    [localStorage] and the session as they were. *)
Theorem auth_null_store (username password : jsstring) (w : World.t) :
  LocalStorage.users (World.localStorage w) = Some (Encodes JNull) ->
  blank username = false -> blank password = false ->
  (let w' := fst (Auth.handleSignup username password w) in
   snd (Auth.handleSignup username password w) = Ok tt
   /\ error_shown w' = msg_UnexpectedError
   /\ World.console w' =
      World.console w ++ [LogEntry.mk None (TypeError_null username)]
   /\ World.localStorage w' = World.localStorage w
   /\ logged_in w' = logged_in w)
  /\
  (let w' := fst (Auth.handleLogin username password w) in
   snd (Auth.handleLogin username password w) = Ok tt
   /\ error_shown w' = msg_UnexpectedError
   /\ World.console w' =
      World.console w ++ [LogEntry.mk None (TypeError_null username)]
   /\ World.localStorage w' = World.localStorage w
   /\ logged_in w' = logged_in w).
Proof.
  intros Hs Bu Bp. unfold Auth.handleSignup, Auth.handleLogin.
  rewrite auth_guard, Bu, Bp. cbn [orb].
  split; apply auth_fails_run;
    by rewrite bind_run, (parse_users_encoded _ _ Hs), bind_run.
Qed.

Lemma auth_null_store_witness :
  let w := World.mk Sample.app0 (LocalStorage.mk (Some (Encodes JNull)) None)
             [] [] [] [] [] in
  error_shown (fst (Auth.handleSignup Sample.bob (js "pw") w))
  = msg_UnexpectedError
  /\ World.console (fst (Auth.handleLogin Sample.bob (js "pw") w))
     = [LogEntry.mk None (TypeError_null Sample.bob)].
Proof.
  intros w.
  destruct (auth_null_store Sample.bob (js "pw") w eq_refl eq_refl eq_refl)
    as [(_ & E & _) (_ & _ & C & _)].
  split; [exact E | exact C].
Defined.

Lemma password_of_primitive_property v key password :
  primitive v = true -> password_is (property v key) password = false.
Proof.
  intros P. unfold property.
  destruct (own_property v key) as [x|] eqn:O; [|by case_bool_decide].
  destruct v as [| | |s| |]; try discriminate; cbn in O.
  case_bool_decide; [by injection O as <-|].
  destruct (array_index key) as [i|]; [|discriminate]. cbn in O.
  destruct (item s i) as [c|]; [|discriminate]. by injection O as <-.
Qed.

(** X27: when the stored credential record parses to a boolean, a number or
    a string, nobody can sign up or log in (fields not blank), and
    [localStorage] is never written.  Signup answers that the name is taken
    when the name is a member of that value (of its prototype, or a
    character or the length of a string that is not empty); for any other
    name the assignment to a primitive value throws, and signup ends in the
    unexpected-error message and logs the [TypeError].  Login always ends in
    the invalid-credentials message. *)
Theorem auth_primitive_store (v : JSON) (username password : jsstring)
  (w : World.t) :
  LocalStorage.users (World.localStorage w) = Some (Encodes v) ->
  primitive v = true ->
  blank username = false -> blank password = false ->
  (let w' := fst (Auth.handleSignup username password w) in
   snd (Auth.handleSignup username password w) = Ok tt
   /\ World.localStorage w' = World.localStorage w
   /\ logged_in w' = logged_in w
   /\ if truthy_property (property v username)
      then error_shown w' = msg_DuplicateUserError
           /\ World.console w' = World.console w
      else error_shown w' = msg_UnexpectedError
           /\ World.console w' =
              World.console w
              ++ [LogEntry.mk None (TypeError_assign username v)])
  /\
  (let w' := fst (Auth.handleLogin username password w) in
   snd (Auth.handleLogin username password w) = Ok tt
   /\ error_shown w' = msg_InvalidCredentialsError
   /\ World.console w' = World.console w
   /\ World.localStorage w' = World.localStorage w
   /\ logged_in w' = logged_in w).
Proof.
  intros Hs P Bu Bp. unfold Auth.handleSignup, Auth.handleLogin.
  rewrite auth_guard, Bu, Bp. cbn [orb]. cbv zeta.
  assert (G : getProperty v username w = (w, Ok (property v username)))
    by (by destruct v).
  split.
  - destruct (truthy_property (property v username)) eqn:T.
    + unfold try_catch.
      rewrite bind_run, (parse_users_encoded _ _ Hs), bind_run, G, T.
      destruct w as [[] ? ? ? ? ? ?]. by cbn.
    + pose proof (auth_fails_run
        (users ← parse_users;
         existing ← getProperty users username;
         if truthy_property existing
         then dispatch (setError msg_DuplicateUserError)
         else users0 ← setProperty users username
                          (credential_json (Credential.mk password));
              store_users users0;; onLogin (User.mk username))
        (TypeError_assign username v) w) as F.
      cbv zeta in F. destruct F as (F1 & F2 & F3 & F4 & F5).
      { rewrite bind_run, (parse_users_encoded _ _ Hs), bind_run, G, T.
        rewrite bind_run. by destruct v. }
      auto.
  - unfold try_catch.
    rewrite bind_run, (parse_users_encoded _ _ Hs), bind_run, G.
    rewrite (password_of_primitive_property _ _ _ P), andb_false_r.
    destruct w as [[] ? ? ? ? ? ?]. by cbn.
Qed.

Lemma auth_primitive_store_witness :
  let w := World.mk Sample.app0
             (LocalStorage.mk (Some (Encodes (JNumber (js "5")))) None)
             [] [] [] [] [] in
  World.console (fst (Auth.handleSignup Sample.bob (js "pw") w))
  = [LogEntry.mk None (TypeError_assign Sample.bob (JNumber (js "5")))]
  /\ error_shown (fst (Auth.handleSignup (js "toFixed") (js "pw") w))
     = msg_DuplicateUserError
  /\ error_shown (fst (Auth.handleLogin Sample.bob (js "pw") w))
     = msg_InvalidCredentialsError.
Proof.
  intros w.
  destruct (auth_primitive_store (JNumber (js "5")) Sample.bob (js "pw") w
              eq_refl eq_refl eq_refl eq_refl)
    as [(_ & _ & _ & S) (_ & L & _)].
  destruct (auth_primitive_store (JNumber (js "5")) (js "toFixed") (js "pw") w
              eq_refl eq_refl eq_refl eq_refl)
    as [(_ & _ & _ & S') _].
  split; [exact (proj2 S)|]. split; [exact (proj1 S') | exact L].
Defined.

Lemma store_then_login v (user : User.t) w :
  let w' := fst ((store_users v;; onLogin user) w) in
  snd ((store_users v;; onLogin user) w) = Ok tt
  /\ logged_in w' = Some user
  /\ LocalStorage.currentUser (World.localStorage w') = Some (Encodes user)
  /\ LocalStorage.users (World.localStorage w') = Some (Encodes (reparsed v))
  /\ error_shown w' = error_shown w
  /\ World.console w' = World.console w.
Proof.
  unfold store_users, onLogin, handleLogin, JSON_stringify.
  rewrite reparsed_user. destruct w as [[] [] ? ? ? ? ?]. by cbn.
Qed.

Lemma property_array_other items key :
  key <> js "length" -> array_index key = None ->
  property (JArray items) key =
  if bool_decide (key ∈ Array_prototype_keys ++ Object_prototype_keys)
  then Inherited else Undefined.
Proof.
  intros L I. unfold property, own_property.
  by rewrite (bool_decide_eq_false_2 _ L), I.
Qed.

(** X28: when the stored credential record parses to an array, signing up
    with a name that the array has no member for (no index, not [length],
    no member of its prototypes; fields not blank) logs the user in and
    records the session, but stores no credential: the property set on the
    array is left out of its serialisation, the record is written back as
    the array it was, and a later login with the very same name and password
    ends in the invalid-credentials message. *)
Theorem signup_array_store (items : list JSON) (username password : jsstring)
  (w : World.t) :
  LocalStorage.users (World.localStorage w) = Some (Encodes (JArray items)) ->
  username <> js "length" -> array_index username = None ->
  username ∉ Array_prototype_keys ++ Object_prototype_keys ->
  blank username = false -> blank password = false ->
  let w' := fst (Auth.handleSignup username password w) in
  let w1 := fst (handleLogout w') in
  snd (Auth.handleSignup username password w) = Ok tt
  /\ logged_in w' = Some (User.mk username)
  /\ LocalStorage.currentUser (World.localStorage w')
     = Some (Encodes (User.mk username))
  /\ LocalStorage.users (World.localStorage w')
     = Some (Encodes (JArray (reparsed <$> items)))
  /\ error_shown w' = error_shown w
  /\ World.console w' = World.console w
  /\ error_shown (fst (Auth.handleLogin username password w1))
     = msg_InvalidCredentialsError
  /\ logged_in (fst (Auth.handleLogin username password w1)) = None.
Proof.
  intros Hs L I N Bu Bp. cbv zeta.
  assert (E : Auth.handleSignup username password w =
              (store_users (JArray items);; onLogin (User.mk username)) w).
  { unfold Auth.handleSignup. rewrite auth_guard, Bu, Bp. cbn [orb].
    unfold try_catch.
    rewrite bind_run, (parse_users_encoded _ _ Hs), bind_run.
    cbn [getProperty mret M_ret].
    rewrite (property_array_other _ _ L I), (bool_decide_eq_false_2 _ N).
    cbn [truthy_property]. rewrite bind_run. cbn [setProperty].
    rewrite (bool_decide_eq_false_2 _ L), I.
    destruct w as [[] [] ? ? ? ? ?]. reflexivity. }
  rewrite E. clear E.
  pose proof (store_then_login (JArray items) (User.mk username) w) as S.
  cbv zeta in S. destruct S as (S1 & S2 & S3 & S4 & S5 & S6).
  set (w' := fst ((store_users (JArray items);; onLogin (User.mk username)) w))
    in *.
  split; [exact S1|]. split; [exact S2|]. split; [exact S3|].
  split; [exact S4|]. split; [exact S5|]. split; [exact S6|].
  pose proof (handleLogout_effect w') as O. cbv zeta in O.
  destruct O as (_ & O1 & _ & _ & O4).
  set (w1 := fst (handleLogout w')) in *.
  assert (E1 : Auth.handleLogin username password w1
               = dispatch (setError msg_InvalidCredentialsError) w1).
  { unfold Auth.handleLogin. rewrite auth_guard, Bu, Bp. cbn [orb].
    unfold try_catch.
    rewrite bind_run, (parse_users_encoded (JArray (reparsed <$> items)))
      by (by rewrite O4).
    rewrite bind_run. cbn [getProperty mret M_ret].
    rewrite (property_array_other _ _ L I), (bool_decide_eq_false_2 _ N).
    cbn [truthy_property andb]. by destruct w1. }
  rewrite E1.
  pose proof (dispatch_setError msg_InvalidCredentialsError w1) as D.
  cbv zeta in D. destruct D as (_ & D1 & _ & D3 & _).
  split; [exact D1 | congruence].
Qed.

Lemma signup_array_store_witness :
  let w := World.mk Sample.app0
             (LocalStorage.mk (Some (Encodes (JArray []))) None)
             [] [] [] [] [] in
  logged_in (fst (Auth.handleSignup Sample.bob (js "pw") w))
  = Some (User.mk Sample.bob)
  /\ LocalStorage.users
       (World.localStorage (fst (Auth.handleSignup Sample.bob (js "pw") w)))
     = Some (Encodes (JArray [])).
Proof.
  intros w.
  assert (N : Sample.bob ∉ Array_prototype_keys ++ Object_prototype_keys).
  { apply (bool_decide_eq_false_1 _). vm_compute. reflexivity. }
  destruct (signup_array_store [] Sample.bob (js "pw") w eq_refl
              ltac:(discriminate) eq_refl N eq_refl eq_refl)
    as (_ & H1 & _ & H3 & _).
  split; [exact H1 | exact H3].
Defined.

(** ** The session across page loads *)

(** X6: after a logout the conversation store is empty and the session
    marker is gone, the credential store is kept, and a page load restores
    nobody. *)
Theorem logout_then_reload (w : World.t) :
  let w' := fst (handleLogout w) in
  snd (handleLogout w) = Ok tt
  /\ logged_in w' = None
  /\ conversation w' = []
  /\ LocalStorage.users (World.localStorage w')
     = LocalStorage.users (World.localStorage w)
  /\ logged_in (fst (restore (reload w'))) = None
  /\ World.localStorage (fst (restore (reload w'))) = World.localStorage w'.
Proof. destruct w as [[] [] ? ? ? ? ?]. by cbn. Qed.

(** X7: whoever [handleLogin] logs in is still logged in after a page
    load: the session marker it writes is the one [restore] reads back. *)
Theorem login_survives_reload (user : User.t) (w : World.t) :
  logged_in (fst (restore (reload (fst (handleLogin user w))))) = Some user
  /\ snd (restore (reload (fst (handleLogin user w)))) = Ok tt.
Proof.
  unfold handleLogin, JSON_stringify. rewrite reparsed_user.
  destruct w as [[] [] ? ? ? ? ?]. by cbn.
Qed.

Lemma username_not_inherited v : js "username" ∉ prototype_keys v.
Proof.
  apply (bool_decide_eq_false_1 _). destruct v; vm_compute; reflexivity.
Qed.

Lemma restore_encoded v w :
  LocalStorage.currentUser (World.localStorage w) = Some (Encodes v) ->
  restore w = dispatch (setCurrentUser v) w.
Proof.
  intros H. unfold restore. rewrite bind_run. unfold getLocalStorage.
  rewrite H. cbn [truthy_item]. unfold try_catch. rewrite bind_run.
  cbn [JSON_parse mret M_ret]. by destruct w.
Qed.

(** X29: what a page load makes of a session record that parses.  The
    serialisation of a user logs that user in and greets them by name.  Any
    other truthy value without a [username] of its own (a number, [true], a
    string, an array, an object such as [{}]) becomes the current user just
    the same, and the greeting is addressed to "undefined"; the record is
    kept either way. *)
Theorem restore_then_greet (v : JSON) (w : World.t) :
  LocalStorage.currentUser (World.localStorage w) = Some (Encodes v) ->
  let w' := fst ((restore;; greet) w) in
  let greeting name :=
    [Message.mk (js "init") MODEL
       (Some (js "ආයුබෝවන් " ++ name
              ++ js "! මම මදු, ඔබේ AI සහායක. අද මම ඔබට උදව් කළ හැක්කේ කෙසේද?"))
       None None] in
  World.localStorage w' = World.localStorage w
  /\ AppState.currentUser (World.app w') = v
  /\ (forall user : User.t,
        v = user ->
        snd ((restore;; greet) w) = Ok tt
        /\ logged_in w' = Some user
        /\ conversation w' = greeting (User.username user))
  /\ (truthy_json v = true -> own_property v (js "username") = None ->
      snd ((restore;; greet) w) = Ok tt
      /\ logged_in w' = Some v
      /\ conversation w' = greeting (js "undefined")).
Proof.
  intros H. cbv zeta. rewrite bind_run, (restore_encoded _ _ H).
  destruct w as [[] ls ? ? ? ? ?]. cbn [dispatch apply_update].
  unfold greet. cbn [AppState.currentUser World.app]. cbv zeta.
  split; [|split; [|split]].
  - destruct (truthy_json v); [|reflexivity].
    rewrite bind_run. unfold username_text.
    destruct (property v (js "username")) as [x| |]; try reflexivity.
    by destruct (ToString x).
  - destruct (truthy_json v); [|reflexivity].
    rewrite bind_run. unfold username_text.
    destruct (property v (js "username")) as [x| |]; try reflexivity.
    by destruct (ToString x).
  - intros [name] ->. cbn [truthy_json user_json]. rewrite bind_run.
    unfold username_text, property, own_property, user_json.
    rewrite lookup_singleton_eq. cbn. auto.
  - intros T O. rewrite T, bind_run. unfold username_text, property.
    rewrite O, (bool_decide_eq_false_2 _ (username_not_inherited v)).
    cbn. repeat split. unfold logged_in. cbn. by destruct v.
Qed.

Lemma restore_then_greet_witness :
  let page v :=
    World.mk Sample.app0 (LocalStorage.mk None (Some (Encodes v)))
      [] [] [] [] [] in
  logged_in (fst ((restore;; greet) (page (User.mk Sample.bob))))
  = Some (User.mk Sample.bob)
  /\ logged_in (fst ((restore;; greet) (page (JNumber (js "5")))))
     = Some (JNumber (js "5")).
Proof.
  intros page. split.
  - destruct (restore_then_greet (User.mk Sample.bob)
                (page (User.mk Sample.bob)) eq_refl) as (_ & _ & U & _).
    exact (proj1 (proj2 (U (User.mk Sample.bob) eq_refl))).
  - destruct (restore_then_greet (JNumber (js "5"))
                (page (JNumber (js "5"))) eq_refl) as (_ & _ & _ & S).
    exact (proj1 (proj2 (S eq_refl eq_refl))).
Defined.

(** ** The assistant service *)

Lemma startsWith_app p s : startsWith (p ++ s) p = true.
Proof.
  induction p as [|a p IH]; [by destruct s|].
  cbn. by rewrite N.eqb_refl, IH.
Qed.

Lemma plain_answer_run env message history w response :
  Env.chat_sendMessage env history message = Ok response ->
  functionCall_of response = None ->
  getAssistantResponse env message history w =
  (fst (send (ChatSendMessage history message) (Ok response) w),
   Ok (AssistantResponse.mk
         (Some (if truthy_opt (firstPart response ≫= Part.text)
                then default [] (firstPart response ≫= Part.text)
                else msg_not_understood))
         None None)).
Proof.
  intros H1 Hn. unfold getAssistantResponse, mbind, M_bind, send. destruct w.
  by rewrite H1, Hn.
Qed.

Lemma answer_not_empty (text : option jsstring) :
  truthy (if truthy_opt text then default [] text else msg_not_understood)
  = true.
Proof. destruct text as [[|c t]|]; reflexivity. Qed.

(** X8: when the first response carries no function call,
    [getAssistantResponse] sends that one request only and returns the text
    of the response's first part, or the fixed "not understood" text when
    that text is missing or empty: the returned text is never empty, and no
    image or search results come with it. *)
Theorem plain_answer (env : Env.t) (message : jsstring)
  (history : list HistoryItem.t) (w : World.t) (response : Response.t) :
  Env.chat_sendMessage env history message = Ok response ->
  functionCall_of response = None ->
  let w' := fst (getAssistantResponse env message history w) in
  let text := firstPart response ≫= Part.text in
  snd (getAssistantResponse env message history w)
  = Ok (AssistantResponse.mk
          (Some (if truthy_opt text then default [] text
                 else msg_not_understood))
          None None)
  /\ truthy (if truthy_opt text then default [] text else msg_not_understood)
     = true
  /\ World.requests w' = World.requests w ++ [ChatSendMessage history message]
  /\ World.console w' = World.console w.
Proof.
  intros H1 Hn. cbv zeta.
  rewrite (plain_answer_run _ _ _ _ _ H1 Hn).
  split; [reflexivity|]. split; [apply answer_not_empty|].
  by destruct w.
Qed.

Lemma plain_answer_witness :
  snd (getAssistantResponse Sample.env_chat (js "hi") [] Sample.fresh)
  = Ok (AssistantResponse.mk (Some (js "ok")) None None).
Proof.
  apply (plain_answer Sample.env_chat (js "hi") [] Sample.fresh
           (Sample.text_response (js "ok"))); reflexivity.
Defined.

(** X9: the image tool sends one request and never throws.  It hands back
    either an image URL, which is then a JPEG data URI, or one of its two
    fixed error texts: the "no image" text when the answer holds no
    generated image, the "failed" text when the call faulted or the first
    generated image has no image object. *)
Theorem image_tool_outcomes (env : Env.t) (prompt : option jsstring)
  (w : World.t) :
  let model := js "imagen-4.0-generate-001" in
  let w' := fst (performImageGeneration env prompt w) in
  World.requests w' = World.requests w ++ [GenerateImages model prompt]
  /\ match Env.models_generateImages env model prompt with
     | Ok response =>
       match ImagesResponse.generatedImages response with
       | Some (first :: _) =>
         match GeneratedImage.image first with
         | Some image =>
           exists imageUrl,
             snd (performImageGeneration env prompt w)
             = Ok (ImageUrlPayload imageUrl)
             /\ startsWith imageUrl (js "data:image/jpeg;base64,") = true
             /\ World.console w' = World.console w
         | None =>
           snd (performImageGeneration env prompt w)
           = Ok (ImageErrorPayload msg_image_failed)
         end
       | Some [] | None =>
         snd (performImageGeneration env prompt w)
         = Ok (ImageErrorPayload msg_no_image)
         /\ World.console w' = World.console w
       end
     | Throw e =>
       snd (performImageGeneration env prompt w)
       = Ok (ImageErrorPayload msg_image_failed)
       /\ World.console w' =
          World.console w
          ++ [LogEntry.mk (Some (js "Error generating image with Gemini:")) e]
     end.
Proof.
  cbv zeta. unfold performImageGeneration, try_catch, mbind, M_bind, send.
  destruct w.
  destruct (Env.models_generateImages env _ prompt) as [[[[|[[img|]] ?]|]]|e];
    cbn; (split; [reflexivity|]); auto.
  eexists. split; [reflexivity|]. split; [|reflexivity].
  apply startsWith_app.
Qed.

(** X10: a call of [searchTheWeb] or [generateImage] that comes without an
    [args] object makes [getAssistantResponse] throw a [TypeError] before
    any tool request or follow-up is sent; the turn then ends with the
    apology in the store. *)
Theorem tool_call_without_args (env : Env.t) (render : AppState.t)
  (text : jsstring) (w : World.t) (response : Response.t)
  (fc : FunctionCall.t) :
  let history := history_of (AppState.messages render) in
  Env.chat_sendMessage env history text = Ok response ->
  functionCall_of response = Some fc ->
  FunctionCall.args fc = None ->
  (FunctionCall.name fc = Some searchTheWeb
   \/ FunctionCall.name fc = Some generateImage) ->
  blank text = false ->
  (exists key,
     getAssistantResponse env text history w
     = (fst (send (ChatSendMessage history text) (Ok response) w),
        Throw (TypeError_undefined key)))
  /\ conversation (fst (handleSendMessage env render text w))
     = conversation w
       ++ [userMessage_of env text; errorMessage_of env]
       ++ notice env render.
Proof.
  intros history H1 Hfc Ha Hn B.
  assert (G : forall w0, exists key,
             getAssistantResponse env text history w0
             = (fst (send (ChatSendMessage history text) (Ok response) w0),
                Throw (TypeError_undefined key))).
  { intros w0. rewrite (getAssistantResponse_tool _ _ _ _ _ _ H1 Hfc).
    cbv zeta. unfold call_tool, arg. rewrite Ha.
    destruct Hn as [Hn|Hn]; rewrite Hn.
    - rewrite bool_decide_eq_true_2 by reflexivity. by eexists.
    - rewrite bool_decide_eq_false_2 by discriminate.
      rewrite bool_decide_eq_true_2 by reflexivity. by eexists. }
  split; [apply G|].
  pose proof (turn_effect env render text w B) as T. cbv zeta in T.
  fold history in T.
  destruct (G (fst (before_await env text w))) as [key Gk].
  rewrite Gk in T. cbn [snd] in T. apply T.
Qed.

Lemma tool_call_without_args_witness :
  let env :=
    Env.mk (fun _ _ => Ok (Sample.call_response searchTheWeb None))
      (fun _ _ => Ok (Sample.text_response (js "ok")))
      (fun _ => Throw Sample.fault) (fun _ _ => Throw Sample.fault)
      (js "now") 1 2 true (fun _ => Throw Sample.fault) 3 [] in
  conversation (fst (handleSendMessage env Sample.app0 (js "news?")
                       Sample.fresh))
  = conversation Sample.fresh
    ++ [userMessage_of env (js "news?"); errorMessage_of env]
    ++ notice env Sample.app0.
Proof.
  intros env.
  apply (tool_call_without_args env Sample.app0 (js "news?") Sample.fresh
           (Sample.call_response searchTheWeb None)
           (FunctionCall.mk (Some searchTheWeb) None));
    try reflexivity.
  by left.
Defined.

(** X11: a call of [getCurrentTime] costs no request of its own: the
    service sends the chat message, then the clock's reading as the
    function response, and returns the follow-up's text with no image and
    no search results. *)
Theorem time_tool_turn (env : Env.t) (message : jsstring)
  (history : list HistoryItem.t) (w : World.t)
  (response result2 : Response.t) (fc : FunctionCall.t) :
  Env.chat_sendMessage env history message = Ok response ->
  functionCall_of response = Some fc ->
  FunctionCall.name fc = Some getCurrentTime ->
  Env.chat_sendFunctionResponse env (Some getCurrentTime)
    (TimePayload (Env.toLocaleString_now env)) = Ok result2 ->
  let w' := fst (getAssistantResponse env message history w) in
  snd (getAssistantResponse env message history w)
  = Ok (AssistantResponse.mk
          (Some (default [] (firstPart result2 ≫= Part.text))) None None)
  /\ World.requests w' =
     World.requests w
     ++ [ChatSendMessage history message;
         ChatSendFunctionResponse (Some getCurrentTime)
           (TimePayload (Env.toLocaleString_now env))]
  /\ World.console w' = World.console w.
Proof.
  intros H1 Hfc Hn H2. cbv zeta.
  rewrite (getAssistantResponse_tool _ _ _ _ _ _ H1 Hfc). cbv zeta.
  unfold call_tool. rewrite Hn.
  rewrite bool_decide_eq_false_2 by discriminate.
  rewrite bool_decide_eq_false_2 by discriminate.
  rewrite bool_decide_eq_true_2 by reflexivity.
  destruct w. cbn [send fst mret M_ret]. rewrite H2. cbn.
  rewrite <- app_assoc. by repeat split.
Qed.

Lemma time_tool_turn_witness :
  snd (getAssistantResponse Sample.env_clock (js "time?") [] Sample.fresh)
  = Ok (AssistantResponse.mk (Some (js "ok")) None None).
Proof.
  apply (time_tool_turn Sample.env_clock (js "time?") [] Sample.fresh
           (Sample.call_response getCurrentTime None)
           (Sample.text_response (js "ok"))
           (FunctionCall.mk (Some getCurrentTime) None)); reflexivity.
Defined.

(** ** The chat turn *)

(** The cells a turn leaves as they were, and those it sets. *)
Lemma replay_turn env render text settled (a : AppState.t) :
  let a' := replay (before_updates env text ++ after_updates env render settled)
              a in
  AppState.userInput a' = []
  /\ AppState.isLoading a' = false
  /\ AppState.status a' = status_online
  /\ AppState.currentUser a' = AppState.currentUser a
  /\ AppState.isListening a' = AppState.isListening a
  /\ AppState.isSpeakingEnabled a' = AppState.isSpeakingEnabled a
  /\ AppState.voices a' = AppState.voices a
  /\ AppState.error a' = AppState.error a.
Proof.
  cbv zeta. unfold before_updates, after_updates, speak_updates.
  destruct a.
  destruct settled as [response|e];
    [destruct (truthy_opt (AssistantResponse.text response))|];
    try destruct (notice_due env render); cbn; auto 10.
Qed.

(** X12: a turn answered in plain text appends the user's message and then
    the model's message with that text (and after it the voice notice when
    [speak] owes one), reports nothing on the console as an error of the
    assistant, clears the input box and ends with the loading flag down. *)
Theorem plain_turn (env : Env.t) (render : AppState.t) (text : jsstring)
  (w : World.t) (response : Response.t) :
  let history := history_of (AppState.messages render) in
  let answer :=
    if truthy_opt (firstPart response ≫= Part.text)
    then default [] (firstPart response ≫= Part.text)
    else msg_not_understood in
  let w' := fst (handleSendMessage env render text w) in
  blank text = false ->
  Env.chat_sendMessage env history text = Ok response ->
  functionCall_of response = None ->
  conversation w' =
  conversation w
  ++ [Message.mk (toString (Env.Date_now_submit env)) USER (Some text)
        None None;
      Message.mk (toString (Env.Date_now_reply env) ++ js "-model") MODEL
        (Some answer) None None]
  ++ notice env render
  /\ assistant_errors w' = assistant_errors w
  /\ AppState.userInput (World.app w') = []
  /\ AppState.isLoading (World.app w') = false
  /\ AppState.status (World.app w') = status_online.
Proof.
  intros history answer w' B H1 Hn.
  pose proof (turn_effect env render text w B) as T. cbv zeta in T.
  fold history in T. fold w' in T.
  pose proof (plain_answer_run env text history
                (fst (before_await env text w)) response H1 Hn) as P.
  pose proof (answer_not_empty (firstPart response ≫= Part.text)) as P2.
  apply (f_equal snd) in P. cbn [snd] in P. rename P into P1.
  fold answer in P1, P2.
  rewrite P1 in T. destruct T as (_ & T2 & T3 & _ & _ & Tc & Te).
  split.
  { rewrite Tc. unfold modelMessage_of, userMessage_of. cbn.
    by rewrite P2. }
  split; [exact Te|].
  destruct (turn_updates env render text w B) as [_ A]. cbv zeta in A.
  fold w' in A. rewrite A.
  pose proof (replay_turn env render text
                (snd (getAssistantResponse env text
                        (history_of (AppState.messages render))
                        (fst (before_await env text w)))) (World.app w)) as R.
  cbv zeta in R. destruct R as (R1 & R2 & R3 & _). auto.
Qed.

Lemma plain_turn_witness :
  conversation (fst (handleSendMessage Sample.env_chat Sample.app0 (js "hi")
                       Sample.fresh))
  = [Message.mk (js "1") USER (Some (js "hi")) None None;
     Message.mk (js "2-model") MODEL (Some (js "ok")) None None;
     warningMessage].
Proof.
  apply (plain_turn Sample.env_chat Sample.app0 (js "hi") Sample.fresh
           (Sample.text_response (js "ok"))); reflexivity.
Defined.

(** ** The microphone of the Sinhala front end *)




Lemma replay_after env render settled (a : AppState.t) :
  let a' := replay (after_updates env render settled) a in
  AppState.isListening a' = AppState.isListening a
  /\ AppState.isLoading a' = false
  /\ AppState.status a' = status_online.
Proof.
  cbv zeta. unfold after_updates, speak_updates. destruct a.
  destruct settled as [response|e];
    [destruct (truthy_opt (AssistantResponse.text response))|];
    try destruct (notice_due env render); cbn; auto.
Qed.

(** X15: press-to-talk is single-shot.  An empty transcript only ends the
    listening.  A transcript that is not blank is submitted as a chat
    message, with the history of the render that built the handler: the
    user's message and then the model's message or the apology are appended,
    and the listening has ended. *)
Theorem recognition_result_submits (env : Env.t) (render : AppState.t)
  (transcript : jsstring) (w : World.t)
  (settled : result AssistantResponse.t) :
  let history := history_of (AppState.messages render) in
  let w' := fst (recognition_onresult env render transcript w) in
  (transcript = [] ->
   recognition_onresult env render transcript w
   = dispatch (setIsListening false) w)
  /\ (blank transcript = false ->
      (forall w0,
         snd (getAssistantResponse env transcript history w0) = settled) ->
      snd (recognition_onresult env render transcript w) = Ok tt
      /\ conversation w' =
         conversation w
         ++ userMessage_of env transcript
            :: match settled with
               | Ok response =>
                 modelMessage_of env response
                 :: (if truthy_opt (AssistantResponse.text response)
                     then notice env render else [])
               | Throw _ => errorMessage_of env :: notice env render
               end
      /\ (exists later,
            World.requests w' =
            World.requests w ++ ChatSendMessage history transcript :: later)
      /\ AppState.isListening (World.app w') = false
      /\ AppState.isLoading (World.app w') = false).
Proof.
  intros history w'. split; [intros ->; reflexivity|].
  intros B Hs. subst w' history. unfold recognition_onresult.
  assert (T : truthy transcript = true).
  { destruct transcript; [discriminate B | reflexivity]. }
  rewrite T, truthy_trim, B. cbn [negb].
  unfold mbind, M_bind. destruct w as [a ls us c rq sy op].
  cbn [dispatch]. rewrite before_await_run. cbv zeta. cbn [dispatch].
  cbn [World.app World.localStorage World.updates World.console
       World.requests World.synth World.opened].
  match goal with
  | |- context [getAssistantResponse env transcript ?h ?x] =>
    set (w1 := x);
    destruct (getAssistantResponse_frame env transcript h w1) as [F [later R]];
    pose proof (Hs w1) as S1;
    destruct (getAssistantResponse env transcript h w1) as [w2 r]
  end.
  cbn [fst snd] in *. subst r.
  destruct F as (Fa & _).
  pose proof (after_await_effect env render settled w2) as E. cbv zeta in E.
  destruct E as (E1 & _ & _ & E4 & _ & E6).
  destruct (after_await_updates env render settled w2) as [_ A].
  pose proof (replay_after env render settled (World.app w2)) as P.
  cbv zeta in P. destruct P as (P1 & P2 & _).
  split; [exact E1|]. split.
  { assert (C2 : conversation w2
                 = AppState.messages a ++ [userMessage_of env transcript]).
    { unfold conversation. rewrite Fa. subst w1. by destruct a. }
    unfold conversation at 2. cbn [World.app].
    destruct settled as [response|e]; destruct E6 as [Ec _];
      rewrite Ec, C2, <- app_assoc; reflexivity. }
  split.
  { exists later. rewrite E4, R. reflexivity. }
  rewrite A, P1, P2, Fa. subst w1. by destruct a.
Qed.

Lemma recognition_result_submits_witness :
  conversation
    (fst (recognition_onresult Sample.env_chat Sample.app0 (js "hi")
            Sample.fresh))
  = [userMessage_of Sample.env_chat (js "hi");
     modelMessage_of Sample.env_chat
       (AssistantResponse.mk (Some (js "ok")) None None);
     warningMessage].
Proof.
  apply (recognition_result_submits Sample.env_chat Sample.app0 (js "hi")
           Sample.fresh
           (Ok (AssistantResponse.mk (Some (js "ok")) None None))).
  - reflexivity.
  - intros w0. by rewrite (plain_answer_run Sample.env_chat (js "hi")
                             (history_of (AppState.messages Sample.app0)) w0
                             (Sample.text_response (js "ok"))).
Defined.

(** ** The bilingual front end *)

Ltac run_sahaya :=
  unfold Sahaya.handleSendMessage, Sahaya.route, Sahaya.speak,
    Sahaya.generateImageWithGemini, Sahaya.searchWithGemini,
    Sahaya.sendMessageToGemini, try_catch, mbind, M_bind, mret, M_ret, throw,
    send, dispatch, console_error, window_open, speechSynthesis.

(** X16: the bilingual front end's turn never throws, whatever the remote
    calls do.  It appends the user's message, the navigation note of an
    [open] command if any, and last exactly one message of the model; it
    clears the input box, lowers the loading flag and shows the status of
    the listening mode of its render. *)
Theorem sahaya_turn_completes (env : Env.t) (render : AppState.t)
  (text : jsstring) (w : World.t) :
  blank text = false ->
  let w' := fst (Sahaya.handleSendMessage env render text w) in
  snd (Sahaya.handleSendMessage env render text w) = Ok tt
  /\ (exists reply,
        Message.role reply = MODEL
        /\ conversation w' =
           conversation w
           ++ Message.mk (toString (Env.Date_now_submit env)) USER (Some text)
                None None
              :: navigation_note env text ++ [reply])
  /\ AppState.userInput (World.app w') = []
  /\ AppState.isLoading (World.app w') = false
  /\ AppState.status (World.app w') = sahaya_status render
  /\ World.localStorage w' = World.localStorage w.
Proof.
  intros B. cbv zeta.
  unfold sahaya_status, navigation_note, open_url, conversation.
  run_sahaya. rewrite truthy_trim, B. cbn [negb].
  destruct w as [[cu ms ui il st li sp vs tw er] ls us c rq sy op].
  cbn [apply_update].
  assert (T1 : truthy Sahaya.msg_image_failed = true) by reflexivity.
  assert (T2 : truthy Sahaya.msg_search_failed = true) by reflexivity.
  assert (T3 : truthy Sahaya.msg_chat_failed = true) by reflexivity.
  assert (T4 : forall s, truthy (js "Here is an image of " ++ s) = true)
    by reflexivity.
  assert (T5 : forall s, truthy (js "Opening " ++ s ++ js "...") = true)
    by reflexivity.
  assert (T6 : forall s,
             truthy (js "The current date and time is: " ++ s) = true)
    by reflexivity.
  assert (T7 : forall s, truthy (js "data:image/jpeg;base64," ++ s) = true)
    by reflexivity.
  destruct (imageMatch text) as [subject|].
  { destruct (Env.models_generateImages env _ _) as [[gi]|e];
      [destruct gi as [[|[img] l]|]; [| destruct img as [[b]|] |]|];
      cbn; rewrite ?T7, ?T1, ?T4; cbn; rewrite ?T1, ?T4; cbn;
      destruct (Env.hasSpeechSynthesis env); cbn;
      (split; [reflexivity|]);
      (split; [eexists; split; [|rewrite <- ?app_assoc; reflexivity];
               reflexivity|]); auto. }
  destruct (openMatch text) as [target|].
  { cbn. rewrite T5. destruct (Env.hasSpeechSynthesis env); cbn;
      (split; [reflexivity|]);
      (split; [eexists; split; [|rewrite <- ?app_assoc; reflexivity];
               reflexivity|]); auto. }
  destruct (timeMatch text).
  { cbn. rewrite T6. destruct (Env.hasSpeechSynthesis env); cbn;
      (split; [reflexivity|]);
      (split; [eexists; split; [|rewrite <- ?app_assoc; reflexivity];
               reflexivity|]); auto. }
  destruct (searchMatch text).
  { destruct (Env.models_generateContent env text) as [[cs [[|? t]|]]|e];
      cbn; rewrite ?T2; destruct (Env.hasSpeechSynthesis env); cbn;
      (split; [reflexivity|]);
      (split; [eexists; split; [|rewrite <- ?app_assoc; reflexivity];
               reflexivity|]); auto. }
  destruct (Env.shared_chat_sendMessage env text) as [[cs [[|? t]|]]|e];
    cbn; rewrite ?T3; destruct (Env.hasSpeechSynthesis env); cbn;
    (split; [reflexivity|]);
    (split; [eexists; split; [|rewrite <- ?app_assoc; reflexivity];
               reflexivity|]); auto.
Qed.

Lemma sahaya_turn_completes_witness :
  AppState.isLoading
    (World.app (fst (Sahaya.handleSendMessage Sample.env_down Sample.app0
                       (js "hello") Sample.fresh)))
  = false.
Proof.
  apply (sahaya_turn_completes Sample.env_down Sample.app0 (js "hello")
           Sample.fresh).
  reflexivity.
Defined.

Lemma match_literal_head a p s r :
  match_literal (a :: p) s = Some r ->
  exists b s', s = b :: s' /\ toUpperASCII a = toUpperASCII b.
Proof.
  destruct s as [|b s']; cbn; [discriminate|].
  destruct (toUpperASCII a =? toUpperASCII b) eqn:E; [|discriminate].
  intros _. exists b, s'. split; [reflexivity|]. by apply N.eqb_eq.
Qed.

Lemma toUpperASCII_letter a b :
  65 <= toUpperASCII a <= 90 -> toUpperASCII a = toUpperASCII b ->
  isWhiteSpace b = false.
Proof.
  unfold toUpperASCII. intros Ha E.
  assert (Hb : 65 <= b <= 122).
  { destruct ((97 <=? b) && (b <=? 122)) eqn:R.
    - apply andb_true_iff in R as [R1 R2].
      apply N.leb_le in R1, R2. lia.
    - lia. }
  unfold isWhiteSpace.
  repeat (apply orb_false_iff; split);
    try (apply N.eqb_neq; lia).
  apply andb_false_iff. left. apply N.leb_gt. lia.
Qed.

(** A text on which the [open] pattern matches is not blank. *)
Lemma openMatch_not_blank text target :
  openMatch text = Some target -> blank text = false.
Proof.
  unfold openMatch. destruct (match_literal (js "open ") text) eqn:M;
    [|discriminate].
  intros _. change (js "open ") with (111 :: js "pen ") in M.
  apply match_literal_head in M as (b & s' & -> & E).
  cbn. rewrite (toUpperASCII_letter 111 b); [reflexivity| |exact E].
  vm_compute. split; discriminate.
Qed.

Ltac sahaya_start w :=
  cbv zeta; unfold conversation, open_url; run_sahaya;
  destruct w as [[cu ms ui il st li sp vs tw er] ls us c rq sy op];
  cbn [apply_update].

(** X17: the [open] command sends nothing over the network.  It opens one
    window, on the address typed after "open" with "https://" put in front
    unless it starts with "http" (so the address opened always starts with
    "http"), notes the navigation in a system message and answers with
    "Opening ...". *)
Theorem sahaya_open_command (env : Env.t) (render : AppState.t)
  (text target : jsstring) (w : World.t) :
  imageMatch text = None ->
  openMatch text = Some target ->
  let w' := fst (Sahaya.handleSendMessage env render text w) in
  World.opened w' = World.opened w ++ [open_url target]
  /\ startsWith (open_url target) (js "http") = true
  /\ World.requests w' = World.requests w
  /\ conversation w' =
     conversation w
     ++ [Message.mk (toString (Env.Date_now_submit env)) USER (Some text)
           None None;
         Message.mk (toString (Env.Date_now_navigate env) ++ js "-sys") SYSTEM
           (Some (js "Navigating to " ++ open_url target)) None None;
         Message.mk (toString (Env.Date_now_reply env) ++ js "-model") MODEL
           (Some (js "Opening " ++ target ++ js "...")) None None].
Proof.
  intros Hi Ho. pose proof (openMatch_not_blank _ _ Ho) as B.
  assert (Hs : startsWith (open_url target) (js "http") = true).
  { unfold open_url. cbv zeta.
    destruct (startsWith (trim target) (js "http")) eqn:S; [exact S|].
    reflexivity. }
  revert Hs. sahaya_start w. intros Hs.
  rewrite truthy_trim, B, Hi, Ho. cbn [negb].
  assert (T5 : truthy (js "Opening " ++ target ++ js "...") = true)
    by reflexivity.
  cbn. rewrite T5. destruct (Env.hasSpeechSynthesis env); cbn;
    rewrite <- ?app_assoc; auto.
Qed.

Lemma sahaya_open_command_witness :
  World.opened (fst (Sahaya.handleSendMessage Sample.env_down Sample.app0
                       (js "Open example.com") Sample.fresh))
  = [js "https://example.com"].
Proof.
  apply (sahaya_open_command Sample.env_down Sample.app0
           (js "Open example.com") (js "example.com") Sample.fresh);
    reflexivity.
Defined.

(** X18: the time command sends nothing over the network either: the
    answer is the clock's reading after a fixed lead-in. *)
Theorem sahaya_time_command (env : Env.t) (render : AppState.t)
  (text : jsstring) (w : World.t) :
  blank text = false ->
  imageMatch text = None -> openMatch text = None -> timeMatch text = true ->
  let w' := fst (Sahaya.handleSendMessage env render text w) in
  World.requests w' = World.requests w
  /\ World.opened w' = World.opened w
  /\ conversation w' =
     conversation w
     ++ [Message.mk (toString (Env.Date_now_submit env)) USER (Some text)
           None None;
         Message.mk (toString (Env.Date_now_reply env) ++ js "-model") MODEL
           (Some (js "The current date and time is: "
                  ++ Env.toLocaleString_now env)) None None].
Proof.
  intros B Hi Ho Ht. sahaya_start w.
  rewrite truthy_trim, B, Hi, Ho, Ht. cbn [negb].
  assert (T6 : truthy (js "The current date and time is: "
                       ++ Env.toLocaleString_now env) = true) by reflexivity.
  cbn. rewrite T6. destruct (Env.hasSpeechSynthesis env); cbn;
    rewrite <- ?app_assoc; auto.
Qed.

Lemma sahaya_time_command_witness :
  World.requests (fst (Sahaya.handleSendMessage Sample.env_down Sample.app0
                         (js "hey, what TIME is it?") Sample.fresh))
  = [].
Proof.
  apply (sahaya_time_command Sample.env_down Sample.app0
           (js "hey, what TIME is it?") Sample.fresh); reflexivity.
Defined.

(** X19: a message that is no command goes to the shared chat, as one
    request.  The model's message carries the response's text; when the call
    faults it carries the fixed English apology and the fault is logged. *)
Theorem sahaya_chat_route (env : Env.t) (render : AppState.t)
  (text : jsstring) (w : World.t) :
  blank text = false ->
  imageMatch text = None -> openMatch text = None ->
  timeMatch text = false -> searchMatch text = false ->
  let w' := fst (Sahaya.handleSendMessage env render text w) in
  let reply t :=
    Message.mk (toString (Env.Date_now_reply env) ++ js "-model") MODEL t
      None None in
  World.requests w' = World.requests w ++ [SharedChatSendMessage text]
  /\ match Env.shared_chat_sendMessage env text with
     | Ok response =>
       conversation w' =
       conversation w
       ++ [Message.mk (toString (Env.Date_now_submit env)) USER (Some text)
             None None; reply (Response.text response)]
       /\ World.console w' = World.console w
     | Throw e =>
       conversation w' =
       conversation w
       ++ [Message.mk (toString (Env.Date_now_submit env)) USER (Some text)
             None None; reply (Some Sahaya.msg_chat_failed)]
       /\ World.console w' =
          World.console w
          ++ [LogEntry.mk (Some (js "Error sending message to Gemini:")) e]
     end.
Proof.
  intros B Hi Ho Ht Hs. sahaya_start w.
  rewrite truthy_trim, B, Hi, Ho, Ht, Hs. cbn [negb].
  assert (T3 : truthy Sahaya.msg_chat_failed = true) by reflexivity.
  destruct (Env.shared_chat_sendMessage env text) as [[cs [[|? t]|]]|e];
    cbn; rewrite ?T3; destruct (Env.hasSpeechSynthesis env); cbn;
    rewrite <- ?app_assoc; auto.
Qed.

Lemma sahaya_chat_route_witness :
  World.requests (fst (Sahaya.handleSendMessage Sample.env_down Sample.app0
                         (js "hello") Sample.fresh))
  = [SharedChatSendMessage (js "hello")].
Proof.
  apply (sahaya_chat_route Sample.env_down Sample.app0 (js "hello")
           Sample.fresh); reflexivity.
Defined.

(** X20: the image command sends one image request, for the words after
    "image of".  The model's message either shows the image, a JPEG data
    URI, under "Here is an image of ...", or is the fixed apology with no
    image; it is the apology whenever the call faults or brings no
    image. *)
Theorem sahaya_image_command (env : Env.t) (render : AppState.t)
  (text subject : jsstring) (w : World.t) :
  blank text = false ->
  imageMatch text = Some subject ->
  let w' := fst (Sahaya.handleSendMessage env render text w) in
  let model := js "imagen-3.0-generate-002" in
  let user :=
    Message.mk (toString (Env.Date_now_submit env)) USER (Some text)
      None None in
  let reply t image :=
    Message.mk (toString (Env.Date_now_reply env) ++ js "-model") MODEL t
      image None in
  let apology :=
    conversation w' =
    conversation w ++ [user; reply (Some Sahaya.msg_image_failed) None] in
  World.requests w' = World.requests w ++ [GenerateImages model (Some subject)]
  /\ ((exists imageUrl,
         startsWith imageUrl (js "data:image/jpeg;base64,") = true
         /\ conversation w' =
            conversation w
            ++ [user; reply (Some (js "Here is an image of " ++ subject))
                        (Some imageUrl)])
      \/ apology)
  /\ (forall e,
        Env.models_generateImages env model (Some subject) = Throw e ->
        apology)
  /\ (forall response,
        Env.models_generateImages env model (Some subject) = Ok response ->
        ImagesResponse.generatedImages response = None
        \/ ImagesResponse.generatedImages response = Some [] ->
        apology).
Proof.
  intros B Hi. sahaya_start w. rewrite truthy_trim, B, Hi. cbn [negb].
  assert (T1 : truthy Sahaya.msg_image_failed = true) by reflexivity.
  assert (T4 : truthy (js "Here is an image of " ++ subject) = true)
    by reflexivity.
  assert (T7 : forall s, truthy (js "data:image/jpeg;base64," ++ s) = true)
    by reflexivity.
  destruct (Env.models_generateImages env _ _) as [[gi]|e];
    [destruct gi as [[|[img] l]|]; [| destruct img as [[b]|] |]|];
    cbn; rewrite ?T7, ?T1, ?T4; cbn; rewrite ?T1, ?T4; cbn;
    destruct (Env.hasSpeechSynthesis env); cbn; rewrite <- ?app_assoc;
    (split; [reflexivity|]);
    (split; [first [ by right
                   | left; eexists; split; [apply startsWith_app|reflexivity] ]
            |]);
    (split; [intros e' E; first [discriminate E | reflexivity]|]).
  all: intros response E; first [discriminate E | injection E as <-].
  all: cbn; intros [D|D]; first [discriminate D | reflexivity].
Qed.

Lemma sahaya_image_command_witness :
  conversation (fst (Sahaya.handleSendMessage Sample.env_down Sample.app0
                       (js "make an image of a cat") Sample.fresh))
  = [Message.mk (js "1") USER (Some (js "make an image of a cat")) None None;
     Message.mk (js "2-model") MODEL (Some Sahaya.msg_image_failed) None None].
Proof.
  refine (proj1 (proj2 (proj2
    (sahaya_image_command Sample.env_down Sample.app0
       (js "make an image of a cat") (js "a cat") Sample.fresh _ _)))
    Sample.fault _); reflexivity.
Defined.



(** ** The command patterns *)

Lemma match_literal_split p s r :
  match_literal p s = Some r ->
  exists lead, s = lead ++ r /\ length lead = length p.
Proof.
  revert s. induction p as [|a p IH]; intros s; cbn.
  - intros [= ->]. by exists [].
  - destruct s as [|b s']; [discriminate|].
    destruct (toUpperASCII a =? toUpperASCII b); [|discriminate].
    intros H. destruct (IH _ H) as (lead & -> & L).
    exists (b :: lead). cbn. by rewrite L.
Qed.

Lemma dot_star_split s :
  exists rest,
    s = dot_star s ++ rest
    /\ Forall (fun c => isLineTerminator c = false) (dot_star s)
    /\ (rest = [] \/ exists c r, rest = c :: r /\ isLineTerminator c = true).
Proof.
  induction s as [|c s (rest & E & F & R)]; cbn.
  - exists []. repeat split; [constructor | by left].
  - destruct (isLineTerminator c) eqn:L.
    + exists (c :: s). repeat split; [constructor | right; eauto].
    + exists rest. cbn. split; [by rewrite <- E|]. split; [|exact R].
      by constructor.
Qed.

Lemma dot_plus_split s cap :
  dot_plus s = Some cap ->
  cap <> []
  /\ exists rest,
       s = cap ++ rest
       /\ Forall (fun c => isLineTerminator c = false) cap
       /\ (rest = [] \/ exists c r, rest = c :: r /\ isLineTerminator c = true).
Proof.
  unfold dot_plus. destruct (dot_star_split s) as (rest & E & F & R).
  destruct (dot_star s) as [|c r] eqn:D; [discriminate|].
  intros [= <-]. split; [discriminate|]. by exists rest.
Qed.

Lemma first_match_some {A} (alternatives : list (option A)) a :
  first_match alternatives = Some a -> Some a ∈ alternatives.
Proof.
  induction alternatives as [|[x|] r IH]; cbn; [discriminate| |].
  - intros [= ->]. apply list_elem_of_here.
  - intros H. apply list_elem_of_further. by apply IH.
Qed.

Lemma capture_after p text r cap k :
  (exists lead, text = lead ++ r /\ length lead = k) ->
  match_literal p r ≫= dot_plus = Some cap ->
  captured text cap (k + length p).
Proof.
  intros (lead & -> & L) H.
  destruct (match_literal p r) as [r'|] eqn:M; [|discriminate]. cbn in H.
  destruct (match_literal_split _ _ _ M) as (lead' & -> & L').
  destruct (dot_plus_split _ _ H) as (Hn & rest & -> & F & R).
  split; [exact Hn|]. split; [exact F|].
  exists (lead ++ lead'), rest. rewrite <- !app_assoc.
  split; [reflexivity|]. split; [|exact R].
  rewrite length_app. lia.
Qed.

(** X22: what the [open] and the image commands capture is never empty and
    never runs over a line end: for [open] it starts right after the five
    characters of "open ", for the image command after one of the six
    lead-ins "generate|create|make a|an image of ", and it goes to the end
    of the text or of its first line. *)
Theorem command_captures (text cap : jsstring) :
  (openMatch text = Some cap -> captured text cap 5)
  /\ (imageMatch text = Some cap ->
      exists lead, lead ∈ [20; 21; 18; 19; 16; 17]%nat
                   /\ captured text cap lead).
Proof.
  split.
  - unfold openMatch. intros H.
    apply (capture_after (js "open ") text text cap 0); [|exact H].
    by exists [].
  - unfold imageMatch. intros H. apply first_match_some in H.
    assert (G : forall word n,
               length word = n ->
               (match_literal word text ≫=
                  (fun rest =>
                     rest ← match_literal (js " a") rest;
                     first_match
                       [match_literal (js "n") rest ≫=
                          (fun rest => match_literal (js " image of ") rest
                                       ≫= dot_plus);
                        match_literal (js " image of ") rest ≫= dot_plus]))
               = Some cap ->
               captured text cap (n + 13) \/ captured text cap (n + 12)).
    { intros word n Ln Hw.
      destruct (match_literal word text) as [r1|] eqn:M1; [|discriminate].
      cbn [mbind option_bind] in Hw.
      destruct (match_literal (js " a") r1) as [r2|] eqn:M2; [|discriminate].
      cbn [mbind option_bind] in Hw. apply first_match_some in Hw.
      destruct (match_literal_split _ _ _ M1) as (l1 & E1 & L1).
      destruct (match_literal_split _ _ _ M2) as (l2 & E2 & L2).
      apply elem_of_cons in Hw as [Hw|Hw];
        [|apply elem_of_cons in Hw as [Hw|Hw];
          [|by apply elem_of_nil in Hw]]; symmetry in Hw.
      - destruct (match_literal (js "n") r2) as [r3|] eqn:M3; [|discriminate].
        cbn [mbind option_bind] in Hw.
        destruct (match_literal_split _ _ _ M3) as (l3 & E3 & L3).
        left.
        replace (n + 13)%nat with ((n + 3) + length (js " image of "))%nat
          by (change (length (js " image of ")) with 10%nat; lia).
        apply (capture_after _ text r3); [|exact Hw].
        exists (l1 ++ l2 ++ l3). subst. rewrite <- !app_assoc.
        split; [reflexivity|]. rewrite !length_app, L2, L3.
        change (length (js " a")) with 2%nat.
        change (length (js "n")) with 1%nat. lia.
      - right.
        replace (n + 12)%nat with ((n + 2) + length (js " image of "))%nat
          by (change (length (js " image of ")) with 10%nat; lia).
        apply (capture_after _ text r2); [|exact Hw].
        exists (l1 ++ l2). subst. rewrite <- !app_assoc.
        split; [reflexivity|]. rewrite !length_app, L2.
        change (length (js " a")) with 2%nat. lia. }
    repeat (apply elem_of_cons in H as [H|H]); [| | |by apply elem_of_nil in H];
      symmetry in H.
    + destruct (G (js "generate") 8%nat eq_refl H) as [C|C];
        eexists; (split; [|exact C]); cbn;
        repeat (first [apply list_elem_of_here | apply list_elem_of_further]).
    + destruct (G (js "create") 6%nat eq_refl H) as [C|C];
        eexists; (split; [|exact C]); cbn;
        repeat (first [apply list_elem_of_here | apply list_elem_of_further]).
    + destruct (G (js "make") 4%nat eq_refl H) as [C|C];
        eexists; (split; [|exact C]); cbn;
        repeat (first [apply list_elem_of_here | apply list_elem_of_further]).
Qed.

Lemma command_captures_witness :
  captured (js "Open example.com") (js "example.com") 5.
Proof.
  apply (command_captures (js "Open example.com") (js "example.com")).
  reflexivity.
Defined.

(** ** The microphone of the bilingual front end *)

(** X23: in continuous listening a [no-speech] error is benign: it is
    logged and nothing else changes, so the listening goes on.  Any other
    error ends the listening and shows "Mic Error: " followed by the error
    code, or by the advice to enable the microphone when access was
    denied. *)
Theorem sahaya_mic_error_policy (error : jsstring) (w : World.t) :
  let w' := fst (SahayaMic.recognition_onerror error w) in
  snd (SahayaMic.recognition_onerror error w) = Ok tt
  /\ World.console w' =
     World.console w
     ++ [LogEntry.mk (Some (js "Speech recognition error:"))
           (JsError.mk error [])]
  /\ (error = js "no-speech" ->
      World.app w' = World.app w /\ World.updates w' = World.updates w)
  /\ (error <> js "no-speech" ->
      AppState.isListening (World.app w') = false
      /\ AppState.status (World.app w') =
         js "Mic Error: "
         ++ (if bool_decide (error = js "not-allowed")
             then js "Microphone access denied. Please enable it in your browser settings."
             else error)
      /\ conversation w' = conversation w).
Proof.
  cbv zeta. unfold SahayaMic.recognition_onerror, mbind, M_bind, mret, M_ret,
    console_error, dispatch.
  destruct w as [[] ? ? ? ? ? ?]. case_bool_decide as E; cbn.
  - split; [reflexivity|]. split; [reflexivity|].
    split; [by intros _ | intros N; by destruct N].
  - split; [reflexivity|]. split; [reflexivity|].
    split; [intros N; by destruct (E N) | by intros _].
Qed.

(** ** The message bubble *)

Lemma sources_from_lookup index results i result :
  results !! i = Some result ->
  MessageView.sources_from index results !! i
  = Some (MessageView.mkSource
            (toString (N.of_nat (index + i + 1)) ++ js ". "
             ++ (if truthy (SearchResult.title result)
                 then SearchResult.title result else SearchResult.uri result))
            (SearchResult.uri result)).
Proof.
  revert index i. induction results as [|r rs IH]; intros index i;
    [by destruct i|].
  destruct i as [|i].
  - cbn. intros [= ->]. by rewrite Nat.add_0_r.
  - intros H. etrans; [exact (IH (S index) i H)|].
    by replace (S index + i + 1)%nat with (index + S i + 1)%nat by lia.
Qed.

Lemma sources_from_length index results :
  length (MessageView.sources_from index results) = length results.
Proof.
  revert index. induction results as [|r rs IH]; intros index; cbn;
    [reflexivity | by rewrite IH].
Qed.

(** X24: a system message is shown as its text alone.  Any other message
    shows its text and its image only when they are there and not empty,
    and one source per search result, in order: the i-th is numbered i
    (from 1), is labelled with the result's title, or with its address when
    the title is empty, and links to the result's address. *)
Theorem message_bubble (message : Message.t) :
  (Message.role message = SYSTEM ->
   MessageView.render message
   = MessageView.SystemBubble (Message.text message))
  /\ (Message.role message <> SYSTEM ->
      exists paragraph image sources,
        MessageView.render message
        = MessageView.Bubble (bool_decide (Message.role message = USER))
            paragraph image sources
        /\ (forall t, paragraph = Some t <->
                      Message.text message = Some t /\ t <> [])
        /\ (forall u, image = Some u <->
                      Message.imageUrl message = Some u /\ u <> [])
        /\ length sources = length (default [] (Message.searchResults message))
        /\ (forall i result,
              default [] (Message.searchResults message) !! i = Some result ->
              sources !! i
              = Some (MessageView.mkSource
                        (toString (N.of_nat (i + 1)) ++ js ". "
                         ++ (if truthy (SearchResult.title result)
                             then SearchResult.title result
                             else SearchResult.uri result))
                        (SearchResult.uri result)))).
Proof.
  unfold MessageView.render. split.
  - intros ->. reflexivity.
  - intros R. rewrite bool_decide_eq_false_2 by exact R.
    do 3 eexists. split; [reflexivity|].
    split; [|split; [|split]].
    + intros t. destruct (Message.text message) as [[|c s]|]; cbn;
        split; try (intros [= <-]; split; [reflexivity | discriminate]);
        try discriminate; try (intros [[= <-] N]; done);
        try (intros [[=] _]).
    + intros u. destruct (Message.imageUrl message) as [[|c s]|]; cbn;
        split; try (intros [= <-]; split; [reflexivity | discriminate]);
        try discriminate; try (intros [[= <-] N]; done);
        try (intros [[=] _]).
    + destruct (Message.searchResults message) as [[|r rs]|];
        try reflexivity.
      apply sources_from_length.
    + intros i result.
      destruct (Message.searchResults message) as [[|r rs]|];
        try (by destruct i).
      apply (sources_from_lookup 0).
Qed.

Lemma message_bubble_witness :
  MessageView.render warningMessage
  = MessageView.SystemBubble (Message.text warningMessage).
Proof.
  apply (message_bubble warningMessage). reflexivity.
Defined.

(** ** The notice and the callback that owes it *)

(** X25: the guard of [speak] reads the flag of the render that built the
    callback, not the live one.  When that render owes the notice, every
    call of the same callback appends it: two calls append it twice. *)
Theorem speak_stale_callback_repeats_notice (env : Env.t)
  (render : AppState.t) (first second : jsstring) (w : World.t) :
  notice_due env render = true ->
  let w' := fst ((speak env render first;; speak env render second) w) in
  notices_emitted w' = (notices_emitted w + 2)%nat
  /\ conversation w' = conversation w ++ [warningMessage; warningMessage].
Proof.
  intros N. cbv zeta. unfold mbind, M_bind. rewrite speak_run.
  rewrite speak_run. unfold speak_updates. rewrite N.
  destruct w as [[] ? ? ? ? ? ?]. unfold notices_emitted, conversation.
  cbn [fst World.app World.updates].
  rewrite !notices_app. split; [|cbn; by rewrite <- app_assoc].
  assert (E : notices [setMessages_append warningMessage;
                       setTtsWarningShown true] = 1%nat).
  { unfold notices. cbn [List.filter is_notice].
    by rewrite bool_decide_eq_true_2. }
  rewrite E. lia.
Qed.

Lemma speak_stale_callback_repeats_notice_witness :
  notices_emitted
    (fst ((speak Sample.env_chat Sample.app0 (js "one");;
           speak Sample.env_chat Sample.app0 (js "two")) Sample.fresh))
  = (notices_emitted Sample.fresh + 2)%nat.
Proof.
  apply (speak_stale_callback_repeats_notice Sample.env_chat Sample.app0
           (js "one") (js "two") Sample.fresh).
  reflexivity.
Defined.
